(** * Site link crawler: a shallow embedding of [site_crawler.py]

    The development follows the layout of the script:

    - [Py]       the [str] operations the script and [urllib.parse] rely on;
    - [IpAddress] the validity test of [ipaddress.ip_address] (used by
                 [urllib.parse] for bracketed hosts);
    - [UrlParse] [urllib.parse] as shipped with CPython 3.11
                 ([urlsplit], [urlparse], [urlunsplit], [urlunparse],
                 [urljoin]);
    - the helpers [normalise], [same_domain], [status_label], [get_links];
    - the crawler [crawl] itself, as a state-passing loop in an exception
      monad;
    - [UrlStages] the stages of [urlparse] as predicates on its result;
    - [Fetcher]  the retry loop that [urllib3] runs for the [Retry] policy
                 of [crawl];
    - the output: [Csv] ([csv.writer] with its default dialect),
      [save_csv], [print_summary] and [main].

    The facts come after the definitions: first those about strings and
    about [urllib.parse], then the properties of the helpers and of the
    crawler, then further properties of the helpers, of [crawl] and of
    the output.

    Python [str] values are modelled by [string]: sequences of code points
    below 256.  Python [int] is [Z]. *)

From Stdlib Require Import ZArith Ascii String List Bool Lia DecimalString.
From stdpp Require Import base option list gmap strings sorting.

Local Open Scope string_scope.
Local Open Scope list_scope.
Local Open Scope Z_scope.

#[local] Set Warnings "-register-all".

(** ** Exceptions

    The only exception that the modelled code can raise by itself is
    [ValueError] (from [urllib.parse.urlsplit]).  A computation that may
    raise returns a [result]. *)

Inductive exn : Type := ValueError.

Inductive result (A : Type) : Type :=
| Ok (a : A)
| Raise (e : exn).

Arguments Ok {A} a.
Arguments Raise {A} e.

#[global] Instance result_ret : MRet result := fun _ a => Ok a.
#[global] Instance result_bind : MBind result := fun _ _ f m =>
  match m with
  | Ok a => f a
  | Raise e => Raise e
  end.

Definition is_ok {A} (r : result A) : bool :=
  match r with Ok _ => true | Raise _ => false end.

(** ** Python string operations *)

Module Py.

Definition is_empty (s : string) : bool :=
  match s with EmptyString => true | String _ _ => false end.

(** [bool(s)] for a string. *)
Definition truthy (s : string) : bool := negb (is_empty s).

(** [s[:n]] and [s[n:]] for [0 <= n]. *)
Fixpoint take (n : nat) (s : string) : string :=
  match n, s with
  | S n', String c s' => String c (take n' s')
  | _, _ => EmptyString
  end.

Fixpoint drop (n : nat) (s : string) : string :=
  match n, s with
  | S n', String _ s' => drop n' s'
  | _, _ => s
  end.

(** [c in s] for a one-character string [c]. *)
Fixpoint contains (c : ascii) (s : string) : bool :=
  match s with
  | EmptyString => false
  | String a s' => if Ascii.eqb a c then true else contains c s'
  end.

(** [s.find(c)]: the least index of [c], or [-1]. *)
Fixpoint find (c : ascii) (s : string) : Z :=
  match s with
  | EmptyString => -1
  | String a s' =>
      if Ascii.eqb a c then 0
      else let r := find c s' in if r <? 0 then -1 else r + 1
  end.

(** [s.find(c, start)] for [0 <= start]. *)
Definition find_from (c : ascii) (s : string) (start : nat) : Z :=
  let r := find c (drop start s) in
  if r <? 0 then -1 else Z.of_nat start + r.

(** [s.rfind(c)]: the greatest index of [c], or [-1]. *)
Fixpoint rfind (c : ascii) (s : string) : Z :=
  match s with
  | EmptyString => -1
  | String a s' =>
      let r := rfind c s' in
      if 0 <=? r then r + 1 else if Ascii.eqb a c then 0 else -1
  end.

(** [s.startswith(p)]. *)
Fixpoint startswith (s p : string) {struct p} : bool :=
  match p, s with
  | EmptyString, _ => true
  | String a p', String b s' => Ascii.eqb a b && startswith s' p'
  | String _ _, EmptyString => false
  end.

(** [sub in s] for a string [sub]. *)
Fixpoint has_substring (sub s : string) : bool :=
  startswith s sub ||
  match s with
  | EmptyString => false
  | String _ s' => has_substring sub s'
  end.

(** [all(p(c) for c in s)]. *)
Fixpoint all_chars (p : ascii -> bool) (s : string) : bool :=
  match s with
  | EmptyString => true
  | String a s' => p a && all_chars p s'
  end.

(** [s.lstrip(chars)], the set [chars] given by its membership test. *)
Fixpoint lstrip (p : ascii -> bool) (s : string) : string :=
  match s with
  | EmptyString => EmptyString
  | String a s' => if p a then lstrip p s' else s
  end.

(** [s.rstrip(chars)]. *)
Fixpoint rstrip (p : ascii -> bool) (s : string) : string :=
  match s with
  | EmptyString => EmptyString
  | String a s' =>
      let r := rstrip p s' in
      if is_empty r && p a then EmptyString else String a r
  end.

(** [s.replace(c, "")] for a one-character string [c]. *)
Fixpoint remove (c : ascii) (s : string) : string :=
  match s with
  | EmptyString => EmptyString
  | String a s' => if Ascii.eqb a c then remove c s' else String a (remove c s')
  end.

(** [s.partition(c)]: the parts before and after the first [c], and
    whether [c] was found. *)
Fixpoint partition (c : ascii) (s : string) : string * bool * string :=
  match s with
  | EmptyString => (EmptyString, false, EmptyString)
  | String a s' =>
      if Ascii.eqb a c then (EmptyString, true, s')
      else let '(b, found, r) := partition c s' in (String a b, found, r)
  end.

(** [s.rpartition(c)[2]]: what follows the last [c]; all of [s] when
    there is none. *)
Fixpoint after_last (c : ascii) (s : string) : string :=
  match s with
  | EmptyString => EmptyString
  | String a s' =>
      if contains c s' then after_last c s'
      else if Ascii.eqb a c then s' else s
  end.

(** [s.split(c)]: never empty. *)
Fixpoint split (c : ascii) (s : string) : list string :=
  match s with
  | EmptyString => [EmptyString]
  | String a s' =>
      if Ascii.eqb a c then EmptyString :: split c s'
      else match split c s' with
           | [] => [String a EmptyString]
           | w :: ws => String a w :: ws
           end
  end.

(** [c.join(parts)]. *)
Fixpoint join (c : string) (parts : list string) : string :=
  match parts with
  | [] => EmptyString
  | [w] => w
  | w :: ws => w +:+ c +:+ join c ws
  end.

Definition code (c : ascii) : N := N_of_ascii c.

Definition between (lo hi c : ascii) : bool :=
  ((code lo <=? code c) && (code c <=? code hi))%N.

(** [c.isascii() and c.isalpha()]. *)
Definition is_ascii_alpha (c : ascii) : bool :=
  between "A" "Z" c || between "a" "z" c.

(** [c.isascii() and c.isdigit()]. *)
Definition is_ascii_digit (c : ascii) : bool := between "0" "9" c.

(** [c.isspace()] on code points below 256. *)
Definition is_space (c : ascii) : bool :=
  between "009" "013" c || between "028" "032" c
  || (code c =? 133)%N || (code c =? 160)%N.

(** [c.lower()] on code points below 256. *)
Definition lower_char (c : ascii) : ascii :=
  if between "A" "Z" c
     || (((192 <=? code c) && (code c <=? 222))%N && negb (code c =? 215)%N)
  then ascii_of_N (code c + 32)
  else c.

Fixpoint lower (s : string) : string :=
  match s with
  | EmptyString => EmptyString
  | String a s' => String (lower_char a) (lower s')
  end.

(** [s.strip()]. *)
Definition strip (s : string) : string := rstrip is_space (lstrip is_space s).

End Py.

(** ** [ipaddress.ip_address], as far as [urllib.parse] observes it

    [urlsplit] only needs to know whether the text between the brackets of
    a host is accepted, so the functions below return the success of the
    corresponding constructors, not the address. *)

Module IpAddress.

(** [int(s, 10)] for a string of ASCII digits. *)
Fixpoint decimal_value (acc : Z) (s : string) : Z :=
  match s with
  | EmptyString => acc
  | String c s' => decimal_value (10 * acc + (Z.of_N (Py.code c) - 48)) s'
  end.

(** [_BaseV4._parse_octet] returns. *)
Definition parse_octet_ok (octet_str : string) : bool :=
  Py.truthy octet_str
  && Py.all_chars Py.is_ascii_digit octet_str
  && (String.length octet_str <=? 3)%nat
  && negb (negb (String.eqb octet_str "0") && Py.startswith octet_str "0")
  && (decimal_value 0 octet_str <=? 255).

(** [IPv4Address(address)] returns. *)
Definition IPv4Address_ok (address : string) : bool :=
  negb (Py.contains "/" address)
  && Py.truthy address
  && (let octets := Py.split "." address in
      (length octets =? 4)%nat && forallb parse_octet_ok octets).

Definition is_hex_digit (c : ascii) : bool :=
  Py.is_ascii_digit c || Py.between "a" "f" c || Py.between "A" "F" c.

(** [_BaseV6._parse_hextet] returns ([int("", 16)] raises). *)
Definition parse_hextet_ok (hextet_str : string) : bool :=
  Py.all_chars is_hex_digit hextet_str
  && (String.length hextet_str <=? 4)%nat
  && Py.truthy hextet_str.

(** The indices [i] in [range(1, len(parts) - 1)] with [parts[i]] empty. *)
Definition inner_empty_indices (parts : list string) : list nat :=
  filter (fun i => bool_decide (parts !! i = Some EmptyString))
         (seq 1 (length parts - 2)).

(** [_BaseV6._ip_int_from_string] returns. *)
Definition ip6_int_from_string_ok (ip_str : string) : bool :=
  Py.truthy ip_str &&
  (let parts := Py.split ":" ip_str in
   (3 <=? length parts)%nat &&
   (* an IPv4-style suffix is replaced by two hextets *)
   (let last_part := List.last parts EmptyString in
    let v4_suffix := Py.contains "." last_part in
    (negb v4_suffix || IPv4Address_ok last_part) &&
    (let parts :=
       if v4_suffix then removelast parts ++ ["0"; "0"] else parts in
     let n := length parts in
     (n <=? 9)%nat &&
     (let first_empty := Py.is_empty (List.hd EmptyString parts) in
      let last_empty := Py.is_empty (List.last parts EmptyString) in
      match inner_empty_indices parts with
      | [] =>
          (n =? 8)%nat && negb first_empty && negb last_empty
          && forallb parse_hextet_ok parts
      | [skip_index] =>
          let parts_hi := if first_empty then skip_index - 1 else skip_index in
          let parts_lo :=
            if last_empty then n - skip_index - 1 - 1 else n - skip_index - 1 in
          (negb first_empty || (parts_hi =? 0))
          && (negb last_empty || (parts_lo =? 0))
          && (parts_hi + parts_lo <=? 7)
          && forallb parse_hextet_ok (list.take parts_hi parts)
          && forallb parse_hextet_ok (list.drop (n - parts_lo) parts)
      | _ => false
      end))))%nat.

(** [_BaseV6._split_scope_id] returns, and then its first component. *)
Definition split_scope_id (ip_str : string) : option string :=
  let '(addr, sep, scope_id) := Py.partition "%" ip_str in
  if negb sep then Some addr
  else if Py.is_empty scope_id || Py.contains "%" scope_id then None
  else Some addr.

(** [IPv6Address(address)] returns. *)
Definition IPv6Address_ok (address : string) : bool :=
  negb (Py.contains "/" address)
  && match split_scope_id address with
     | Some addr_str => ip6_int_from_string_ok addr_str
     | None => false
     end.

End IpAddress.

(** ** [urllib.parse] (CPython 3.11, [Lib/urllib/parse.py]) *)

Module UrlParse.

Definition uses_relative : list string :=
  [""; "ftp"; "http"; "gopher"; "nntp"; "imap";
   "wais"; "file"; "https"; "shttp"; "mms";
   "prospero"; "rtsp"; "rtspu"; "sftp";
   "svn"; "svn+ssh"; "ws"; "wss"].

Definition uses_netloc : list string :=
  [""; "ftp"; "http"; "gopher"; "nntp"; "telnet";
   "imap"; "wais"; "file"; "mms"; "https"; "shttp";
   "snews"; "prospero"; "rtsp"; "rtspu"; "rsync";
   "svn"; "svn+ssh"; "sftp"; "nfs"; "git"; "git+ssh";
   "ws"; "wss"].

Definition uses_params : list string :=
  [""; "ftp"; "hdl"; "prospero"; "http"; "imap";
   "https"; "shttp"; "rtsp"; "rtspu"; "sip"; "sips";
   "mms"; "sftp"; "tel"].

(** [x in l] for a list of strings. *)
Definition member (x : string) (l : list string) : bool :=
  existsb (String.eqb x) l.

(** [c in scheme_chars]. *)
Definition is_scheme_char (c : ascii) : bool :=
  Py.is_ascii_alpha c || Py.is_ascii_digit c
  || Ascii.eqb c "+" || Ascii.eqb c "-" || Ascii.eqb c ".".

(** [c in _WHATWG_C0_CONTROL_OR_SPACE]. *)
Definition is_c0_control_or_space (c : ascii) : bool :=
  (Py.code c <=? 32)%N.

(** The loop over [_UNSAFE_URL_BYTES_TO_REMOVE]. *)
Definition remove_unsafe (s : string) : string :=
  Py.remove "010" (Py.remove "013" (Py.remove "009" s)).

Record SplitResult : Type := mkSplitResult {
  s_scheme : string;
  s_netloc : string;
  s_path : string;
  s_query : string;
  s_fragment : string
}.

Record ParseResult : Type := mkParseResult {
  scheme : string;
  netloc : string;
  path : string;
  params : string;
  query : string;
  fragment : string
}.

(** [ParseResult._replace(fragment=f)]. *)
Definition replace_fragment (p : ParseResult) (f : string) : ParseResult :=
  mkParseResult (scheme p) (netloc p) (path p) (params p) (query p) f.

(** [s.split(c, 1)] when [c in s]. *)
Definition split1 (c : ascii) (s : string) : string * string :=
  let '(a, _, b) := Py.partition c s in (a, b).

Definition _splitparams (url : string) : string * string :=
  if Py.contains "/" url then
    let i := Py.find_from ";" url (Z.to_nat (Py.rfind "/" url)) in
    if i <? 0 then (url, "")
    else (Py.take (Z.to_nat i) url, Py.drop (Z.to_nat (i + 1)) url)
  else
    let i := Py.find ";" url in
    (Py.take (Z.to_nat i) url, Py.drop (Z.to_nat (i + 1)) url).

Definition _splitnetloc (url : string) (start : nat) : string * string :=
  let delim :=
    fold_left
      (fun delim c =>
         let wdelim := Py.find_from c url start in
         if 0 <=? wdelim then Z.min delim wdelim else delim)
      ["/"; "?"; "#"]%char
      (Z.of_nat (String.length url)) in
  (Py.drop start (Py.take (Z.to_nat delim) url), Py.drop (Z.to_nat delim) url).

(** [_checknetloc]: a netloc that is not ASCII is rejected when its NFKC
    form contains one of [/?#@:].  No code point below 256 has a
    compatibility decomposition that contains one of these characters,
    so on the strings modelled here the check always passes. *)
Definition _checknetloc (netloc : string) : result unit := Ok tt.

Definition _check_bracketed_host (hostname : string) : result unit :=
  if Py.startswith hostname "v" then
    (* re.match(r"\Av[a-fA-F0-9]+\..+\Z", hostname) *)
    let body := Py.drop 1 hostname in
    let rest := Py.lstrip IpAddress.is_hex_digit body in
    let tail := Py.drop 1 rest in
    if negb (String.eqb rest body)
       && Py.startswith rest "."
       && Py.truthy tail && negb (Py.contains "010" tail)
    then Ok tt else Raise ValueError
  else if IpAddress.IPv4Address_ok hostname then Raise ValueError
  else if IpAddress.IPv6Address_ok hostname then Ok tt
  else Raise ValueError.

Definition _check_bracketed_netloc (netloc : string) : result unit :=
  let hostname_and_port := Py.after_last "@" netloc in
  let '(before_bracket, have_open_br, bracketed) :=
    Py.partition "[" hostname_and_port in
  if have_open_br then
    if Py.truthy before_bracket then Raise ValueError
    else
      let '(hostname, _, port) := Py.partition "]" bracketed in
      if Py.truthy port && negb (Py.startswith port ":") then Raise ValueError
      else _check_bracketed_host hostname
  else
    let '(hostname, _, port) := Py.partition ":" hostname_and_port in
    _check_bracketed_host hostname.

(** [urlsplit(url, scheme)] with [allow_fragments=True]. *)
Definition urlsplit (url scheme : string) : result SplitResult :=
  let url := Py.lstrip is_c0_control_or_space url in
  let scheme :=
    Py.rstrip is_c0_control_or_space (Py.lstrip is_c0_control_or_space scheme) in
  let url := remove_unsafe url in
  let scheme := remove_unsafe scheme in
  let i := Py.find ":" url in
  let '(scheme, url) :=
    if (0 <? i)
       && match url with String c _ => Py.is_ascii_alpha c | EmptyString => false end
       && Py.all_chars is_scheme_char (Py.take (Z.to_nat i) url)
    then (Py.lower (Py.take (Z.to_nat i) url), Py.drop (Z.to_nat (i + 1)) url)
    else (scheme, url) in
  '(netloc, url) ←
    (if Py.startswith url "//" then
       let '(netloc, url) := _splitnetloc url 2 in
       if (Py.contains "[" netloc && negb (Py.contains "]" netloc))
          || (Py.contains "]" netloc && negb (Py.contains "[" netloc))
       then Raise ValueError
       else
         (if Py.contains "[" netloc && Py.contains "]" netloc
          then _check_bracketed_netloc netloc else Ok tt) ;;
         Ok (netloc, url)
     else Ok ("", url));
  let '(url, fragment) :=
    if Py.contains "#" url then split1 "#" url else (url, "") in
  let '(url, query) :=
    if Py.contains "?" url then split1 "?" url else (url, "") in
  _checknetloc netloc ;;
  Ok (mkSplitResult scheme netloc url query fragment).

(** [urlparse(url, scheme)]. *)
Definition urlparse (url scheme : string) : result ParseResult :=
  splitresult ← urlsplit url scheme;
  let '(mkSplitResult scheme netloc url query fragment) := splitresult in
  let '(url, params) :=
    if member scheme uses_params && Py.contains ";" url
    then _splitparams url else (url, "") in
  Ok (mkParseResult scheme netloc url params query fragment).

Definition urlunsplit (components : SplitResult) : string :=
  let '(mkSplitResult scheme netloc url query fragment) := components in
  let url :=
    if Py.truthy netloc
       || (Py.truthy scheme && member scheme uses_netloc
           && negb (Py.startswith url "//"))
    then
      let url :=
        if Py.truthy url && negb (Py.startswith url "/") then "/" +:+ url else url in
      "//" +:+ netloc +:+ url
    else url in
  let url := if Py.truthy scheme then scheme +:+ ":" +:+ url else url in
  let url := if Py.truthy query then url +:+ "?" +:+ query else url in
  let url := if Py.truthy fragment then url +:+ "#" +:+ fragment else url in
  url.

Definition urlunparse (components : ParseResult) : string :=
  let '(mkParseResult scheme netloc url params query fragment) := components in
  let url := if Py.truthy params then url +:+ ";" +:+ params else url in
  urlunsplit (mkSplitResult scheme netloc url query fragment).

(** [ParseResult.geturl()]. *)
Definition geturl (p : ParseResult) : string := urlunparse p.

(** [segments[1:-1] = filter(None, segments[1:-1])]. *)
Definition filter_inner (segments : list string) : list string :=
  match segments with
  | first :: (_ :: _) as rest =>
      first :: (filter (fun s => Py.truthy s) (removelast rest)
                ++ [List.last rest ""])%list
  | _ => segments
  end.

(** The loop of [urljoin] that resolves [.] and [..]. *)
Definition resolve_segments (segments : list string) : list string :=
  fold_left
    (fun resolved_path seg =>
       if String.eqb seg ".." then removelast resolved_path
       else if String.eqb seg "." then resolved_path
       else (resolved_path ++ [seg])%list)
    segments [].

(** [urljoin(base, url)] with [allow_fragments=True]. *)
Definition urljoin (base url : string) : result string :=
  if Py.is_empty base then Ok url
  else if Py.is_empty url then Ok base
  else
    b ← urlparse base "";
    u ← urlparse url (scheme b);
    if negb (String.eqb (scheme u) (scheme b))
       || negb (member (scheme u) uses_relative)
    then Ok url
    else if member (scheme u) uses_netloc && Py.truthy (netloc u)
    then Ok (urlunparse u)
    else
      let netloc' := if member (scheme u) uses_netloc then netloc b else netloc u in
      if Py.is_empty (path u) && Py.is_empty (params u) then
        let query' := if Py.is_empty (query u) then query b else query u in
        Ok (urlunparse
              (mkParseResult (scheme u) netloc' (path b) (params b) query'
                             (fragment u)))
      else
        let base_parts := Py.split "/" (path b) in
        let base_parts :=
          if negb (String.eqb (List.last base_parts "") "")
          then removelast base_parts else base_parts in
        let segments :=
          if Py.startswith (path u) "/" then Py.split "/" (path u)
          else filter_inner (base_parts ++ Py.split "/" (path u))%list in
        let resolved_path := resolve_segments segments in
        let resolved_path :=
          if String.eqb (List.last segments "") "."
             || String.eqb (List.last segments "") ".."
          then (resolved_path ++ [""])%list else resolved_path in
        let joined := Py.join "/" resolved_path in
        Ok (urlunparse
              (mkParseResult (scheme u) netloc'
                             (if Py.is_empty joined then "/" else joined)
                             (params u) (query u) (fragment u))).

End UrlParse.

(** ** Loops whose body may raise *)

(** [for x in l: b = f(b, x)], stopping at the first exception. *)
Fixpoint foldM {A B : Type} (f : B -> A -> result B) (l : list A) (b : B)
  : result B :=
  match l with
  | [] => Ok b
  | x :: l' => b' ← f b x; foldM f l' b'
  end.

(** ** Config *)

Definition SPECIFIC_LABELS : gmap Z string :=
  list_to_map
    [(400, "❌ 400 Bad Request");
     (401, "🔒 401 Unauthorized");
     (403, "🚫 403 Forbidden (bot-blocked?)");
     (404, "❌ 404 Not Found");
     (405, "❌ 405 Method Not Allowed");
     (410, "❌ 410 Gone");
     (429, "⏳ 429 Rate Limited");
     (500, "⚠️  500 Server Error");
     (502, "⚠️  502 Bad Gateway");
     (503, "⚠️  503 Service Unavailable")].

Definition STATUS_LABELS : gmap Z string :=
  list_to_map
    [(2, "✅ OK");
     (3, "↪️  Redirect");
     (4, "❌ Client Error");
     (5, "⚠️  Server Error")].

(** ** Helpers *)

Definition normalise (url : string) : result string :=
  parsed ← UrlParse.urlparse url "";
  Ok (UrlParse.geturl (UrlParse.replace_fragment parsed "")).

Definition same_domain (url base : string) : result bool :=
  u ← UrlParse.urlparse url "";
  b ← UrlParse.urlparse base "";
  Ok (String.eqb (UrlParse.netloc u) (UrlParse.netloc b)).

(** [code // 100] is [code / 100] on [Z]: both round towards minus
    infinity. *)
Definition status_label (code : Z) : string :=
  match SPECIFIC_LABELS !! code with
  | Some label => label
  | None => default "❓ Unknown" (STATUS_LABELS !! (code / 100))
  end.

(** The label that [crawl] records (line 143):
    [status_label(code) if code else "⏱  Timeout/Error"]. *)
Definition TIMEOUT_LABEL : string := "⏱  Timeout/Error".

Definition result_label (code : Z) : string :=
  if code =? 0 then TIMEOUT_LABEL else status_label code.

(** *** Parsed documents

    What [BeautifulSoup(html, "html.parser")] returns: a tree of tags and
    text.  A tag's [attrs] is a dictionary. *)

Inductive PageElement : Type :=
| NavigableString (text : string)
| Tag (name : string) (attrs : gmap string string) (contents : list PageElement).

(** [soup.descendants]: every element below the root, in document order. *)
Fixpoint descendants_of (e : PageElement) : list PageElement :=
  match e with
  | NavigableString _ => []
  | Tag _ _ contents =>
      flat_map (fun child => child :: descendants_of child) contents
  end.

Definition descendants (soup : list PageElement) : list PageElement :=
  flat_map (fun child => child :: descendants_of child) soup.

(** [soup.find_all(name, **{attr: True})]: the tags called [name] that
    carry the attribute [attr], in document order; each is given by its
    attributes. *)
Definition find_all (soup : list PageElement) (name attr : string)
  : list (gmap string string) :=
  omap (fun e =>
          match e with
          | Tag n attrs _ =>
              if String.eqb n name && bool_decide (is_Some (attrs !! attr))
              then Some attrs else None
          | NavigableString _ => None
          end)
       (descendants soup).

(** The body of the loop of [get_links] (lines 85 to 89). *)
Definition get_links_step (page_url : string) (links : list string)
           (tag : gmap string string) : result (list string) :=
  let href := Py.strip (default "" (tag !! "href")) in
  if Py.startswith href "mailto:" || Py.startswith href "tel:"
     || Py.startswith href "javascript:"
  then Ok links
  else
    joined ← UrlParse.urljoin page_url href;
    full ← normalise joined;
    Ok (links ++ [full]).

(** *** Responses *)

(** What the crawler reads of a [requests.Response]: [status_code],
    [headers.get("Content-Type")] and [text]. *)
Record Response : Type := mkResponse {
  status_code : Z;
  content_type : option string;
  text : string
}.

(** The outcome of [session.get]: a response, or one of the exceptions of
    [requests.exceptions]; every exception that [requests] raises is a
    [RequestException]. *)
Inductive GetOutcome : Type :=
| Returned (resp : Response)
| RaisedTimeout
| RaisedConnectionError
| RaisedRequestException.

(** One entry of the list that [crawl] returns. *)
Record CrawlResult : Type := mkCrawlResult {
  url : string;
  r_status_code : Z;
  label : string
}.

(** ** Crawler *)

Section Crawler.

(** The state of everything outside the program: the network, the
    servers and the clock. *)
Context {World : Type}.

(** [session.get(url, timeout=timeout, allow_redirects=True)] on the
    session that [crawl] configures (headers, redirects, retry adapter). *)
Variable session_get : string -> Z -> World -> GetOutcome * World.

(** [time.sleep(jitter)]. *)
Variable time_sleep : World -> World.

(** [BeautifulSoup(html, "html.parser")]. *)
Variable BeautifulSoup : string -> list PageElement.

Definition get_links (html page_url : string) : result (list string) :=
  let soup := BeautifulSoup html in
  foldM (get_links_step page_url) (find_all soup "a" "href") [].

(** The variables of the loop of [crawl]. *)
Record State : Type := mkState {
  queue : list string;
  visited : gset string;
  results : list CrawlResult;
  world : World
}.

(** The request (lines 129 to 141): the status code and the HTML that
    the loop goes on with. *)
Definition request (url : string) (timeout : Z) (w : World)
  : Z * string * World :=
  match session_get url timeout w with
  | (Returned resp, w') =>
      (status_code resp,
       if Py.has_substring "html" (default "" (content_type resp))
       then text resp else "",
       w')
  | (_, w') => (0, "", w')
  end.

(** The body of the loop over the links of a page (lines 150 to 155),
    on the pair of [visited] and [queue]. *)
Definition discover (start_url : string) (include_external : bool)
           (frontier : gset string * list string) (link : string)
  : result (gset string * list string) :=
  let '(visited, queue) := frontier in
  if bool_decide (link ∈ visited) then Ok frontier
  else
    out_of_scope ←
      (if negb include_external
       then (same ← same_domain link start_url; Ok (negb same))
       else Ok false);
    if out_of_scope : bool then Ok frontier
    else Ok ({[link]} ∪ visited, queue ++ [link]).

(** The body of the [while] loop (lines 126 to 159) when the queue
    starts with [url]. *)
Definition crawl_step (start_url : string) (timeout : Z)
           (include_external : bool) (url : string) (st : State)
  : result State :=
  let '(code, html, w) := request url timeout (world st) in
  let results := results st ++ [mkCrawlResult url code (result_label code)] in
  frontier ←
    (if Py.truthy html then
       same ← same_domain url start_url;
       if same : bool then
         links ← get_links html url;
         foldM (discover start_url include_external) links
               (visited st, tail (queue st))
       else Ok (visited st, tail (queue st))
     else Ok (visited st, tail (queue st)));
  Ok (mkState frontier.2 frontier.1 results (time_sleep w)).

(** [while queue and len(results) < max_pages].  Every iteration adds
    one result, so that [max_pages] iterations are enough: see
    [crawl_loop_exit]. *)
Fixpoint crawl_loop (fuel : nat) (start_url : string) (max_pages timeout : Z)
         (include_external : bool) (st : State) : result State :=
  match queue st with
  | url :: _ =>
      if Z.of_nat (length (results st)) <? max_pages then
        match fuel with
        | S fuel' =>
            st' ← crawl_step start_url timeout include_external url st;
            crawl_loop fuel' start_url max_pages timeout include_external st'
        | O => Ok st
        end
      else Ok st
  | [] => Ok st
  end.

(** The state in which [crawl] starts its loop. *)
Definition initial_state (start_url : string) (w : World) : State :=
  mkState [start_url] {[start_url]} [] w.

(** [crawl] up to the end of its loop. *)
Definition crawl_run (start_url : string) (max_pages timeout : Z)
           (include_external : bool) (w : World) : result State :=
  start_url ← normalise start_url;
  crawl_loop (Z.to_nat max_pages) start_url max_pages timeout include_external
             (initial_state start_url w).

Definition crawl (start_url : string) (max_pages timeout : Z)
           (include_external : bool) (w : World)
  : result (list CrawlResult) :=
  st ← crawl_run start_url max_pages timeout include_external w;
  Ok (results st).

(** *** The link graph that [crawl] walks

    [page_links url timeout w] are the links that the loop reads from
    the page at [url]: those of the HTML that [request] keeps. *)
Definition page_links (url : string) (timeout : Z) (w : World)
  : result (list string) :=
  let '(_, html, _) := request url timeout w in
  if Py.truthy html then get_links html url else Ok [].

(** [follows ... u v]: when the loop takes [u] from its queue it offers
    [v] to the queue (lines 148 to 153): [u] shares the authority of the
    start URL, [v] is one of its links, and [v] passes the scope test. *)
Definition follows (start_url : string) (timeout : Z)
           (include_external : bool) (u v : string) : Prop :=
  exists (w : World) (links : list string),
    same_domain u start_url = Ok true
    /\ page_links u timeout w = Ok links
    /\ v ∈ links
    /\ (include_external = true \/ same_domain v start_url = Ok true).

(** The URLs that the loop can come to from [start_url]. *)
Definition reachable (start_url : string) (timeout : Z)
           (include_external : bool) : string -> Prop :=
  rtc (follows start_url timeout include_external) start_url.

(** A web that serves every URL the same way at every time: what
    [request] keeps of the response depends on the URL alone. *)
Definition static_web (timeout : Z) : Prop :=
  forall (u : string) (w1 w2 : World),
    (request u timeout w1).1 = (request u timeout w2).1.

(** *** Invariants of the loop *)

(** The URLs of the results so far, in the order of the results. *)
Definition fetched (st : State) : list string := map url (results st).

(** [visited] is the set of the URLs that were fetched or wait in the
    queue, and none of them occurs twice. *)
Definition frontier_ok (st : State) : Prop :=
  NoDup (fetched st ++ queue st)
  /\ forall u, u ∈ visited st <-> u ∈ fetched st ++ queue st.

End Crawler.

(** ** The stages of [urlsplit] and [urlparse], named for the proofs *)

Module UrlStages.

Import UrlParse.

(** The first lines of [urlsplit]: leading control characters and spaces
    are stripped, tabs and newlines removed. *)
Definition clean (url : string) : string :=
  remove_unsafe (Py.lstrip is_c0_control_or_space url).

(** The test of [urlsplit] for a scheme in front of [url]. *)
Definition has_scheme (url : string) : bool :=
  (0 <? Py.find ":" url)
  && match url with String c _ => Py.is_ascii_alpha c | EmptyString => false end
  && Py.all_chars is_scheme_char (Py.take (Z.to_nat (Py.find ":" url)) url).

Definition split_scheme (default url : string) : string * string :=
  if has_scheme url
  then (Py.lower (Py.take (Z.to_nat (Py.find ":" url)) url),
        Py.drop (Z.to_nat (Py.find ":" url + 1)) url)
  else (default, url).

(** The tests of [urlsplit] on the brackets of a netloc. *)
Definition check_netloc (netloc : string) : result unit :=
  if (Py.contains "[" netloc && negb (Py.contains "]" netloc))
     || (Py.contains "]" netloc && negb (Py.contains "[" netloc))
  then Raise ValueError
  else if Py.contains "[" netloc && Py.contains "]" netloc
       then _check_bracketed_netloc netloc
       else Ok tt.

Definition split_netloc (url : string) : result (string * string) :=
  if Py.startswith url "//" then
    check_netloc (_splitnetloc url 2).1 ;; Ok (_splitnetloc url 2)
  else Ok ("", url).

(** [url.split(c, 1)] if [c in url], else [url] and the empty string. *)
Definition split_at (c : ascii) (url : string) : string * string :=
  if Py.contains c url then split1 c url else (url, "").

Definition split_params (scheme url : string) : string * string :=
  if member scheme uses_params && Py.contains ";" url
  then _splitparams url else (url, "").

(** The characters that end a netloc. *)
Definition is_delimiter (c : ascii) : bool :=
  Ascii.eqb c "/" || Ascii.eqb c "?" || Ascii.eqb c "#".

(** [s] is empty or starts with a character that ends a netloc. *)
Definition at_delimiter (s : string) : bool :=
  match s with EmptyString => true | String d _ => is_delimiter d end.

Definition is_unsafe (c : ascii) : bool :=
  Ascii.eqb c "009" || Ascii.eqb c "013" || Ascii.eqb c "010".

(** A string without the characters that satisfy [p]. *)
Definition free_of (p : ascii -> bool) (s : string) : bool :=
  Py.all_chars (fun c => negb (p c)) s.

(** What [urlsplit] takes for a scheme: a letter, then letters, digits
    and [+-.]. *)
Definition scheme_like (s : string) : bool :=
  match s with String c _ => Py.is_ascii_alpha c | EmptyString => false end
  && Py.all_chars is_scheme_char s.

(** A scheme as [urlsplit] returns it when it finds one: in lower case. *)
Definition valid_scheme (s : string) : bool :=
  scheme_like s && String.eqb (Py.lower s) s.

(** [s] is empty or starts with [c]. *)
Definition empty_or_starts (c : ascii) (s : string) : bool :=
  match s with EmptyString => true | String a _ => Ascii.eqb a c end.

(** The path that [urlunparse] hands to [urlunsplit]. *)
Definition full_path (p : ParseResult) : string :=
  if Py.truthy (params p) then path p +:+ ";" +:+ params p else path p.

(** The query as [urlunsplit] writes it. *)
Definition query_tail (q : string) : string :=
  if Py.truthy q then "?" +:+ q else "".

(** What holds of every value of [urlparse]. *)
Record wf_parse (p : ParseResult) : Prop := mk_wf_parse {
  wf_scheme : scheme p = "" \/ valid_scheme (scheme p) = true;
  wf_netloc : free_of is_delimiter (netloc p) = true;
  wf_netloc_checked : check_netloc (netloc p) = Ok tt;
  wf_path : Py.contains "?" (full_path p) = false
            /\ Py.contains "#" (full_path p) = false;
  wf_split_params :
    (member (scheme p) uses_params = false /\ params p = "")
    \/ (member (scheme p) uses_params = true
        /\ Py.contains ";" (Py.after_last "/" (path p)) = false
        /\ Py.contains "/" (params p) = false);
  wf_query : Py.contains "#" (query p) = false;
  wf_rooted : Py.truthy (netloc p) = true ->
              empty_or_starts "/" (full_path p) = true;
  wf_no_scheme : scheme p = "" -> has_scheme (full_path p) = false;
  wf_safe : free_of is_unsafe (netloc p) = true
            /\ free_of is_unsafe (full_path p) = true
            /\ free_of is_unsafe (query p) = true;
  wf_first : scheme p = "" -> netloc p = "" ->
             Py.lstrip is_c0_control_or_space (full_path p) = full_path p
}.

End UrlStages.

(** ** A small web to run the crawler on *)

Module Example.

Definition seed : string := "http://example.com/".
Definition page_b : string := "http://example.com/b".
Definition page_c : string := "http://example.com/c".
Definition page_d : string := "http://example.com/d".
Definition page_ext : string := "http://example.com/ext".
Definition page_bad : string := "http://example.com/bad".
Definition other_site : string := "http://other.org/".

Definition html_seed : string := "<a href='/b'>B</a> <a href='/c#top'>C</a>".
Definition html_b : string := "<a href='/d'>D</a> <a href='mailto:me@example.com'>mail</a>".
Definition html_ext : string := "<a href='http://other.org/'>elsewhere</a>".
Definition html_bad : string := "<a href='http://['>broken</a>".

Definition anchor (href text : string) : PageElement :=
  Tag "a" {[ "href" := href ]} [NavigableString text].

(** The parse trees of the four documents above. *)
Definition soup (html : string) : list PageElement :=
  if String.eqb html html_seed then
    [anchor "/b" "B"; NavigableString " "; anchor "/c#top" "C"]
  else if String.eqb html html_b then
    [anchor "/d" "D"; NavigableString " "; anchor "mailto:me@example.com" "mail"]
  else if String.eqb html html_ext then
    [anchor "http://other.org/" "elsewhere"]
  else if String.eqb html html_bad then
    [anchor "http://[" "broken"]
  else [].

Definition html_page (body : string) : GetOutcome :=
  Returned (mkResponse 200 (Some "text/html; charset=utf-8") body).

(** What the servers answer. *)
Definition serve (url : string) : GetOutcome :=
  if String.eqb url seed then html_page html_seed
  else if String.eqb url page_b then html_page html_b
  else if String.eqb url page_c then RaisedTimeout
  else if String.eqb url page_d then
    Returned (mkResponse 404 (Some "text/html") "")
  else if String.eqb url page_ext then html_page html_ext
  else if String.eqb url page_bad then html_page html_bad
  else if String.eqb url other_site then
    Returned (mkResponse 200 (Some "image/png") "<a href='/x'>x</a>")
  else RaisedConnectionError.

(** The world is the log of the requests made so far. *)
Definition get (url : string) (timeout : Z) (log : list string)
  : GetOutcome * list string :=
  (serve url, log ++ [url]).

Definition sleep (log : list string) : list string := log.

End Example.

(** ** The retry policy *)

(** The arguments of [Retry] that [crawl] sets (lines 107 to 112). *)
Record Retry : Type := mkRetry {
  total : Z;
  backoff_factor : Z;
  status_forcelist : list Z;
  allowed_methods : list string
}.

Definition retry : Retry :=
  mkRetry 3 1 [429; 500; 502; 503; 504] ["GET"; "HEAD"].

(** The script only builds the policy and mounts it on the session
    ([HTTPAdapter(max_retries=retry)]); the loop that honours it is the
    one of [urllib3] 1.26 ([HTTPConnectionPool.urlopen] with the methods
    [is_retry], [increment], [is_exhausted], [get_backoff_time],
    [sleep_for_retry] and [sleep] of [Retry]), reached through
    [HTTPAdapter.send] of [requests].  [Fetcher] follows that loop for one
    request of the session; the requests that follow a redirect are
    further requests of the same kind. *)
Module Fetcher.

(** The network as the fetcher sees it: the requests sent so far, in
    order, and the calls of [time.sleep] made between them, in seconds. *)
Record Net : Type := mkNet {
  sent : list string;
  slept : list Z
}.

(** [Retry.DEFAULT_BACKOFF_MAX]. *)
Definition BACKOFF_MAX : Z := 120.

(** [Retry.RETRY_AFTER_STATUS_CODES]. *)
Definition RETRY_AFTER_STATUS_CODES : list Z := [413; 429; 503].

(** The defaults of two arguments of [Retry] that [crawl] does not
    pass. *)
Definition respect_retry_after_header : bool := true.
Definition raise_on_status : bool := true.

(** The value of the header [Retry-After] of a response, by the way
    [Retry.parse_retry_after] reads it: a number of seconds (the value
    matches [^\s*[0-9]+\s*$] and [int] reads it), a date, given here by
    the whole seconds from the clock to it (negative for a date that has
    passed), the empty value, or another value that is neither a number
    nor a date.  A number set off by one of the separators 0x1c to 0x1f,
    which the pattern accepts and [int] refuses, is not among them. *)
Inductive RetryAfter : Type :=
| delay_seconds (n : N)
| http_date (seconds_from_now : Z)
| empty_value
| malformed.

(** [c.upper()] for a code point below 256; [None] where the upper case
    lies above 255 (for 0xb5 and 0xff), so that it is no string of the
    model. *)
Definition upper_char (c : ascii) : option string :=
  if ((Py.code c =? 181) || (Py.code c =? 255))%N then None
  else if (Py.code c =? 223)%N then Some "SS"
  else if Py.between "a" "z" c
          || (((224 <=? Py.code c) && (Py.code c <=? 254))%N
              && negb (Py.code c =? 247)%N)
       then Some (String (ascii_of_N (Py.code c - 32)) "")
       else Some (String c "").

(** [s.upper()]. *)
Fixpoint upper (s : string) : option string :=
  match s with
  | EmptyString => Some EmptyString
  | String c s' =>
      match upper_char c, upper s' with
      | Some u, Some r => Some (String.append u r)
      | _, _ => None
      end
  end.

Section Fetch.

(** [serve url k]: what comes back from the request number [k] (from 0)
    for [url]. *)
Variable serve : string -> nat -> GetOutcome.

(** [retry_after url k]: [response.headers.get("Retry-After")] for the
    response to that request. *)
Variable retry_after : string -> nat -> option RetryAfter.

(** Which transport failures are tried again; the library decides this
    by the kind of the error and the method. *)
Variable transport_retryable : string -> GetOutcome -> bool.

Variable policy : Retry.

(** One request on the wire. *)
Definition send (url : string) (net : Net)
  : GetOutcome * option RetryAfter * Net :=
  let k := length (List.filter (String.eqb url) (sent net)) in
  (serve url k, retry_after url k, mkNet (sent net ++ [url]) (slept net)).

(** [time.sleep(seconds)]. *)
Definition time_sleep (seconds : Z) (net : Net) : Net :=
  mkNet (sent net) (slept net ++ [seconds]).

(** [Retry._is_method_retryable]. *)
Definition is_method_retryable (method : string) : bool :=
  match allowed_methods policy with
  | [] => true
  | _ :: _ =>
      match upper method with
      | Some m => bool_decide (m ∈ allowed_methods policy)
      | None => false
      end
  end.

(** [bool(response.headers.get("Retry-After"))]. *)
Definition has_retry_after (header : option RetryAfter) : bool :=
  match header with
  | None | Some empty_value => false
  | Some _ => true
  end.

(** [Retry.is_retry], with [retries_left] the value of [self.total]. *)
Definition is_retry (retries_left : nat) (method : string) (status_code : Z)
           (has_retry_after : bool) : bool :=
  if negb (is_method_retryable method) then false
  else if bool_decide (status_code ∈ status_forcelist policy) then true
  else negb (Nat.eqb retries_left 0)
       && respect_retry_after_header
       && has_retry_after
       && bool_decide (status_code ∈ RETRY_AFTER_STATUS_CODES).

(** [Retry.get_backoff_time], with [errors] the number of failed
    attempts so far: nothing after the first one, then
    [backoff_factor * 2 ** (errors - 1)], at most [BACKOFF_MAX]. *)
Definition get_backoff_time (errors : nat) : Z :=
  if (errors <=? 1)%nat then 0
  else Z.min BACKOFF_MAX (backoff_factor policy * 2 ^ (Z.of_nat errors - 1)).

(** [Retry._sleep_backoff]: a backoff that is not positive does not
    sleep. *)
Definition sleep_backoff (errors : nat) (net : Net) : Net :=
  let backoff := get_backoff_time errors in
  if backoff <=? 0 then net else time_sleep backoff net.

(** [Retry.parse_retry_after]: the seconds to wait, not negative;
    [None] when it raises [InvalidHeader]. *)
Definition parse_retry_after (value : RetryAfter) : option Z :=
  match value with
  | delay_seconds n => Some (Z.of_N n)
  | http_date seconds => Some (if seconds <? 0 then 0 else seconds)
  | empty_value | malformed => None
  end.

(** [Retry.sleep_for_retry]: whether it slept, and the network then;
    [None] when the header cannot be read. *)
Definition sleep_for_retry (header : option RetryAfter) (net : Net)
  : option (bool * Net) :=
  match header with
  | None => Some (false, net)
  | Some value =>
      match parse_retry_after value with
      | Some seconds =>
          if seconds =? 0 then Some (false, net)
          else Some (true, time_sleep seconds net)
      | None => None
      end
  end.

(** [Retry.sleep(response)]; [response] is [None] after a transport
    failure and the header of the response otherwise.  The wait that the
    server asks for comes first, the backoff is for the case that it asks
    for none.  [None] when [InvalidHeader] is raised. *)
Definition sleep (errors : nat) (response : option (option RetryAfter))
           (net : Net) : option Net :=
  match response with
  | Some header =>
      if respect_retry_after_header then
        match sleep_for_retry header net with
        | Some (true, net') => Some net'
        | Some (false, net') => Some (sleep_backoff errors net')
        | None => None
        end
      else Some (sleep_backoff errors net)
  | None => Some (sleep_backoff errors net)
  end.

(** What the caller sees when the retries are used up: [requests] raises
    [RetryError] for a status and [ConnectionError] for a transport
    failure. *)
Definition exhausted (out : GetOutcome) : GetOutcome :=
  match out with
  | Returned _ => RaisedRequestException
  | _ => RaisedConnectionError
  end.

(** The loop of [urlopen].  A response that [is_retry] accepts, or a
    transport failure that is tried again, uses up one of the retries
    that are left ([increment]); when none is left the fetch fails
    ([MaxRetryError], with [raise_on_status]), otherwise it sleeps and
    sends the request again.  [errors] counts the failed attempts before
    this one (the history of the [Retry] object).  [InvalidHeader] is a
    [RequestException] of [requests]. *)
Fixpoint fetch_from (retries_left errors : nat) (method url : string)
         (net : Net) : GetOutcome * Net :=
  let '(out, header, net) := send url net in
  match out with
  | Returned resp =>
      if is_retry retries_left method (status_code resp)
                  (has_retry_after header)
      then
        match retries_left with
        | S retries_left' =>
            match sleep (S errors) (Some header) net with
            | Some net' => fetch_from retries_left' (S errors) method url net'
            | None => (RaisedRequestException, net)
            end
        | O => if raise_on_status then (exhausted out, net) else (out, net)
        end
      else (out, net)
  | _ =>
      if transport_retryable method out then
        match retries_left with
        | S retries_left' =>
            match sleep (S errors) None net with
            | Some net' => fetch_from retries_left' (S errors) method url net'
            | None => (RaisedRequestException, net)
            end
        | O => (exhausted out, net)
        end
      else (out, net)
  end.

Definition fetch (method url : string) (net : Net) : GetOutcome * Net :=
  fetch_from (Z.to_nat (total policy)) 0 method url net.

(** [session.get] on a session whose adapter retries by [policy]. *)
Definition session_get (url : string) (timeout : Z) (net : Net)
  : GetOutcome * Net :=
  fetch "GET" url net.

End Fetch.

(** A server that answers 503 twice and then 200. *)
Definition flaky (url : string) (k : nat) : GetOutcome :=
  if (k <? 2)%nat then Returned (mkResponse 503 (Some "text/plain") "busy")
  else Returned (mkResponse 200 (Some "text/plain") "ok").

(** Responses without the header [Retry-After]. *)
Definition no_header (url : string) (k : nat) : option RetryAfter := None.

(** A server that answers 413 with [Retry-After: 3] twice and then
    200. *)
Definition throttled (url : string) (k : nat) : GetOutcome :=
  if (k <? 2)%nat then Returned (mkResponse 413 (Some "text/plain") "wait")
  else Returned (mkResponse 200 (Some "text/plain") "ok").

Definition throttled_header (url : string) (k : nat) : option RetryAfter :=
  if (k <? 2)%nat then Some (delay_seconds 3) else None.

End Fetcher.

(** ** Output *)

(** [str(n)] for an [int]: decimal digits, with [-] for a negative
    number. *)
Definition str_of_int (n : Z) : string := NilZero.string_of_int (Z.to_int n).

(** [s.replace(c, d)] for one-character strings [c] and [d]. *)
Fixpoint replace_char (c d : ascii) (s : string) : string :=
  match s with
  | EmptyString => EmptyString
  | String a s' =>
      String (if Ascii.eqb a c then d else a) (replace_char c d s')
  end.

(** *** [csv.writer] with the default dialect

    The dialect [excel]: fields are separated by a comma, a record ends
    with CR LF, and a field is quoted only when it has to be
    ([QUOTE_MINIMAL]): when it contains the delimiter, the quote character
    or a character of the line terminator.  Inside a quoted field the
    quote character is doubled. *)
Module Csv.

Definition delimiter : ascii := ",".
Definition quotechar : ascii := "034".
Definition lineterminator : string := String "013" (String "010" "").

(** The characters that force quotes around a field. *)
Definition is_special (c : ascii) : bool :=
  Ascii.eqb c delimiter || Ascii.eqb c quotechar
  || Py.contains c lineterminator.

Fixpoint double_quotes (field : string) : string :=
  match field with
  | EmptyString => EmptyString
  | String c field' =>
      if Ascii.eqb c quotechar
      then String c (String c (double_quotes field'))
      else String c (double_quotes field')
  end.

Definition quoted (field : string) : string :=
  String quotechar (double_quotes field +:+ String quotechar "").

Definition write_field (field : string) : string :=
  if Py.all_chars (fun c => negb (is_special c)) field then field
  else quoted field.

(** [writer.writerow(fields)], the text that it writes.  A record that
    consists of one empty field is written in quotes. *)
Definition writerow (fields : list string) : string :=
  match fields with
  | [EmptyString] => quoted "" +:+ lineterminator
  | _ => Py.join (String delimiter "") (map write_field fields)
         +:+ lineterminator
  end.

End Csv.

(** The [fieldnames] of the [DictWriter] of [save_csv]. *)
Definition fieldnames : list string := ["url"; "status_code"; "label"].

(** The values of a result in the order of [fieldnames], as the writer
    sees them: the status code through [str]. *)
Definition row_values (r : CrawlResult) : list string :=
  [url r; str_of_int (r_status_code r); label r].

(** [save_csv(results, path)]: the text that is written to the file at
    [path], which is opened for writing without newline translation.
    The first record is the header. *)
Definition save_csv (results : list CrawlResult) : string :=
  Csv.writerow fieldnames
  +:+ String.concat "" (map (fun r => Csv.writerow (row_values r)) results).

(** *** [print_summary] *)

(** [Counter(keys)]. *)
Definition Counter (keys : list Z) : gmap Z nat :=
  foldl (fun counts k => <[k := S (default 0%nat (counts !! k))]> counts)
        ∅ keys.

(** The key under which [print_summary] counts a result (line 177):
    [r["status_code"] // 100 if r["status_code"] else 0]. *)
Definition status_group (code : Z) : Z :=
  if code =? 0 then 0 else code / 100.

(** [sorted(STATUS_LABELS.items())]: the keys are distinct, so the pairs
    are in the order of their keys. *)
Definition key_le (a b : Z * string) : Prop := a.1 ≤ b.1.

#[global] Instance key_le_dec : RelDecision key_le :=
  fun a b => decide (a.1 ≤ b.1).

Definition sorted_status_labels : list (Z * string) :=
  merge_sort key_le (map_to_list STATUS_LABELS).

(** The test of the list [broken] (lines 190 and 191). *)
Definition is_broken (r : CrawlResult) : bool :=
  bool_decide (r_status_code r ∈ [0; 404; 410]) || (500 <=? r_status_code r).

(** [print_summary(results)]: the arguments of its calls of [print], in
    order; each call writes its argument and a newline. *)
Definition print_summary (results : list CrawlResult) : list string :=
  let counts := Counter (map (fun r => status_group (r_status_code r)) results) in
  let errors := default 0%nat (counts !! 0) in
  let broken := List.filter is_broken results in
  ["── Summary ──────────────────────────────────"]
  ++ flat_map
       (fun '(group, label) =>
          let n := default 0%nat (counts !! group) in
          if (0 <? n)%nat
          then ["  " +:+ label +:+ ": " +:+ str_of_int (Z.of_nat n)]
          else [])
       sorted_status_labels
  ++ (if (0 <? errors)%nat
      then ["  ⏱  Timeout/Error: " +:+ str_of_int (Z.of_nat errors)]
      else [])
  ++ ["  Total: " +:+ str_of_int (Z.of_nat (length results))]
  ++ ["─────────────────────────────────────────────" +:+ String "010" ""]
  ++ match broken with
     | [] => []
     | _ :: _ =>
         ["🚨 Broken / Error URLs:"]
         ++ map (fun r => "   [" +:+ str_of_int (r_status_code r) +:+ "] "
                          +:+ url r)
                broken
         ++ [""]
     end.

(** ** CLI *)

(** The arguments that [main] reads from the command line. *)
Module Args.

Record t : Type := mk {
  url : string;
  output : string;
  max_pages : Z;
  timeout : Z;
  external : bool
}.

End Args.

(** The default output filename (lines 218 to 220); [date] is
    [datetime.now().strftime("%Y%m%d_%H%M%S")]. *)
Definition default_output (url date : string) : result string :=
  parsed ← UrlParse.urlparse url "";
  let domain := replace_char "." "_" (UrlParse.netloc parsed) in
  Ok ("site_" +:+ domain +:+ "_" +:+ date +:+ ".csv").

(** What [main] leaves behind. *)
Record Report : Type := mkReport {
  csv_path : string;
  csv_text : string;
  summary : list string
}.

Section Main.

Context {World : Type}.
Variable session_get : string -> Z -> World -> GetOutcome * World.
Variable time_sleep : World -> World.
Variable BeautifulSoup : string -> list PageElement.

(** [main], after [parse_args] has returned [args]: the file that it
    writes and the summary that it prints. *)
Definition main (args : Args.t) (date : string) (w : World) : result Report :=
  output ←
    (if Py.truthy (Args.output args) then Ok (Args.output args)
     else default_output (Args.url args) date);
  results ←
    crawl session_get time_sleep BeautifulSoup (Args.url args)
          (Args.max_pages args) (Args.timeout args) (Args.external args) w;
  Ok (mkReport output (save_csv results) (print_summary results)).

End Main.

(** ** The calls that a crawl makes

    A world that keeps a log of the calls of [session.get] and
    [time.sleep] beside the world proper. *)

Inductive Event : Type :=
| Requested (url : string)
| Slept.

Section Logged.

Context {World : Type}.
Variable session_get : string -> Z -> World -> GetOutcome * World.
Variable time_sleep : World -> World.

Definition logged_get (url : string) (timeout : Z) (lw : list Event * World)
  : GetOutcome * (list Event * World) :=
  let '(out, w') := session_get url timeout lw.2 in
  (out, (lw.1 ++ [Requested url], w')).

Definition logged_sleep (lw : list Event * World) : list Event * World :=
  (lw.1 ++ [Slept], time_sleep lw.2).

End Logged.

(** ** Predicates used in the statements of the further properties *)

Definition is_bracket (c : ascii) : bool :=
  Ascii.eqb c "[" || Ascii.eqb c "]".

(** A string without square brackets. *)
Definition bracket_free (s : string) : bool := UrlStages.free_of is_bracket s.

Definition non_ascii (c : ascii) : bool := (128 <=? Py.code c)%N.

(** [s.isascii()]. *)
Definition isascii (s : string) : bool := UrlStages.free_of non_ascii s.

(** An ASCII string without square brackets. *)
Definition plain (s : string) : bool := isascii s && bracket_free s.

(** The values of [href] of the anchors of a document, in document
    order. *)
Definition hrefs (soup : list PageElement) : list string :=
  map (fun tag : gmap string string => default "" (tag !! "href"))
      (find_all soup "a" "href").

(** The default scheme as [urlsplit] cleans it. *)
Definition clean_scheme (scheme : string) : string :=
  UrlParse.remove_unsafe
    (Py.rstrip UrlParse.is_c0_control_or_space
               (Py.lstrip UrlParse.is_c0_control_or_space scheme)).

(** The test of line 86 on a stripped [href]. *)
Definition is_skipped (href : string) : bool :=
  Py.startswith href "mailto:" || Py.startswith href "tel:"
  || Py.startswith href "javascript:".

(** The link that [get_links] makes of the [href] of an anchor on the
    page [page_url] (line 88), when the anchor is not skipped. *)
Definition link_of (page_url href : string) : result string :=
  UrlParse.urljoin page_url (Py.strip href) ≫= normalise.

(** The documents of [Example] without the document with the broken
    link. *)
Definition tidy_soup (html : string) : list PageElement :=
  if String.eqb html Example.html_bad then [] else Example.soup html.

(** [s.count(c)] for a one-character string [c]. *)
Fixpoint count_char (c : ascii) (s : string) : nat :=
  match s with
  | EmptyString => 0%nat
  | String a s' =>
      if Ascii.eqb a c then S (count_char c s') else count_char c s'
  end.

(** The labels that a result can carry: the two fixed ones and the
    values of the two tables. *)
Definition all_labels : list string :=
  TIMEOUT_LABEL :: "❓ Unknown"
  :: (map snd (map_to_list SPECIFIC_LABELS)
      ++ map snd (map_to_list STATUS_LABELS)).

(** What [urljoin] puts together from the parsed base [b] and the parsed
    reference [u], apart from the scheme and the fragment, which are
    those of [u]: the netloc, the path, the parameters and the query; or
    nothing, when it returns the reference as it is. *)
Definition urljoin_parts (b u : UrlParse.ParseResult)
  : option (string * string * string * string) :=
  let '(UrlParse.mkParseResult bscheme bnetloc bpath bparams bquery _) := b in
  let '(UrlParse.mkParseResult scheme netloc path params query _) := u in
  if negb (String.eqb scheme bscheme)
     || negb (UrlParse.member scheme UrlParse.uses_relative)
  then None
  else if UrlParse.member scheme UrlParse.uses_netloc && Py.truthy netloc
  then Some (netloc, path, params, query)
  else
    let netloc' :=
      if UrlParse.member scheme UrlParse.uses_netloc then bnetloc else netloc in
    if Py.is_empty path && Py.is_empty params then
      Some (netloc', bpath, bparams,
            if Py.is_empty query then bquery else query)
    else
      let base_parts := Py.split "/" bpath in
      let base_parts :=
        if negb (String.eqb (List.last base_parts "") "")
        then removelast base_parts else base_parts in
      let segments :=
        if Py.startswith path "/" then Py.split "/" path
        else UrlParse.filter_inner (base_parts ++ Py.split "/" path)%list in
      let resolved_path := UrlParse.resolve_segments segments in
      let resolved_path :=
        if String.eqb (List.last segments "") "."
           || String.eqb (List.last segments "") ".."
        then (resolved_path ++ [""])%list else resolved_path in
      let joined := Py.join "/" resolved_path in
      Some (netloc', (if Py.is_empty joined then "/" else joined), params,
            query).

(** A set of characters, given by its membership test, that contains
    none of the characters that [urlunparse] writes between the
    components. *)
Definition keeps_punctuation (bad : ascii -> bool) : Prop :=
  bad ":"%char = false /\ bad "/"%char = false /\ bad "?"%char = false
  /\ bad "#"%char = false /\ bad ";"%char = false.

(** * Facts *)

(** ** The exception monad *)

Lemma bind_Ok {A B : Type} (m : result A) (f : A -> result B) (b : B) :
  m ≫= f = Ok b -> exists a, m = Ok a /\ f a = Ok b.
Proof. destruct m as [a|e]; simpl; [eauto | discriminate]. Qed.

Lemma foldM_app {A B : Type} (f : B -> A -> result B) (l1 l2 : list A) (b : B) :
  foldM f (l1 ++ l2) b = foldM f l1 b ≫= foldM f l2.
Proof.
  revert b. induction l1 as [|x l1 IH]; intros b; simpl; [reflexivity|].
  destruct (f b x) as [b'|e]; simpl; [apply IH | reflexivity].
Qed.

(** ** Strings *)

#[local] Arguments String.append _ _ : simpl nomatch.

Module PyFacts.

Import Py.

Lemma app_assoc (a b c : string) : (a +:+ b) +:+ c = a +:+ (b +:+ c).
Proof. induction a as [|x a IH]; simpl; [reflexivity | rewrite IH; reflexivity]. Qed.

Lemma app_empty_r (a : string) : a +:+ "" = a.
Proof. induction a as [|x a IH]; simpl; [reflexivity | rewrite IH; reflexivity]. Qed.

Lemma length_app (a b : string) :
  String.length (a +:+ b) = (String.length a + String.length b)%nat.
Proof. induction a as [|x a IH]; simpl; [reflexivity | rewrite IH; reflexivity]. Qed.

Lemma take_app (a b : string) : take (String.length a) (a +:+ b) = a.
Proof. induction a as [|x a IH]; simpl; [destruct b | rewrite IH]; reflexivity. Qed.

Lemma drop_app (a b : string) : drop (String.length a) (a +:+ b) = b.
Proof. induction a as [|x a IH]; simpl; [reflexivity | exact IH]. Qed.

Lemma take_all (a : string) : take (String.length a) a = a.
Proof. rewrite <- (app_empty_r a) at 2. apply take_app. Qed.

Lemma drop_all (a : string) : drop (String.length a) a = "".
Proof. rewrite <- (app_empty_r a) at 2. apply drop_app. Qed.

Lemma is_empty_true (s : string) : is_empty s = true <-> s = "".
Proof. destruct s; simpl; split; intros H; (reflexivity || discriminate). Qed.

Lemma truthy_false (s : string) : truthy s = false <-> s = "".
Proof. destruct s; simpl; split; intros H; (reflexivity || discriminate). Qed.

Lemma truthy_app_r (a b : string) : truthy b = true -> truthy (a +:+ b) = true.
Proof. destruct a; simpl; auto. Qed.

(** *** Membership and search *)

Lemma contains_app (c : ascii) (a b : string) :
  contains c (a +:+ b) = contains c a || contains c b.
Proof.
  induction a as [|x a IH]; simpl; [reflexivity|].
  destruct (Ascii.eqb x c); [reflexivity | exact IH].
Qed.

Lemma contains_cons (c x : ascii) (s : string) :
  contains c (String x s) = Ascii.eqb x c || contains c s.
Proof. simpl. destruct (Ascii.eqb x c); reflexivity. Qed.

(** A string that contains [c] splits at the first [c]. *)
Lemma contains_first (c : ascii) (s : string) :
  contains c s = true ->
  exists a b, s = a +:+ String c b /\ contains c a = false.
Proof.
  induction s as [|x s IH]; simpl; [discriminate|].
  destruct (Ascii.eqb_spec x c) as [->|Hne].
  - intros _. exists "", s. split; reflexivity.
  - intros (a & b & -> & Ha)%IH. exists (String x a), b. simpl.
    rewrite (proj2 (Ascii.eqb_neq x c) Hne). split; [reflexivity | exact Ha].
Qed.

(** A string that contains [c] splits at the last [c]. *)
Lemma contains_last (c : ascii) (s : string) :
  contains c s = true ->
  exists a b, s = a +:+ String c b /\ contains c b = false.
Proof.
  induction s as [|x s IH]; simpl; [discriminate|].
  destruct (contains c s) eqn:Hs.
  - intros _. destruct (IH eq_refl) as (a & b & -> & Hb).
    exists (String x a), b. split; [reflexivity | exact Hb].
  - destruct (Ascii.eqb_spec x c) as [->|Hne]; [|discriminate].
    intros _. exists "", s. split; [reflexivity | exact Hs].
Qed.

Lemma find_absent (c : ascii) (s : string) :
  contains c s = false -> find c s = -1.
Proof.
  induction s as [|x s IH]; simpl; [reflexivity|].
  destruct (Ascii.eqb x c); [discriminate|].
  intros ->%IH. reflexivity.
Qed.

Lemma find_first (c : ascii) (a b : string) :
  contains c a = false ->
  find c (a +:+ String c b) = Z.of_nat (String.length a).
Proof.
  induction a as [|x a IH]; simpl.
  - rewrite Ascii.eqb_refl. reflexivity.
  - destruct (Ascii.eqb x c); [discriminate|].
    intros ->%IH. destruct (Z.ltb_spec (Z.of_nat (String.length a)) 0); lia.
Qed.

Lemma find_range (c : ascii) (s : string) :
  contains c s = true -> 0 <= find c s < Z.of_nat (String.length s).
Proof.
  intros (a & b & -> & Ha)%contains_first.
  rewrite (find_first c a b Ha), length_app. simpl. lia.
Qed.

Lemma rfind_absent (c : ascii) (s : string) :
  contains c s = false -> rfind c s = -1.
Proof.
  induction s as [|x s IH]; simpl; [reflexivity|].
  destruct (Ascii.eqb x c); [discriminate|].
  intros ->%IH. reflexivity.
Qed.

Lemma rfind_last (c : ascii) (a b : string) :
  contains c b = false ->
  rfind c (a +:+ String c b) = Z.of_nat (String.length a).
Proof.
  intros Hb. induction a as [|x a IH]; simpl.
  - rewrite (rfind_absent c b Hb), Ascii.eqb_refl. reflexivity.
  - rewrite IH. destruct (Z.leb_spec 0 (Z.of_nat (String.length a))); lia.
Qed.

Lemma after_last_absent (c : ascii) (s : string) :
  contains c s = false -> after_last c s = s.
Proof.
  destruct s as [|x s]; simpl; [reflexivity|].
  destruct (Ascii.eqb x c); [discriminate|].
  intros ->. reflexivity.
Qed.

Lemma after_last_last (c : ascii) (a b : string) :
  contains c b = false -> after_last c (a +:+ String c b) = b.
Proof.
  intros Hb. induction a as [|x a IH]; simpl.
  - rewrite Hb, Ascii.eqb_refl. reflexivity.
  - rewrite contains_app. simpl. rewrite Ascii.eqb_refl, orb_true_r. exact IH.
Qed.

Lemma partition_first (c : ascii) (a b : string) :
  contains c a = false -> partition c (a +:+ String c b) = (a, true, b).
Proof.
  induction a as [|x a IH]; simpl.
  - rewrite Ascii.eqb_refl. reflexivity.
  - destruct (Ascii.eqb x c); [discriminate|].
    intros ->%IH. reflexivity.
Qed.

(** *** Characters of a string *)

Lemma all_chars_app (p : ascii -> bool) (a b : string) :
  all_chars p (a +:+ b) = all_chars p a && all_chars p b.
Proof.
  induction a as [|x a IH]; simpl; [reflexivity|].
  rewrite IH, andb_assoc. reflexivity.
Qed.

Lemma all_chars_contains (p : ascii -> bool) (c : ascii) (s : string) :
  all_chars p s = true -> p c = false -> contains c s = false.
Proof.
  intros Hs Hc. induction s as [|x s IH]; simpl in *; [reflexivity|].
  apply andb_true_iff in Hs as [Hx Hs].
  destruct (Ascii.eqb_spec x c) as [->|_]; [congruence | auto].
Qed.

Lemma all_chars_weaken (p q : ascii -> bool) (s : string) :
  (forall c, p c = true -> q c = true) ->
  all_chars p s = true -> all_chars q s = true.
Proof.
  intros Hpq. induction s as [|x s IH]; simpl; [reflexivity|].
  intros [Hx Hs]%andb_true_iff. rewrite (Hpq x Hx), (IH Hs). reflexivity.
Qed.

Lemma remove_absent (c : ascii) (s : string) :
  contains c s = false -> remove c s = s.
Proof.
  induction s as [|x s IH]; simpl; [reflexivity|].
  destruct (Ascii.eqb x c); [discriminate|].
  intros ->%IH. reflexivity.
Qed.

Lemma contains_remove (c d : ascii) (s : string) :
  contains c (remove d s) = negb (Ascii.eqb c d) && contains c s.
Proof.
  induction s as [|x s IH]; simpl; [rewrite andb_false_r; reflexivity|].
  destruct (Ascii.eqb_spec x d) as [->|Hxd]; simpl.
  - rewrite IH. destruct (Ascii.eqb_spec d c) as [->|Hdc].
    + rewrite Ascii.eqb_refl. reflexivity.
    + reflexivity.
  - rewrite IH. destruct (Ascii.eqb_spec x c) as [->|Hxc]; [|reflexivity].
    rewrite (proj2 (Ascii.eqb_neq c d) Hxd). reflexivity.
Qed.

(** *** Prefixes *)

Lemma startswith_app (a b : string) : startswith (a +:+ b) a = true.
Proof.
  induction a as [|x a IH]; simpl; [reflexivity|].
  rewrite Ascii.eqb_refl. exact IH.
Qed.

(** A string that starts with [p] is [p] and a rest. *)
Lemma startswith_split (s p : string) :
  startswith s p = true -> exists r, s = p +:+ r.
Proof.
  revert s. induction p as [|x p IH]; intros s; simpl.
  - exists s. reflexivity.
  - destruct s as [|y s]; [discriminate|].
    intros [->%Ascii.eqb_eq (r & ->)%IH]%andb_true_iff. exists r. reflexivity.
Qed.

Lemma lstrip_first (p : ascii -> bool) (c : ascii) (s : string) :
  p c = false -> lstrip p (String c s) = String c s.
Proof. intros Hc. simpl. rewrite Hc. reflexivity. Qed.

(** What [lstrip] returns is empty or starts with a character that is
    not stripped. *)
Lemma lstrip_lstrip (p : ascii -> bool) (s : string) :
  lstrip p (lstrip p s) = lstrip p s.
Proof.
  induction s as [|x s IH]; simpl; [reflexivity|].
  destruct (p x) eqn:Hx; [exact IH|]. simpl. rewrite Hx. reflexivity.
Qed.

End PyFacts.

(** ** The URL parser *)

Module UrlFacts.

Import Py PyFacts UrlParse UrlStages.

(** *** Characters *)

Ltac each_char c :=
  destruct c as [[] [] [] [] [] [] [] []]; vm_compute; try discriminate; auto.

Lemma alpha_is_scheme_char (c : ascii) :
  is_ascii_alpha c = true -> is_scheme_char c = true.
Proof. each_char c. Qed.

Lemma alpha_lower (c : ascii) :
  is_ascii_alpha c = true -> is_ascii_alpha (lower_char c) = true.
Proof. each_char c. Qed.

Lemma scheme_char_lower (c : ascii) :
  is_scheme_char c = true -> is_scheme_char (lower_char c) = true.
Proof. each_char c. Qed.

Lemma lower_char_lower_char (c : ascii) :
  lower_char (lower_char c) = lower_char c.
Proof. each_char c. Qed.

Lemma scheme_char_plain (c : ascii) :
  is_scheme_char c = true ->
  is_delimiter c = false /\ is_unsafe c = false
  /\ is_c0_control_or_space c = false /\ Ascii.eqb c ":" = false
  /\ Ascii.eqb c ";" = false.
Proof. each_char c. Qed.

Lemma unsafe_is_c0 (c : ascii) :
  is_c0_control_or_space c = false -> is_unsafe c = false.
Proof. each_char c. Qed.

Lemma delimiter_cases (c : ascii) :
  is_delimiter c = true -> c = "/"%char \/ c = "?"%char \/ c = "#"%char.
Proof. each_char c. Qed.

(** *** Strings free of some characters *)

Lemma free_of_app (p : ascii -> bool) (a b : string) :
  free_of p (a +:+ b) = free_of p a && free_of p b.
Proof. apply all_chars_app. Qed.

Lemma free_of_contains (p : ascii -> bool) (c : ascii) (s : string) :
  free_of p s = true -> p c = true -> contains c s = false.
Proof.
  intros Hs Hc. apply (all_chars_contains _ c s Hs). rewrite Hc. reflexivity.
Qed.

Lemma free_of_unsafe (s : string) :
  contains "009" s = false -> contains "013" s = false ->
  contains "010" s = false -> free_of is_unsafe s = true.
Proof.
  unfold free_of. induction s as [|x s IH]; simpl; [reflexivity|].
  intros H1 H2 H3.
  destruct (Ascii.eqb_spec x "009"); [discriminate|].
  destruct (Ascii.eqb_spec x "013"); [discriminate|].
  destruct (Ascii.eqb_spec x "010"); [discriminate|].
  rewrite (IH H1 H2 H3), andb_true_r. unfold is_unsafe.
  rewrite !(proj2 (Ascii.eqb_neq _ _)) by assumption. reflexivity.
Qed.

Lemma free_of_lower (p : ascii -> bool) (s : string) :
  all_chars is_scheme_char s = true ->
  (forall c, is_scheme_char c = true -> p c = false) ->
  free_of p (lower s) = true.
Proof.
  unfold free_of. intros Hs Hp.
  induction s as [|x s IH]; simpl in *; [reflexivity|].
  apply andb_true_iff in Hs as [Hx Hs].
  rewrite (Hp _ (scheme_char_lower x Hx)), (IH Hs). reflexivity.
Qed.

(** *** The first lines of [urlsplit] *)

Lemma remove_unsafe_safe (s : string) :
  free_of is_unsafe s = true -> remove_unsafe s = s.
Proof.
  intros Hs. unfold remove_unsafe.
  rewrite (remove_absent "009" s) by (apply (free_of_contains _ _ _ Hs); reflexivity).
  rewrite (remove_absent "013" s) by (apply (free_of_contains _ _ _ Hs); reflexivity).
  apply remove_absent, (free_of_contains _ _ _ Hs). reflexivity.
Qed.

Lemma remove_unsafe_is_safe (s : string) :
  free_of is_unsafe (remove_unsafe s) = true.
Proof.
  unfold remove_unsafe.
  apply free_of_unsafe; rewrite !contains_remove; simpl;
    rewrite ?andb_false_r; reflexivity.
Qed.

Lemma remove_unsafe_cons (c : ascii) (s : string) :
  is_unsafe c = false ->
  remove_unsafe (String c s) = String c (remove_unsafe s).
Proof.
  unfold is_unsafe, remove_unsafe. intros H.
  apply orb_false_iff in H as [H H3]. apply orb_false_iff in H as [H1 H2].
  simpl. rewrite H1. simpl. rewrite H2. simpl. rewrite H3. reflexivity.
Qed.

(** A string that [clean] leaves alone. *)
Lemma clean_id (s : string) :
  free_of is_unsafe s = true ->
  lstrip is_c0_control_or_space s = s ->
  clean s = s.
Proof.
  intros Hsafe Hfirst. unfold clean. rewrite Hfirst.
  apply remove_unsafe_safe, Hsafe.
Qed.

Lemma lstrip_head (p : ascii -> bool) (s : string) (c : ascii) (r : string) :
  lstrip p s = String c r -> p c = false.
Proof.
  induction s as [|x s IH]; simpl; [discriminate|].
  destruct (p x) eqn:Hx; [exact IH|]. intros [= <- _]. exact Hx.
Qed.

(** What [clean] returns is safe and starts with no control character or
    space. *)
Lemma clean_is_clean (url : string) :
  free_of is_unsafe (clean url) = true
  /\ lstrip is_c0_control_or_space (clean url) = clean url.
Proof.
  unfold clean. split; [apply remove_unsafe_is_safe|].
  destruct (lstrip is_c0_control_or_space url) as [|c r] eqn:Hl; [reflexivity|].
  pose proof (lstrip_head _ _ _ _ Hl) as Hc.
  rewrite (remove_unsafe_cons c r (unsafe_is_c0 c Hc)).
  apply lstrip_first, Hc.
Qed.

(** *** Schemes *)

Lemma scheme_like_no_colon (x : string) :
  scheme_like x = true -> contains ":" x = false.
Proof.
  intros [_ Hx]%andb_true_iff. apply (all_chars_contains _ _ _ Hx). reflexivity.
Qed.

Lemma scheme_like_nonempty (x : string) :
  scheme_like x = true -> (0 < String.length x)%nat.
Proof. destruct x; simpl; [discriminate | lia]. Qed.

Lemma first_char_app (x r : string) (P : ascii -> bool) :
  (0 < String.length x)%nat ->
  match x +:+ r with String c _ => P c | EmptyString => false end
  = match x with String c _ => P c | EmptyString => false end.
Proof. destruct x; simpl; [lia | reflexivity]. Qed.

Lemma has_scheme_intro (x r : string) :
  scheme_like x = true ->
  find ":" (x +:+ String ":" r) = Z.of_nat (String.length x)
  /\ has_scheme (x +:+ String ":" r) = true.
Proof.
  intros Hx. pose proof (scheme_like_nonempty x Hx) as Hlen.
  pose proof (find_first ":" x r (scheme_like_no_colon x Hx)) as Hfind.
  split; [exact Hfind|]. unfold has_scheme.
  rewrite Hfind, Nat2Z.id, take_app, (first_char_app x _ _ Hlen).
  apply andb_true_iff in Hx as [Hfirst Hall]. rewrite Hfirst, Hall.
  destruct (Z.ltb_spec 0 (Z.of_nat (String.length x))); [reflexivity | lia].
Qed.

Lemma has_scheme_elim (s : string) :
  has_scheme s = true ->
  exists x r, s = x +:+ String ":" r /\ scheme_like x = true.
Proof.
  unfold has_scheme. intros [[Hpos Hfirst]%andb_true_iff Hall]%andb_true_iff.
  apply Z.ltb_lt in Hpos.
  destruct (contains ":" s) eqn:Hc;
    [|rewrite (find_absent _ _ Hc) in Hpos; lia].
  apply contains_first in Hc as (x & r & -> & Hx).
  rewrite (find_first ":" x r Hx) in *. rewrite Nat2Z.id, take_app in Hall.
  exists x, r. split; [reflexivity|]. unfold scheme_like.
  rewrite <- (first_char_app x (String ":" r)) by lia.
  rewrite Hfirst, Hall. reflexivity.
Qed.

Lemma drop_app_cons (x : string) (c : ascii) (r : string) :
  drop (S (String.length x)) (x +:+ String c r) = r.
Proof. induction x as [|y x IH]; simpl; [reflexivity | exact IH]. Qed.

Lemma split_scheme_intro (default x r : string) :
  scheme_like x = true ->
  split_scheme default (x +:+ String ":" r) = (lower x, r).
Proof.
  intros Hx. destruct (has_scheme_intro x r Hx) as [Hfind Hhas].
  unfold split_scheme. rewrite Hhas, Hfind, Nat2Z.id, take_app.
  replace (Z.to_nat (Z.of_nat (String.length x) + 1)) with (S (String.length x))
    by lia.
  rewrite drop_app_cons. reflexivity.
Qed.

Lemma split_scheme_elim (default s sch rest : string) :
  split_scheme default s = (sch, rest) ->
  (has_scheme s = false /\ sch = default /\ rest = s)
  \/ (exists x, scheme_like x = true /\ sch = lower x
                 /\ s = x +:+ String ":" rest).
Proof.
  destruct (has_scheme s) eqn:Hhas.
  - destruct (has_scheme_elim s Hhas) as (x & r & -> & Hx).
    rewrite (split_scheme_intro default x r Hx). intros [= <- <-].
    right. exists x. auto.
  - unfold split_scheme. rewrite Hhas. intros [= <- <-]. left. auto.
Qed.

Lemma has_scheme_prefix (a b : string) :
  has_scheme a = true -> has_scheme (a +:+ b) = true.
Proof.
  intros (x & r & -> & Hx)%has_scheme_elim.
  rewrite app_assoc. simpl. apply has_scheme_intro, Hx.
Qed.

(** Two ways to cut one string at a character. *)
Lemma app_eq_cases (a : string) :
  forall (c : ascii) (b x : string) (d : ascii) (r : string),
    a +:+ String c b = x +:+ String d r ->
    (exists a', a = x +:+ String d a')
    \/ (a = x /\ c = d /\ b = r)
    \/ (exists x', x = a +:+ String c x').
Proof.
  induction a as [|y a IH]; intros c b x d r; simpl.
  - destruct x as [|z x]; simpl.
    + intros [= -> ->]. right. left. auto.
    + intros [= -> ->]. right. right. exists x. reflexivity.
  - destruct x as [|z x]; simpl.
    + intros [= -> _]. left. exists a. reflexivity.
    + intros [= -> H]. apply IH in H as [(a' & ->) | [(-> & -> & ->) | (x' & ->)]].
      * left. exists a'. reflexivity.
      * right. left. auto.
      * right. right. exists x'. reflexivity.
Qed.

(** A character that no scheme contains hides nothing from the test for
    a scheme. *)
Lemma has_scheme_app_other (a : string) (c : ascii) (b : string) :
  is_scheme_char c = false -> Ascii.eqb c ":" = false ->
  has_scheme (a +:+ String c b) = has_scheme a.
Proof.
  intros Hc Hcolon.
  destruct (has_scheme a) eqn:Ha; [apply has_scheme_prefix, Ha|].
  destruct (has_scheme (a +:+ String c b)) eqn:Hab; [|reflexivity].
  apply has_scheme_elim in Hab as (x & r & Heq & Hx).
  apply app_eq_cases in Heq as [(a' & ->) | [(-> & -> & ->) | (x' & ->)]].
  - rewrite (proj2 (has_scheme_intro x a' Hx)) in Ha. discriminate.
  - discriminate.
  - apply andb_true_iff in Hx as [_ Hx]. rewrite all_chars_app in Hx.
    simpl in Hx. rewrite Hc, andb_false_r in Hx. discriminate.
Qed.

Lemma has_scheme_rooted (s : string) :
  empty_or_starts "/" s = true -> has_scheme s = false.
Proof.
  destruct s as [|c s]; [reflexivity|]. simpl. intros ->%Ascii.eqb_eq.
  unfold has_scheme. simpl. rewrite andb_false_r. reflexivity.
Qed.

Lemma lower_scheme_like (x : string) :
  scheme_like x = true -> valid_scheme (lower x) = true.
Proof.
  unfold valid_scheme, scheme_like.
  intros [Hfirst Hall]%andb_true_iff.
  assert (all_chars is_scheme_char (lower x) = true
          /\ lower (lower x) = lower x) as [Hl Hll].
  { clear Hfirst. induction x as [|c x IH]; simpl in *; [auto|].
    apply andb_true_iff in Hall as [Hc Hall]. destruct (IH Hall) as [-> ->].
    rewrite (scheme_char_lower c Hc), lower_char_lower_char. auto. }
  rewrite Hl, Hll, String.eqb_refl, !andb_true_r.
  destruct x as [|c x]; simpl in *; [discriminate | apply alpha_lower, Hfirst].
Qed.

(** *** The netloc *)

Lemma find_app_absent (c : ascii) (a b : string) :
  contains c a = false ->
  find c (a +:+ b)
  = if find c b <? 0 then -1 else Z.of_nat (String.length a) + find c b.
Proof.
  induction a as [|x a IH]; simpl.
  - intros _. destruct (Z.ltb_spec (find c b) 0) as [Hneg|Hpos]; [|lia].
    destruct (contains c b) eqn:Hb.
    + apply find_range in Hb. lia.
    + apply find_absent, Hb.
  - destruct (Ascii.eqb x c); [discriminate|]. intros ->%IH.
    destruct (Z.ltb_spec (find c b) 0); simpl; [reflexivity|].
    destruct (Z.ltb_spec (Z.of_nat (String.length a) + find c b) 0); lia.
Qed.

Lemma find_bounds (c : ascii) (s : string) :
  find c s = -1 \/ 0 <= find c s < Z.of_nat (String.length s).
Proof.
  destruct (contains c s) eqn:Hc.
  - right. apply find_range, Hc.
  - left. apply find_absent, Hc.
Qed.

(** Every string is a part without delimiters and a rest that is empty or
    starts with a delimiter. *)
Lemma span_delimiter (s : string) :
  exists n r, s = n +:+ r /\ free_of is_delimiter n = true
              /\ at_delimiter r = true.
Proof.
  induction s as [|c s (n & r & -> & Hn & Hr)].
  - exists "", "". auto.
  - destruct (is_delimiter c) eqn:Hc.
    + exists "", (String c (n +:+ r)). simpl. auto.
    + exists (String c n), r. unfold free_of in *. simpl. rewrite Hc, Hn. auto.
Qed.

Lemma splitnetloc_intro (n r : string) :
  free_of is_delimiter n = true -> at_delimiter r = true ->
  _splitnetloc ("//" +:+ n +:+ r) 2 = (n, r).
Proof.
  intros Hn Hr.
  assert (forall c, is_delimiter c = true ->
            find_from c ("//" +:+ n +:+ r) 2
            = if find c r <? 0 then -1
              else 2 + (Z.of_nat (String.length n) + find c r)) as Hfind.
  { intros c Hc. unfold find_from. simpl drop.
    rewrite (find_app_absent c n r (free_of_contains _ _ _ Hn Hc)).
    destruct (Z.ltb_spec (find c r) 0); simpl; [reflexivity|].
    destruct (Z.ltb_spec (Z.of_nat (String.length n) + find c r) 0); lia. }
  unfold _splitnetloc.
  match goal with
  | |- context [Z.to_nat ?d] =>
      assert (d = Z.of_nat (S (S (String.length n)))) as ->
  end.
  { simpl fold_left. rewrite !Hfind by reflexivity.
    simpl String.length. rewrite length_app.
    pose proof (find_bounds "/" r) as H1.
    pose proof (find_bounds "?" r) as H2.
    pose proof (find_bounds "#" r) as H3.
    assert (String.length r = 0%nat
            \/ find "/" r = 0 \/ find "?" r = 0 \/ find "#" r = 0) as Hfirst.
    { destruct r as [|d r']; [left; reflexivity|]. right. simpl in Hr.
      apply delimiter_cases in Hr as [-> | [-> | ->]]; simpl; auto. }
    cbv beta zeta.
    repeat (match goal with
            | |- context [?a <? ?b] => destruct (Z.ltb_spec a b)
            | |- context [?a <=? ?b] => destruct (Z.leb_spec a b)
            end; cbv beta iota); lia. }
  rewrite Nat2Z.id. simpl.
  rewrite take_app, drop_app. reflexivity.
Qed.

Lemma check_netloc_empty : check_netloc "" = Ok tt.
Proof. reflexivity. Qed.

Lemma split_netloc_intro (n r : string) :
  free_of is_delimiter n = true -> at_delimiter r = true ->
  split_netloc ("//" +:+ n +:+ r) = (check_netloc n ;; Ok (n, r)).
Proof.
  intros Hn Hr. unfold split_netloc.
  rewrite (splitnetloc_intro n r Hn Hr). reflexivity.
Qed.

Lemma split_netloc_plain (s : string) :
  startswith s "//" = false -> split_netloc s = Ok ("", s).
Proof. intros H. unfold split_netloc. rewrite H. reflexivity. Qed.

Lemma split_netloc_elim (u2 n u3 : string) :
  split_netloc u2 = Ok (n, u3) ->
  (startswith u2 "//" = false /\ n = "" /\ u3 = u2)
  \/ (u2 = "//" +:+ n +:+ u3
       /\ free_of is_delimiter n = true
       /\ check_netloc n = Ok tt
       /\ at_delimiter u3 = true).
Proof.
  destruct (startswith u2 "//") eqn:Hs.
  - destruct (startswith_split _ _ Hs) as (rest & ->).
    destruct (span_delimiter rest) as (n0 & r0 & -> & Hn & Hr).
    rewrite (split_netloc_intro n0 r0 Hn Hr).
    destruct (check_netloc n0) as [[]|e] eqn:Hcheck; simpl; [|discriminate].
    intros [= <- <-]. right. auto.
  - rewrite (split_netloc_plain u2 Hs). intros [= <- <-]. left. auto.
Qed.

(** *** Fragment and query *)

Lemma split_at_first (c : ascii) (a b : string) :
  contains c a = false -> split_at c (a +:+ String c b) = (a, b).
Proof.
  intros Ha. unfold split_at, split1.
  rewrite contains_app, Ha. simpl. rewrite Ascii.eqb_refl.
  rewrite (partition_first c a b Ha). reflexivity.
Qed.

Lemma split_at_absent (c : ascii) (a : string) :
  contains c a = false -> split_at c a = (a, "").
Proof. intros Ha. unfold split_at. rewrite Ha. reflexivity. Qed.

Lemma split_at_elim (c : ascii) (s a b : string) :
  split_at c s = (a, b) ->
  contains c a = false /\ ((s = a /\ b = "") \/ s = a +:+ String c b).
Proof.
  destruct (contains c s) eqn:Hc.
  - destruct (contains_first c s Hc) as (a0 & b0 & -> & Ha0).
    rewrite (split_at_first c a0 b0 Ha0). intros [= <- <-]. auto.
  - rewrite (split_at_absent c s Hc). intros [= <- <-]. auto.
Qed.

(** *** Parameters *)

(** A path is a directory part, empty or ending with a slash, and a last
    segment without a slash. *)
Lemma last_segment (s : string) :
  exists d, s = d +:+ after_last "/" s
            /\ contains "/" (after_last "/" s) = false
            /\ (d = "" \/ exists a, d = a +:+ "/").
Proof.
  destruct (contains "/" s) eqn:Hs.
  - destruct (contains_last "/" s Hs) as (a & b & -> & Hb).
    rewrite (after_last_last "/" a b Hb). exists (a +:+ "/").
    rewrite app_assoc. simpl. eauto.
  - rewrite (after_last_absent "/" s Hs). exists "". auto.
Qed.

Lemma after_last_cons_same (c : ascii) (s : string) :
  after_last c (String c s) = after_last c s.
Proof.
  simpl. rewrite Ascii.eqb_refl. destruct (contains c s) eqn:Hs; [reflexivity|].
  symmetry. apply after_last_absent, Hs.
Qed.

Lemma splitparams_found (d l1 l2 : string) :
  d = "" \/ (exists a, d = a +:+ "/") ->
  contains "/" l1 = false -> contains ";" l1 = false ->
  contains "/" l2 = false ->
  _splitparams (d +:+ l1 +:+ String ";" l2) = (d +:+ l1, l2).
Proof.
  intros Hd Hl1 Hsemi Hl2. unfold _splitparams.
  assert (contains "/" (l1 +:+ String ";" l2) = false) as Hl
      by (rewrite contains_app, Hl1; simpl; exact Hl2).
  destruct Hd as [-> | (a & ->)].
  - simpl. rewrite Hl, (find_first ";" l1 l2 Hsemi), Nat2Z.id, take_app.
    replace (Z.to_nat (Z.of_nat (String.length l1) + 1))
      with (S (String.length l1)) by lia.
    rewrite drop_app_cons. reflexivity.
  - rewrite !app_assoc. simpl.
    rewrite contains_app. simpl. rewrite orb_true_r.
    rewrite (rfind_last "/" a _ Hl), Nat2Z.id. unfold find_from.
    rewrite drop_app.
    replace (find ";" (String "/" (l1 +:+ String ";" l2)))
      with (Z.of_nat (String.length (String "/" l1)))
      by (symmetry; apply (find_first ";" (String "/" l1) l2); simpl; exact Hsemi).
    destruct (Z.ltb_spec (Z.of_nat (String.length (String "/" l1))) 0); [lia|].
    destruct (Z.ltb_spec (Z.of_nat (String.length a)
                          + Z.of_nat (String.length (String "/" l1))) 0); [lia|].
    replace (Z.to_nat (Z.of_nat (String.length a)
                       + Z.of_nat (String.length (String "/" l1))))
      with (String.length (a +:+ String "/" l1))
      by (rewrite length_app; lia).
    replace (Z.to_nat (Z.of_nat (String.length a)
                       + Z.of_nat (String.length (String "/" l1)) + 1))
      with (S (String.length (a +:+ String "/" l1)))
      by (rewrite length_app; lia).
    replace (a +:+ String "/" (l1 +:+ String ";" l2))
      with ((a +:+ String "/" l1) +:+ String ";" l2)
      by (rewrite app_assoc; reflexivity).
    rewrite take_app, drop_app_cons. reflexivity.
Qed.

Lemma splitparams_none (a l : string) :
  contains "/" l = false -> contains ";" l = false ->
  _splitparams (a +:+ String "/" l) = (a +:+ String "/" l, "").
Proof.
  intros Hl Hsemi. unfold _splitparams.
  rewrite contains_app. simpl. rewrite orb_true_r.
  rewrite (rfind_last "/" a l Hl), Nat2Z.id. unfold find_from.
  rewrite drop_app. simpl. rewrite (find_absent ";" l Hsemi). reflexivity.
Qed.

(** What [urlparse] guarantees of the path and the parameters. *)
#[local] Abbreviation params_split scheme path params :=
  ((member scheme uses_params = false /\ params = "")
   \/ (member scheme uses_params = true
        /\ contains ";" (after_last "/" path) = false
        /\ contains "/" params = false)).

Lemma split_params_intro (scheme path params : string) :
  params_split scheme path params ->
  split_params scheme
               (if truthy params then path +:+ ";" +:+ params else path)
  = (path, params).
Proof.
  unfold split_params.
  intros [(-> & ->) | (-> & Hseg & Hparams)]; [reflexivity|]. simpl.
  destruct (last_segment path) as (d & Hpath & Hl & Hd).
  remember (after_last "/" path) as l eqn:El. clear El. subst path.
  destruct params as [|c params]; simpl.
  - destruct (contains ";" (d +:+ l)) eqn:Hsemi; [|reflexivity].
    destruct Hd as [-> | (a & ->)].
    + simpl in Hsemi. rewrite Hsemi in Hseg. discriminate.
    + rewrite app_assoc. simpl.
      rewrite (splitparams_none a _ Hl Hseg). reflexivity.
  - rewrite contains_app. simpl. rewrite orb_true_r, app_assoc.
    apply (splitparams_found d l (String c params) Hd Hl Hseg Hparams).
Qed.

Lemma contains_after_last (c d : ascii) (s : string) :
  contains c s = false -> contains c (after_last d s) = false.
Proof.
  intros Hs. destruct (contains d s) eqn:Hd.
  - destruct (contains_last d s Hd) as (a & b & -> & Hb).
    rewrite (after_last_last d a b Hb).
    rewrite contains_app in Hs. simpl in Hs.
    apply orb_false_iff in Hs as [_ Hs].
    destruct (Ascii.eqb d c); [discriminate | exact Hs].
  - rewrite (after_last_absent d s Hd). exact Hs.
Qed.

Lemma split_params_elim (scheme path0 path params : string) :
  split_params scheme path0 = (path, params) ->
  params_split scheme path params
  /\ exists t,
      path0 = (if truthy params then path +:+ ";" +:+ params else path) +:+ t
      /\ (t = "" \/ t = ";").
Proof.
  unfold split_params.
  destruct (member scheme uses_params) eqn:Hm; simpl.
  2:{ intros [= <- <-]. split; [left; auto|]. exists "".
      rewrite app_empty_r. auto. }
  destruct (contains ";" path0) eqn:Hsemi.
  2:{ intros [= <- <-]. split.
      - right. split_and!; [reflexivity | | reflexivity].
        apply contains_after_last, Hsemi.
      - exists "". rewrite app_empty_r. auto. }
  destruct (last_segment path0) as (d & Hpath & Hl & Hd).
  remember (after_last "/" path0) as l eqn:El. clear El. subst path0.
  destruct (contains ";" l) eqn:Hseg.
  - destruct (contains_first ";" _ Hseg) as (l1 & l2 & -> & Hl1).
    rewrite contains_app in Hl. simpl in Hl.
    apply orb_false_iff in Hl as [Hl1s Hl2s].
    rewrite (splitparams_found d l1 l2 Hd Hl1s Hl1 Hl2s).
    intros [= <- <-]. split.
    + right. split_and!; [reflexivity | | exact Hl2s].
      destruct Hd as [-> | (a & ->)].
      * simpl. rewrite (after_last_absent "/" l1 Hl1s). exact Hl1.
      * rewrite app_assoc. simpl. rewrite (after_last_last "/" a l1 Hl1s).
        exact Hl1.
    + destruct l2 as [|c l2]; simpl.
      * exists ";". rewrite app_assoc. auto.
      * exists "". rewrite app_empty_r, !app_assoc. auto.
  - destruct Hd as [-> | (a & ->)].
    + simpl in Hsemi. rewrite Hsemi in Hseg. discriminate.
    + rewrite app_assoc. simpl.
      rewrite (splitparams_none a _ Hl Hseg).
      intros [= <- <-]. split.
      * right. split_and!; [reflexivity | | reflexivity].
        rewrite (after_last_last "/" a _ Hl). exact Hseg.
      * exists "". rewrite app_empty_r. auto.
Qed.

(** *** [urlparse] in stages *)

Lemma urlparse_stages (url : string) :
  urlparse url ""
  = (let '(s, u2) := split_scheme "" (clean url) in
     '(n, u3) ← split_netloc u2;
     let '(u4, f) := split_at "#" u3 in
     let '(p0, q) := split_at "?" u4 in
     let '(p, ps) := split_params s p0 in
     Ok (mkParseResult s n p ps q f)).
Proof.
  unfold urlparse, urlsplit, split_scheme, has_scheme, clean, split_netloc,
    check_netloc, split_at, split_params, _checknetloc.
  change (remove_unsafe (rstrip is_c0_control_or_space
                                (lstrip is_c0_control_or_space "")))
    with "".
  generalize (remove_unsafe (lstrip is_c0_control_or_space url)). intros u1.
  match goal with
  | |- context [if ?c then (lower _, _) else _] => destruct c
  end.
  all: match goal with
       | |- context [startswith ?u "//"] =>
           destruct (startswith u "//");
           [destruct (_splitnetloc u 2) as [n u3] | ]
       end; cbn -[member].
  all: try (destruct (contains "[" n), (contains "]" n); cbn -[member];
            try reflexivity;
            destruct (_check_bracketed_netloc n) as [[]|]; cbn -[member];
            try reflexivity).
  all: repeat match goal with
              | |- context [if contains ?c ?u then split1 ?c ?u else _] =>
                  destruct (if contains c u then split1 c u else (u, ""))
              end; cbn -[member]; reflexivity.
Qed.

(** *** What [urlparse] returns is well formed *)

Lemma lower_empty (x : string) : lower x = "" -> x = "".
Proof. destruct x; simpl; [reflexivity | discriminate]. Qed.

Lemma lstrip_length (p : ascii -> bool) (s : string) :
  (String.length (lstrip p s) <= String.length s)%nat.
Proof.
  induction s as [|c s IH]; simpl; [lia|].
  destruct (p c); simpl; lia.
Qed.

Lemma lstrip_fixed (p : ascii -> bool) (s : string) :
  lstrip p s = s <-> match s with String c _ => p c = false | EmptyString => True end.
Proof.
  destruct s as [|c s]; simpl; [tauto|].
  destruct (p c) eqn:Hc; [|tauto]. split; [|discriminate].
  intros H. pose proof (lstrip_length p s) as Hlen. rewrite H in Hlen.
  simpl in Hlen. lia.
Qed.

Lemma lstrip_fixed_prefix (p : ascii -> bool) (a b : string) :
  lstrip p (a +:+ b) = a +:+ b -> lstrip p a = a.
Proof.
  rewrite !lstrip_fixed. destruct a; simpl; auto.
Qed.

Lemma lstrip_rooted (s : string) :
  empty_or_starts "/" s = true -> lstrip is_c0_control_or_space s = s.
Proof.
  intros H. apply lstrip_fixed. destruct s as [|c s]; [exact I|].
  simpl in H. apply Ascii.eqb_eq in H as ->. reflexivity.
Qed.

(** A prefix of a string that starts at a delimiter, if it has no [?] and
    no [#], is empty or starts with a slash. *)
Lemma rooted_prefix (a b : string) :
  at_delimiter (a +:+ b) = true ->
  contains "?" a = false -> contains "#" a = false ->
  empty_or_starts "/" a = true.
Proof.
  destruct a as [|c a]; simpl; [reflexivity|].
  intros [-> | [-> | ->]]%delimiter_cases; simpl; [reflexivity | discriminate..].
Qed.

Lemma empty_or_starts_prefix (c : ascii) (a b : string) :
  empty_or_starts c (a +:+ b) = true -> truthy a = true ->
  empty_or_starts c a = true.
Proof. destruct a; simpl; [discriminate | auto]. Qed.

Lemma contains_prefix (c : ascii) (a b : string) :
  contains c (a +:+ b) = false -> contains c a = false /\ contains c b = false.
Proof. rewrite contains_app. apply orb_false_iff. Qed.

Lemma free_of_parts (p : ascii -> bool) (a b : string) :
  free_of p (a +:+ b) = true -> free_of p a = true /\ free_of p b = true.
Proof. rewrite free_of_app. apply andb_true_iff. Qed.

Lemma free_of_cons (p : ascii -> bool) (c : ascii) (s : string) :
  free_of p (String c s) = true -> free_of p s = true.
Proof. unfold free_of. simpl. intros [_ H]%andb_true_iff. exact H. Qed.

Theorem urlparse_wf (url : string) (p : ParseResult) :
  urlparse url "" = Ok p -> wf_parse p.
Proof.
  rewrite urlparse_stages.
  destruct (split_scheme "" (clean url)) as [s u2] eqn:HS.
  intros H. apply bind_Ok in H as ([n u3] & HN & H).
  destruct (split_at "#" u3) as [u4 f] eqn:HF.
  destruct (split_at "?" u4) as [p0 q] eqn:HQ.
  destruct (split_params s p0) as [pp ps] eqn:HP.
  injection H as <-.
  destruct (clean_is_clean url) as [Hsafe Hfirst].
  apply split_scheme_elim in HS. apply split_netloc_elim in HN.
  apply split_at_elim in HF as [HF1 HF2].
  apply split_at_elim in HQ as [HQ1 HQ2].
  apply split_params_elim in HP as [HPs (t & Hp0 & Ht)].
  set (fp := if truthy ps then pp +:+ ";" +:+ ps else pp) in *.
  (* the path is what [u3] starts with *)
  assert (exists rest, u3 = fp +:+ rest) as (rest & Hu3).
  { destruct HF2 as [[-> _] | ->], HQ2 as [[-> _] | ->]; subst p0;
      rewrite ?app_assoc; eauto. }
  assert (contains "#" p0 = false /\ contains "#" q = false) as [Hp0h Hqh].
  { destruct HQ2 as [[-> ->] | ->]; [auto|].
    apply contains_prefix in HF1 as [H1 H2]. simpl in H2. auto. }
  assert (contains "?" fp = false /\ contains "#" fp = false) as [Hfpq Hfph].
  { rewrite Hp0 in HQ1, Hp0h.
    apply contains_prefix in HQ1 as [? _]. apply contains_prefix in Hp0h as [? _].
    auto. }
  (* every part is free of tabs and newlines *)
  assert (free_of is_unsafe u2 = true) as Hu2.
  { destruct HS as [(_ & _ & ->) | (x & _ & _ & Hx)]; [exact Hsafe|].
    rewrite Hx in Hsafe. apply free_of_parts in Hsafe as [_ Hsafe].
    apply free_of_cons in Hsafe. exact Hsafe. }
  assert (free_of is_unsafe n = true /\ free_of is_unsafe u3 = true)
    as [Hn Hu3s].
  { destruct HN as [(_ & -> & ->) | (-> & _)]; [auto|].
    apply free_of_cons, free_of_cons in Hu2. apply free_of_parts in Hu2. exact Hu2. }
  assert (free_of is_unsafe fp = true) as Hfps.
  { rewrite Hu3 in Hu3s. apply free_of_parts in Hu3s as [? _]. assumption. }
  assert (free_of is_unsafe q = true) as Hqs.
  { destruct HQ2 as [[_ ->] | Hu4]; [reflexivity|].
    assert (free_of is_unsafe u4 = true) as Hu4s.
    { destruct HF2 as [[-> _] | ->]; [exact Hu3s|].
      apply free_of_parts in Hu3s as [? _]. assumption. }
    rewrite Hu4 in Hu4s. apply free_of_parts in Hu4s as [_ Hu4s].
    apply free_of_cons in Hu4s. exact Hu4s. }
  (* after a netloc the path is empty or starts with a slash *)
  assert (startswith u2 "//" = true -> empty_or_starts "/" fp = true) as Hroot.
  { intros Hstart. destruct HN as [(Hno & _) | (_ & _ & _ & Hdelim)];
      [congruence|].
    rewrite Hu3 in Hdelim. exact (rooted_prefix fp rest Hdelim Hfpq Hfph). }
  constructor; unfold full_path;
    cbn [scheme netloc path params query fragment]; fold fp.
  - destruct HS as [(_ & -> & _) | (x & Hx & -> & _)]; [left; reflexivity|].
    right. apply lower_scheme_like, Hx.
  - destruct HN as [(_ & -> & _) | (_ & Hfree & _)]; [reflexivity | exact Hfree].
  - destruct HN as [(_ & -> & _) | (_ & _ & Hcheck & _)];
      [reflexivity | exact Hcheck].
  - auto.
  - exact HPs.
  - exact Hqh.
  - intros Hnet. apply Hroot.
    destruct HN as [(_ & -> & _) | (-> & _)]; [discriminate | reflexivity].
  - intros ->.
    destruct HS as [(Hno & _ & ->) | (x & Hx & Hlow & _)].
    2:{ symmetry in Hlow. apply lower_empty in Hlow as ->. discriminate. }
    destruct (startswith (clean url) "//") eqn:Hstart.
    + apply has_scheme_rooted, Hroot. reflexivity.
    + destruct HN as [(_ & _ & ->) | (Heq & _)].
      2:{ rewrite Heq in Hstart. discriminate. }
      destruct (has_scheme fp) eqn:Hfp; [|reflexivity].
      rewrite Hu3, (has_scheme_prefix fp rest Hfp) in Hno. discriminate.
  - auto.
  - intros -> ->.
    destruct HS as [(Hno & _ & ->) | (x & Hx & Hlow & _)].
    2:{ symmetry in Hlow. apply lower_empty in Hlow as ->. discriminate. }
    destruct HN as [(_ & _ & ->) | (Heq & _)].
    + rewrite Hu3 in Hfirst. exact (lstrip_fixed_prefix _ fp rest Hfirst).
    + apply lstrip_rooted, Hroot. rewrite Heq. reflexivity.
Qed.

(** *** Parsing what [geturl] writes *)

Lemma query_tail_split (fp q : string) :
  contains "?" fp = false -> contains "#" fp = false ->
  contains "#" q = false ->
  split_at "#" (fp +:+ query_tail q) = (fp +:+ query_tail q, "")
  /\ split_at "?" (fp +:+ query_tail q) = (fp, q).
Proof.
  intros Hq Hh Hqh. unfold query_tail. destruct q as [|c q]; simpl.
  - rewrite app_empty_r, (split_at_absent "#" fp Hh), (split_at_absent "?" fp Hq).
    auto.
  - rewrite (split_at_first "?" fp (String c q) Hq). split; [|reflexivity].
    apply split_at_absent. rewrite contains_app, Hh. simpl. exact Hqh.
Qed.

Lemma urlparse_intro (v s u2 n fp q pp ps : string) :
  clean v = v ->
  split_scheme "" v = (s, u2) ->
  split_netloc u2 = Ok (n, fp +:+ query_tail q) ->
  contains "?" fp = false -> contains "#" fp = false ->
  contains "#" q = false ->
  split_params s fp = (pp, ps) ->
  urlparse v "" = Ok (mkParseResult s n pp ps q "").
Proof.
  intros Hclean HS HN Hq Hh Hqh HP.
  destruct (query_tail_split fp q Hq Hh Hqh) as [HF HQ].
  rewrite urlparse_stages, Hclean, HS. simpl. rewrite HN. simpl.
  rewrite HF, HQ, HP. reflexivity.
Qed.

Lemma geturl_full_path (p : ParseResult) :
  geturl p
  = urlunsplit (mkSplitResult (scheme p) (netloc p) (full_path p) (query p)
                              (fragment p)).
Proof. destruct p as [s n pa ps q f]. reflexivity. Qed.

(** The netloc and the path as [urlunsplit] writes them. *)
#[local] Abbreviation body s n fp :=
  (if truthy n || (truthy s && member s uses_netloc && negb (startswith fp "//"))
   then "//" +:+ n +:+ (if truthy fp && negb (startswith fp "/")
                        then "/" +:+ fp else fp)
   else fp).

Lemma urlunsplit_shape (s n fp q : string) :
  urlunsplit (mkSplitResult s n fp q "")
  = (if truthy s then s +:+ String ":" (body s n fp +:+ query_tail q)
     else body s n fp +:+ query_tail q).
Proof.
  unfold urlunsplit, query_tail.
  destruct (truthy n || (truthy s && member s uses_netloc
                         && negb (startswith fp "//")));
    destruct (truthy s), (truthy q); simpl;
    rewrite ?app_assoc, ?app_empty_r; simpl; rewrite ?app_assoc; reflexivity.
Qed.

Lemma not_rooted (fp : string) :
  negb (empty_or_starts "/" fp) = truthy fp && negb (startswith fp "/").
Proof.
  destruct fp as [|c fp]; simpl; [reflexivity|].
  rewrite andb_true_r, Ascii.eqb_sym. reflexivity.
Qed.

Lemma startswith_slashes_app (a : string) (c : ascii) (b : string) :
  Ascii.eqb c "/" = false ->
  startswith (a +:+ String c b) "//" = startswith a "//".
Proof.
  intros Hc. destruct a as [|x [|y a]]; cbn -[Ascii.eqb].
  - rewrite Ascii.eqb_sym, Hc. reflexivity.
  - rewrite (Ascii.eqb_sym _ c), Hc. cbn [andb].
    rewrite !andb_false_r. reflexivity.
  - reflexivity.
Qed.

Lemma startswith_slashes_tail (fp q : string) :
  startswith (fp +:+ query_tail q) "//" = startswith fp "//".
Proof.
  unfold query_tail. destruct q as [|c q]; simpl.
  - rewrite app_empty_r. reflexivity.
  - apply startswith_slashes_app. reflexivity.
Qed.

Lemma has_scheme_tail (fp q : string) :
  has_scheme (fp +:+ query_tail q) = has_scheme fp.
Proof.
  unfold query_tail. destruct q as [|c q]; simpl.
  - rewrite app_empty_r. reflexivity.
  - apply has_scheme_app_other; reflexivity.
Qed.

Lemma at_delimiter_tail (fp q : string) :
  empty_or_starts "/" fp = true -> at_delimiter (fp +:+ query_tail q) = true.
Proof.
  destruct fp as [|c fp]; simpl.
  - intros _. unfold query_tail. destruct q; reflexivity.
  - intros ->%Ascii.eqb_eq. reflexivity.
Qed.

Lemma free_of_tail (fp q : string) :
  free_of is_unsafe fp = true -> free_of is_unsafe q = true ->
  free_of is_unsafe (fp +:+ query_tail q) = true.
Proof.
  intros Hfp Hq. rewrite free_of_app, Hfp. unfold query_tail.
  destruct q; [reflexivity | exact Hq].
Qed.

Lemma lstrip_tail (fp q : string) :
  lstrip is_c0_control_or_space fp = fp ->
  lstrip is_c0_control_or_space (fp +:+ query_tail q) = fp +:+ query_tail q.
Proof.
  rewrite !lstrip_fixed. destruct fp as [|c fp]; simpl; [|auto].
  intros _. unfold query_tail. destruct q; simpl; auto.
Qed.

Lemma valid_scheme_parts (s : string) :
  valid_scheme s = true ->
  scheme_like s = true /\ lower s = s /\ truthy s = true
  /\ free_of is_unsafe s = true
  /\ match s with String c _ => is_c0_control_or_space c = false
                 | EmptyString => True end.
Proof.
  unfold valid_scheme. intros [Hlike Hlow%String.eqb_eq]%andb_true_iff.
  split_and!; try assumption.
  - destruct s; [discriminate | reflexivity].
  - apply andb_true_iff in Hlike as [_ Hall].
    revert Hall. apply all_chars_weaken. intros c Hc.
    destruct (scheme_char_plain c Hc) as (_ & -> & _). reflexivity.
  - destruct s as [|c s]; [exact I|].
    apply andb_true_iff in Hlike as [Hc _].
    apply alpha_is_scheme_char, scheme_char_plain in Hc as (_ & _ & Hc & _).
    exact Hc.
Qed.

(** The scheme of a written URL is found again. *)
Lemma scheme_stage (s rest : string) :
  (s = "" /\ has_scheme rest = false
   /\ lstrip is_c0_control_or_space rest = rest)
  \/ valid_scheme s = true ->
  free_of is_unsafe rest = true ->
  let v := if truthy s then s +:+ String ":" rest else rest in
  clean v = v /\ split_scheme "" v = (s, rest).
Proof.
  intros [(-> & Hno & Hfirst) | Hs] Hsafe; simpl.
  - split; [apply clean_id; assumption|].
    unfold split_scheme. rewrite Hno. reflexivity.
  - destruct (valid_scheme_parts s Hs) as (Hlike & Hlow & -> & Hss & Hc).
    split.
    + apply clean_id.
      * rewrite free_of_app, Hss. exact Hsafe.
      * apply lstrip_fixed. destruct s; [discriminate | exact Hc].
    + rewrite (split_scheme_intro "" s rest Hlike), Hlow. reflexivity.
Qed.

Lemma full_path_slashes (p : ParseResult) :
  startswith (full_path p) "//" = startswith (path p) "//".
Proof.
  unfold full_path. destruct (truthy (params p)); [|reflexivity].
  apply startswith_slashes_app. reflexivity.
Qed.

Lemma free_of_slashes (r : string) :
  free_of is_unsafe r = true -> free_of is_unsafe ("//" +:+ r) = true.
Proof. intros H. unfold free_of in *. simpl. exact H. Qed.

(** The three ways in which [urlunsplit] writes netloc and path, each
    read again by [urlparse]; [fp] is the path with its parameters. *)
Section Written.

Variables s n fp q pa ps : string.
Hypothesis Hs : s = "" \/ valid_scheme s = true.
Hypothesis Hpq : contains "?" fp = false.
Hypothesis Hph : contains "#" fp = false.
Hypothesis Hqh : contains "#" q = false.
Hypothesis Hsf : free_of is_unsafe fp = true.
Hypothesis Hsq : free_of is_unsafe q = true.
Hypothesis HP : split_params s fp = (pa, ps).

Lemma written_netloc :
  truthy n = true ->
  free_of is_delimiter n = true -> check_netloc n = Ok tt ->
  free_of is_unsafe n = true ->
  empty_or_starts "/" fp = true ->
  urlparse (urlunsplit (mkSplitResult s n fp q "")) ""
  = Ok (mkParseResult s n pa ps q "").
Proof.
  intros Hnt Hn Hck Hsn Hroot.
  rewrite urlunsplit_shape, Hnt. cbn [orb].
  rewrite <- (not_rooted fp), Hroot. cbn [negb].
  destruct (scheme_stage s ("//" +:+ n +:+ fp +:+ query_tail q)) as [Hclean HS].
  { destruct Hs as [-> | Hv]; [left | right; exact Hv].
    split_and!; [reflexivity | apply has_scheme_rooted; reflexivity
                | apply lstrip_rooted; reflexivity]. }
  { apply free_of_slashes.
    rewrite free_of_app, Hsn, (free_of_tail fp q Hsf Hsq). reflexivity. }
  rewrite !app_assoc.
  apply (urlparse_intro _ s _ n fp q pa ps Hclean HS); try assumption.
  rewrite (split_netloc_intro n (fp +:+ query_tail q) Hn
             (at_delimiter_tail fp q Hroot)), Hck.
  reflexivity.
Qed.

Lemma written_path :
  truthy s && member s uses_netloc = false ->
  startswith fp "//" = false ->
  (s = "" -> has_scheme fp = false) ->
  (s = "" -> lstrip is_c0_control_or_space fp = fp) ->
  urlparse (urlunsplit (mkSplitResult s "" fp q "")) ""
  = Ok (mkParseResult s "" pa ps q "").
Proof.
  intros Hu Hslashes Hnos Hfirst.
  rewrite urlunsplit_shape, Hu. cbn [truthy is_empty negb orb andb].
  destruct (scheme_stage s (fp +:+ query_tail q)) as [Hclean HS].
  { destruct Hs as [-> | Hv]; [left | right; exact Hv].
    split_and!; [reflexivity | rewrite has_scheme_tail; auto
                | apply lstrip_tail; auto]. }
  { apply (free_of_tail fp q Hsf Hsq). }
  apply (urlparse_intro _ s _ "" fp q pa ps Hclean HS); try assumption.
  apply split_netloc_plain. rewrite startswith_slashes_tail. exact Hslashes.
Qed.

Lemma written_slashes :
  truthy s && member s uses_netloc = true ->
  startswith fp "//" = false ->
  empty_or_starts "/" fp = true ->
  urlparse (urlunsplit (mkSplitResult s "" fp q "")) ""
  = Ok (mkParseResult s "" pa ps q "").
Proof.
  intros Hu Hslashes Hroot.
  rewrite urlunsplit_shape, Hu, Hslashes. cbn [truthy is_empty negb orb andb].
  rewrite <- (not_rooted fp), Hroot. cbn [negb].
  destruct Hs as [-> | Hv]; [discriminate|].
  destruct (scheme_stage s ("//" +:+ "" +:+ fp +:+ query_tail q))
    as [Hclean HS]; [right; exact Hv | |].
  { apply free_of_slashes, (free_of_tail fp q Hsf Hsq). }
  rewrite !app_assoc.
  apply (urlparse_intro _ s _ "" fp q pa ps Hclean HS); try assumption.
  rewrite (split_netloc_intro "" (fp +:+ query_tail q) eq_refl
             (at_delimiter_tail fp q Hroot)).
  reflexivity.
Qed.

Lemma written_relative :
  truthy s && member s uses_netloc = true ->
  empty_or_starts "/" fp = false ->
  split_params s ("/" +:+ fp) = ("/" +:+ pa, ps) ->
  urlparse (urlunsplit (mkSplitResult s "" fp q "")) ""
  = Ok (mkParseResult s "" ("/" +:+ pa) ps q "")
  /\ urlunsplit (mkSplitResult s "" ("/" +:+ fp) q "")
     = urlunsplit (mkSplitResult s "" fp q "").
Proof.
  intros Hu Hroot HP'.
  assert (startswith fp "/" = false /\ truthy fp = true
          /\ startswith fp "//" = false) as (Hns & Hft & Hslashes).
  { destruct fp as [|c r]; [discriminate|]. cbn -[Ascii.eqb] in Hroot |- *.
    rewrite Ascii.eqb_sym, Hroot. auto. }
  rewrite !urlunsplit_shape, Hu, Hslashes, Hft, Hns.
  cbn [truthy is_empty negb orb andb].
  replace (startswith ("/" +:+ fp) "//") with false
    by (destruct fp as [|c r]; [discriminate|]; cbn -[Ascii.eqb] in Hns |- *;
        rewrite andb_true_r in Hns; rewrite Hns; reflexivity).
  change (startswith ("/" +:+ fp) "/") with true.
  change (truthy ("/" +:+ fp)) with true.
  cbn [negb orb andb]. split; [|reflexivity].
  destruct Hs as [-> | Hv]; [discriminate|].
  destruct (scheme_stage s ("//" +:+ "" +:+ ("/" +:+ fp) +:+ query_tail q))
    as [Hclean HS]; [right; exact Hv | |].
  { apply free_of_slashes. unfold free_of in *. simpl.
    apply (free_of_tail fp q Hsf Hsq). }
  rewrite !app_assoc.
  apply (urlparse_intro _ s _ "" ("/" +:+ fp) q ("/" +:+ pa) ps Hclean HS);
    try assumption; try (simpl; assumption).
  rewrite (split_netloc_intro "" (("/" +:+ fp) +:+ query_tail q) eq_refl eq_refl).
  reflexivity.
Qed.

End Written.

(** What [geturl] writes for a value [p] of [urlparse] without fragment,
    [urlparse] reads as a value that [geturl] writes in the same way,
    provided that [p] has a netloc or a path that does not start with two
    slashes. *)
Theorem urlparse_geturl (p : ParseResult) :
  wf_parse p -> fragment p = "" ->
  truthy (netloc p) = true \/ startswith (path p) "//" = false ->
  exists p', urlparse (geturl p) "" = Ok p'
             /\ fragment p' = "" /\ geturl p' = geturl p.
Proof.
  intros [Hs Hn Hck [Hpq Hph] Hps Hqh Hroot Hnos (Hsn & Hsf & Hsq) Hfirst]
         Hfrag Hcond.
  rewrite <- full_path_slashes in Hcond.
  assert (split_params (scheme p) (full_path p) = (path p, params p)) as HP
      by (apply split_params_intro, Hps).
  rewrite (geturl_full_path p), Hfrag.
  destruct (truthy (netloc p)) eqn:Hnt.
  - exists p. rewrite (geturl_full_path p), Hfrag.
    split_and!; [|(assumption || reflexivity)|reflexivity].
    rewrite (written_netloc (scheme p) (netloc p) (full_path p) (query p)
               (path p) (params p)); auto.
    destruct p; simpl in *; subst; reflexivity.
  - apply truthy_false in Hnt. rewrite Hnt in *.
    destruct Hcond as [Hcond | Hcond]; [discriminate|].
    destruct (truthy (scheme p) && member (scheme p) uses_netloc) eqn:Hu.
    + destruct (empty_or_starts "/" (full_path p)) eqn:Hr.
      * exists p. rewrite (geturl_full_path p), Hfrag, Hnt.
        split_and!; [|(assumption || reflexivity)|reflexivity].
        rewrite (written_slashes (scheme p) (full_path p) (query p)
                   (path p) (params p)); auto.
        destruct p; simpl in *; subst; reflexivity.
      * exists (mkParseResult (scheme p) "" ("/" +:+ path p) (params p)
                              (query p) "").
        assert (full_path (mkParseResult (scheme p) "" ("/" +:+ path p)
                                         (params p) (query p) "")
                = "/" +:+ full_path p) as Hfull
            by (unfold full_path; simpl; destruct (truthy (params p));
                reflexivity).
        rewrite geturl_full_path, Hfull.
        cbn [scheme netloc path params query fragment].
        destruct (written_relative (scheme p) (full_path p) (query p)
                    (path p) (params p)) as [Hparse Hwrite]; auto.
        rewrite <- Hfull. apply split_params_intro.
        cbn [scheme path params].
        destruct Hps as [Hps | (Hm & Hseg & Hsl)]; [left; exact Hps|].
        right. split_and!; try assumption.
        change ("/" +:+ path p) with (String "/" (path p)).
        rewrite after_last_cons_same. exact Hseg.
    + exists p. rewrite (geturl_full_path p), Hfrag, Hnt.
      split_and!; [|(assumption || reflexivity)|reflexivity].
      rewrite (written_path (scheme p) (full_path p) (query p)
                 (path p) (params p)); auto.
      destruct p; simpl in *; subst; reflexivity.
Qed.

(** *** The fragment *)

Lemma lstrip_app_stop (p : ascii -> bool) (a : string) (c : ascii) (r : string) :
  p c = false -> lstrip p (a +:+ String c r) = lstrip p a +:+ String c r.
Proof.
  intros Hc. induction a as [|x a IH]; simpl.
  - rewrite Hc. reflexivity.
  - destruct (p x); [exact IH | reflexivity].
Qed.

Lemma remove_app (c : ascii) (a b : string) :
  remove c (a +:+ b) = remove c a +:+ remove c b.
Proof.
  induction a as [|x a IH]; simpl; [reflexivity|].
  destruct (Ascii.eqb x c); simpl; rewrite IH; reflexivity.
Qed.

Lemma contains_lstrip (p : ascii -> bool) (c : ascii) (s : string) :
  contains c s = false -> contains c (lstrip p s) = false.
Proof.
  induction s as [|x s IH]; simpl; [reflexivity|].
  destruct (Ascii.eqb x c) eqn:Hx; [discriminate|].
  intros Hs. destruct (p x); [exact (IH Hs)|]. simpl. rewrite Hx. exact Hs.
Qed.

Lemma clean_fragment (b f : string) :
  clean (b +:+ String "#" f) = clean b +:+ String "#" (remove_unsafe f).
Proof.
  unfold clean. rewrite lstrip_app_stop by reflexivity.
  unfold remove_unsafe. rewrite !remove_app. reflexivity.
Qed.

Lemma clean_keeps_absent (c : ascii) (b : string) :
  contains c b = false -> contains c (clean b) = false.
Proof.
  intros Hb. unfold clean, remove_unsafe. rewrite !contains_remove.
  rewrite (contains_lstrip _ c b Hb), !andb_false_r. reflexivity.
Qed.

Lemma split_scheme_fragment (b f : string) :
  split_scheme "" (b +:+ String "#" f)
  = ((split_scheme "" b).1, (split_scheme "" b).2 +:+ String "#" f).
Proof.
  destruct (split_scheme "" b) as [s u2] eqn:HS.
  apply split_scheme_elim in HS as [(Hno & -> & ->) | (x & Hx & -> & ->)]; simpl.
  - unfold split_scheme.
    rewrite (has_scheme_app_other b "#" f eq_refl eq_refl), Hno. reflexivity.
  - rewrite app_assoc. simpl. apply (split_scheme_intro "" x _ Hx).
Qed.

Lemma split_scheme_keeps_absent (c : ascii) (b : string) :
  contains c b = false -> contains c (split_scheme "" b).2 = false.
Proof.
  intros Hb. destruct (split_scheme "" b) as [s u2] eqn:HS.
  apply split_scheme_elim in HS as [(_ & _ & ->) | (x & _ & _ & ->)]; simpl;
    [exact Hb|].
  apply contains_prefix in Hb as [_ Hb]. rewrite contains_cons in Hb.
  apply orb_false_iff in Hb as [_ Hb]. exact Hb.
Qed.

Lemma at_delimiter_fragment (r f : string) :
  at_delimiter r = true -> at_delimiter (r +:+ String "#" f) = true.
Proof. destruct r; simpl; auto. Qed.

Lemma split_netloc_fragment (u2 f : string) :
  split_netloc (u2 +:+ String "#" f)
  = ('(n, u3) ← split_netloc u2; Ok (n, u3 +:+ String "#" f)).
Proof.
  destruct (startswith u2 "//") eqn:Hs.
  - destruct (startswith_split _ _ Hs) as (rest & ->).
    destruct (span_delimiter rest) as (n0 & r0 & -> & Hn & Hr).
    rewrite (split_netloc_intro n0 r0 Hn Hr).
    replace (("//" +:+ n0 +:+ r0) +:+ String "#" f)
      with ("//" +:+ n0 +:+ (r0 +:+ String "#" f))
      by (rewrite !app_assoc; reflexivity).
    rewrite (split_netloc_intro n0 _ Hn (at_delimiter_fragment r0 f Hr)).
    destruct (check_netloc n0) as [[]|]; reflexivity.
  - rewrite (split_netloc_plain u2 Hs), split_netloc_plain; [reflexivity|].
    rewrite startswith_slashes_app; [exact Hs | reflexivity].
Qed.

Lemma split_netloc_keeps_absent (c : ascii) (u2 n u3 : string) :
  split_netloc u2 = Ok (n, u3) ->
  contains c u2 = false -> contains c u3 = false.
Proof.
  intros [(_ & _ & ->) | (-> & _)]%split_netloc_elim Hu2; [exact Hu2|].
  apply contains_prefix in Hu2 as [_ Hu2].
  apply contains_prefix in Hu2 as [_ Hu2]. exact Hu2.
Qed.

(** A fragment changes nothing but the fragment of what [urlparse]
    returns. *)
Theorem urlparse_fragment (b f : string) :
  contains "#" b = false ->
  urlparse (b +:+ String "#" f) ""
  = (p ← urlparse b ""; Ok (replace_fragment p (remove_unsafe f))).
Proof.
  intros Hb. rewrite !urlparse_stages, clean_fragment, split_scheme_fragment.
  pose proof (split_scheme_keeps_absent "#" (clean b)
                (clean_keeps_absent "#" b Hb)) as Hu2.
  destruct (split_scheme "" (clean b)) as [s u2]. simpl in Hu2 |- *.
  rewrite split_netloc_fragment.
  destruct (split_netloc u2) as [[n u3]|e] eqn:HN; simpl; [|reflexivity].
  pose proof (split_netloc_keeps_absent "#" u2 n u3 HN Hu2) as Hu3.
  rewrite (split_at_first "#" u3 _ Hu3), (split_at_absent "#" u3 Hu3).
  destruct (split_at "?" u3) as [p0 q].
  destruct (split_params s p0) as [pa ps]. reflexivity.
Qed.

(** ** [normalise] *)

Lemma normalise_geturl (u : string) (p : ParseResult) :
  urlparse u "" = Ok p ->
  normalise u = Ok (geturl (replace_fragment p "")).
Proof. intros H. unfold normalise. rewrite H. reflexivity. Qed.

Lemma wf_replace_fragment (p : ParseResult) (f : string) :
  wf_parse p -> wf_parse (replace_fragment p f).
Proof. intros []. constructor; assumption. Qed.

Lemma normalise_fixed (u v : string) (p : ParseResult) :
  urlparse u "" = Ok p ->
  truthy (netloc p) = true \/ startswith (path p) "//" = false ->
  normalise u = Ok v -> normalise v = Ok v.
Proof.
  intros Hp Hcond Hv. rewrite (normalise_geturl u p Hp) in Hv.
  assert (v = geturl (replace_fragment p "")) as -> by congruence. clear Hv.
  destruct (urlparse_geturl (replace_fragment p ""))
    as (p' & Hp' & Hf & Hg); [apply wf_replace_fragment, (urlparse_wf u p Hp)
                             | reflexivity | exact Hcond |].
  rewrite (normalise_geturl _ p' Hp'). f_equal.
  replace (replace_fragment p' "") with p'
    by (destruct p'; simpl in Hf; subst; reflexivity).
  exact Hg.
Qed.


(** [normalise] does not see the fragment. *)
Lemma normalise_fragment (b f : string) :
  contains "#" b = false -> normalise (b +:+ String "#" f) = normalise b.
Proof.
  intros Hb. unfold normalise. rewrite (urlparse_fragment b f Hb).
  destruct (urlparse b "") as [p|e]; reflexivity.
Qed.

End UrlFacts.

(** ** C8: normalisation *)

(** C8 — Normalisation, as the code has it.  [normalise] is idempotent on
    every URL whose parse has a netloc or a path that does not start with
    two slashes; two URLs whose parses differ in the fragment only have
    the same normal form; and what follows the first [#] of a URL has no
    influence on its normal form, which is that of the URL without
    fragment. *)
Theorem normalise_algebra :
  (forall (u : string) (p : UrlParse.ParseResult),
      UrlParse.urlparse u "" = Ok p ->
      Py.truthy (UrlParse.netloc p) = true
      \/ Py.startswith (UrlParse.path p) "//" = false ->
      normalise u ≫= normalise = normalise u)
  /\ (forall (u1 u2 : string) (p1 p2 : UrlParse.ParseResult),
         UrlParse.urlparse u1 "" = Ok p1 ->
         UrlParse.urlparse u2 "" = Ok p2 ->
         UrlParse.replace_fragment p1 "" = UrlParse.replace_fragment p2 "" ->
         normalise u1 = normalise u2)
  /\ (forall b f1 f2 : string,
         Py.contains "#" b = false ->
         normalise (b +:+ "#" +:+ f1) = normalise (b +:+ "#" +:+ f2)
         /\ normalise (b +:+ "#" +:+ f1) = normalise b).
Proof.
  split_and!.
  - intros u p Hp Hcond.
    destruct (normalise u) as [v|e] eqn:Hv; [|reflexivity]. simpl.
    exact (UrlFacts.normalise_fixed u v p Hp Hcond Hv).
  - intros u1 u2 p1 p2 H1 H2 Heq.
    rewrite (UrlFacts.normalise_geturl u1 p1 H1),
      (UrlFacts.normalise_geturl u2 p2 H2), Heq.
    reflexivity.
  - intros b f1 f2 Hb.
    change (b +:+ "#" +:+ f1) with (b +:+ String "#" f1).
    change (b +:+ "#" +:+ f2) with (b +:+ String "#" f2).
    rewrite !(UrlFacts.normalise_fragment b _ Hb). auto.
Qed.

Lemma normalise_algebra_witness :
  normalise "HTTP://Example.com/a/b;p?q=1#frag" ≫= normalise
  = normalise "HTTP://Example.com/a/b;p?q=1#frag"
  /\ normalise "http://example.com/a#one" = normalise "http://example.com/a#two"
  /\ normalise ("http://example.com/a?b" +:+ "#" +:+ "one")
     = normalise "http://example.com/a?b".
Proof.
  split_and!.
  - eapply (proj1 normalise_algebra); [vm_compute; reflexivity|].
    left. vm_compute. reflexivity.
  - eapply (proj1 (proj2 normalise_algebra)); vm_compute; reflexivity.
  - eapply (proj2 (proj2 normalise_algebra) "http://example.com/a?b" "one" "one").
    vm_compute. reflexivity.
Defined.

(** The claim C8 as it is written fails at ["/////x"]: its normal form
    is ["///x"], whose normal form is ["/x"]. *)
Lemma normalise_not_idempotent :
  normalise "/////x" = Ok "///x"
  /\ normalise "///x" = Ok "/x"
  /\ normalise "/////x" ≫= normalise <> normalise "/////x".
Proof. split_and!; [reflexivity | reflexivity | vm_compute; discriminate]. Qed.

(** ** One iteration of the crawl loop *)

#[local] Arguments discover : simpl never.
#[local] Arguments crawl_step : simpl never.
#[local] Arguments request : simpl never.

Ltac unfold_crawl_step := unfold crawl_step.
Ltac unfold_page_links := unfold page_links.
Ltac unfold_request := unfold request.
Ltac unfold_discover := unfold discover.

Section CrawlerFacts.

Context {World : Type}.
Variable session_get : string -> Z -> World -> GetOutcome * World.
Variable time_sleep : World -> World.
Variable BeautifulSoup : string -> list PageElement.
Variables (start_url : string) (max_pages timeout : Z).
Variable include_external : bool.

#[local] Abbreviation State := (@State World).
#[local] Abbreviation request := (request session_get).
#[local] Abbreviation get_links := (get_links BeautifulSoup).
#[local] Abbreviation page_links := (page_links session_get BeautifulSoup).
#[local] Abbreviation discover := (discover start_url include_external).
#[local] Abbreviation crawl_step :=
  (crawl_step session_get time_sleep BeautifulSoup start_url timeout
              include_external).
#[local] Abbreviation crawl_loop fuel :=
  (crawl_loop session_get time_sleep BeautifulSoup fuel start_url max_pages
              timeout include_external).
#[local] Abbreviation follows :=
  (follows session_get BeautifulSoup start_url timeout include_external).

(** Whether a link passes the scope test of line 152. *)
#[local] Abbreviation admitted link :=
  (include_external = true \/ same_domain link start_url = Ok true).
#[local] Abbreviation refused link :=
  (include_external = false /\ same_domain link start_url = Ok false).

Lemma discover_cases (V V' : gset string) (Q Q' : list string) (link : string) :
  discover (V, Q) link = Ok (V', Q') ->
  (V' = V /\ Q' = Q /\ (link ∈ V \/ refused link))
  \/ (V' = {[link]} ∪ V /\ Q' = (Q ++ [link]) /\ link ∉ V /\ admitted link).
Proof.
  unfold_discover. case_bool_decide as Hin.
  - intros [= <- <-]. left. auto.
  - destruct include_external; simpl.
    + intros [= <- <-]. right. auto.
    + destruct (same_domain link start_url) as [[|]|e] eqn:Hsame; simpl;
        try discriminate; intros [= <- <-]; [right | left]; auto.
Qed.

(** The loop over the links of one page: the queue grows at its end by
    the links that are new and admitted, each once, and [visited] grows
    by exactly these. *)
Lemma discover_all (links : list string) :
  forall (V V' : gset string) (Q Q' : list string),
    foldM discover links (V, Q) = Ok (V', Q') ->
    exists new : list string,
      Q' = (Q ++ new)
      /\ V' = list_to_set new ∪ V
      /\ NoDup new
      /\ (forall x, x ∈ new -> x ∉ V /\ x ∈ links /\ admitted x)
      /\ (forall x, x ∈ links -> x ∈ V' \/ refused x).
Proof.
  induction links as [|link links IH]; intros V V' Q Q'; simpl.
  - intros [= <- <-]. exists []. rewrite app_nil_r.
    split_and!; [reflexivity | set_solver | constructor | set_solver | set_solver].
  - intros H. apply bind_Ok in H as ([V1 Q1] & Hd & Hrest).
    apply IH in Hrest as (new & -> & -> & Hnd & Hnew & Hall).
    apply discover_cases in Hd
      as [(-> & -> & Hwhy) | (-> & -> & Hfresh & Hadm)].
    + exists new. split_and!; [reflexivity | reflexivity | assumption | |].
      * intros x Hx. destruct (Hnew x Hx) as (Hnot & Hin & Hok).
        split_and!; [assumption | set_solver | assumption].
      * intros x [->|Hx]%elem_of_cons; [|auto].
        destruct Hwhy as [Hin|Href]; [left; set_solver | right; exact Href].
    + exists (link :: new). split_and!.
      * rewrite <- app_assoc. reflexivity.
      * set_solver.
      * constructor; [|assumption].
        intros Hin. apply Hnew in Hin as (Hnot & _). set_solver.
      * intros x [->|Hx]%elem_of_cons.
        -- split_and!; [assumption | set_solver | assumption].
        -- destruct (Hnew x Hx) as (Hnot & Hin & Hok).
           split_and!; [set_solver | set_solver | assumption].
      * intros x [->|Hx]%elem_of_cons; [left; set_solver | auto].
Qed.

(** What one iteration does to the variables of the loop. *)
Lemma crawl_step_effect (url : string) (st st' : State) :
  crawl_step url st = Ok st' ->
  exists (code : Z) (html : string) (w : World) (new : list string),
    request url timeout (world st) = (code, html, w)
    /\ results st' = results st ++ [mkCrawlResult url code (result_label code)]
    /\ world st' = time_sleep w
    /\ queue st' = (tail (queue st) ++ new)
    /\ visited st' = list_to_set new ∪ visited st
    /\ NoDup new
    /\ (forall x, x ∈ new ->
          x ∉ visited st /\ admitted x
          /\ Py.truthy html = true /\ same_domain url start_url = Ok true
          /\ exists links, get_links html url = Ok links /\ x ∈ links)
    /\ (forall links,
          same_domain url start_url = Ok true ->
          page_links url timeout (world st) = Ok links ->
          forall x, x ∈ links -> x ∈ visited st' \/ refused x).
Proof.
  unfold_crawl_step; unfold_page_links.
  destruct (request url timeout (world st)) as [[code html] w] eqn:Hreq.
  intros H. apply bind_Ok in H as ([V' Q'] & Hfr & [= <-]). simpl.
  exists code, html, w.
  destruct (Py.truthy html) eqn:Hhtml.
  - apply bind_Ok in Hfr as (same & Hsame & Hfr). destruct same.
    + apply bind_Ok in Hfr as (links & Hlinks & Hfold).
      apply discover_all in Hfold as (new & -> & -> & Hnd & Hnew & Hall).
      exists new. split_and!; try reflexivity; try assumption.
      * intros x Hx. destruct (Hnew x Hx) as (Hnot & Hin & Hok).
        split_and!; try assumption; try reflexivity. exists links. auto.
      * intros links' _ Hl'. rewrite Hlinks in Hl'. injection Hl' as <-.
        exact Hall.
    + injection Hfr as <- <-. exists []. rewrite app_nil_r.
      split_and!; try reflexivity; [set_solver | constructor | set_solver |].
      intros links Hs. rewrite Hsame in Hs. discriminate.
  - injection Hfr as <- <-. exists []. rewrite app_nil_r.
    split_and!; try reflexivity; [set_solver | constructor | set_solver |].
    intros links _ [= <-] x Hx. set_solver.
Qed.

(** *** Invariants of the loop *)

(** A property that holds when the loop starts and that every iteration
    keeps, holds when the loop ends. *)
Lemma crawl_loop_invariant (P : State -> Prop) :
  (forall url st st',
      P st -> head (queue st) = Some url ->
      Z.of_nat (length (results st)) < max_pages ->
      crawl_step url st = Ok st' -> P st') ->
  forall (fuel : nat) (st st' : State),
    P st -> crawl_loop fuel st = Ok st' -> P st'.
Proof.
  intros Hstep. induction fuel as [|fuel IH]; intros st st' HP; simpl.
  - destruct (queue st); [|case_match]; intros [= <-]; exact HP.
  - destruct (queue st) as [|url q] eqn:Hq; [intros [= <-]; exact HP|].
    destruct (Z.ltb_spec (Z.of_nat (length (results st))) max_pages) as [Hlt|Hge];
      [|intros [= <-]; exact HP].
    intros H. apply bind_Ok in H as (st1 & Hst1 & Hrest).
    apply (IH st1 st'); [|exact Hrest].
    apply (Hstep url st st1); auto. rewrite Hq. reflexivity.
Qed.

Lemma crawl_step_length (url : string) (st st' : State) :
  crawl_step url st = Ok st' ->
  length (results st') = S (length (results st)).
Proof.
  intros (code & html & w & new & _ & -> & _)%crawl_step_effect.
  rewrite length_app. simpl. lia.
Qed.

(** The fuel of [crawl_loop] never decides: with as much fuel as pages
    are left in the budget, the loop ends because its condition fails. *)
Lemma crawl_loop_exit (fuel : nat) :
  forall st st' : State,
    max_pages - Z.of_nat (length (results st)) <= Z.of_nat fuel ->
    crawl_loop fuel st = Ok st' ->
    queue st' = [] \/ max_pages <= Z.of_nat (length (results st')).
Proof.
  induction fuel as [|fuel IH]; intros st st' Hfuel; simpl.
  - destruct (queue st) eqn:Hq; [intros [= <-]; auto|].
    destruct (Z.ltb_spec (Z.of_nat (length (results st))) max_pages);
      intros [= <-]; [lia | right; lia].
  - destruct (queue st) as [|url q] eqn:Hq; [intros [= <-]; auto|].
    destruct (Z.ltb_spec (Z.of_nat (length (results st))) max_pages) as [Hlt|Hge];
      [|intros [= <-]; right; lia].
    intros H. apply bind_Ok in H as (st1 & Hst1 & Hrest).
    apply (IH st1 st'); [|exact Hrest].
    apply crawl_step_length in Hst1. lia.
Qed.

(** The loop never goes over the budget. *)
Lemma crawl_loop_budget (fuel : nat) (st st' : State) :
  Z.of_nat (length (results st)) <= Z.max 0 max_pages ->
  crawl_loop fuel st = Ok st' ->
  Z.of_nat (length (results st')) <= Z.max 0 max_pages.
Proof.
  apply (crawl_loop_invariant
           (fun s => Z.of_nat (length (results s)) <= Z.max 0 max_pages)).
  intros url s s' Hs _ Hlt Hstep. apply crawl_step_length in Hstep. lia.
Qed.


(** Every iteration moves the head of the queue to the end of the results
    and adds the new links to the end of the queue. *)
Lemma crawl_step_order (u : string) (st st' : State) :
  head (queue st) = Some u ->
  crawl_step u st = Ok st' ->
  fetched st' = fetched st ++ [u]
  /\ exists new,
      queue st' = tail (queue st) ++ new
      /\ fetched st' ++ queue st' = (fetched st ++ queue st) ++ new.
Proof.
  intros Hhead Hstep.
  destruct (crawl_step_effect u st st' Hstep)
    as (code & html & w & new & _ & Hres & _ & Hq & _).
  destruct (queue st) as [|u' q] eqn:Hqueue; [discriminate|].
  injection Hhead as ->. unfold fetched.
  rewrite Hres, Hq, map_app. simpl. split; [reflexivity|].
  exists new. split; [reflexivity|]. rewrite <- !app_assoc. reflexivity.
Qed.

Lemma frontier_ok_initial (w : World) :
  frontier_ok (initial_state start_url w).
Proof.
  split; simpl.
  - apply NoDup_singleton.
  - intros u. set_solver.
Qed.

Lemma frontier_ok_step (u : string) (st st' : State) :
  frontier_ok st -> head (queue st) = Some u ->
  crawl_step u st = Ok st' -> frontier_ok st'.
Proof.
  intros [Hnd Hvis] Hhead Hstep.
  destruct (crawl_step_order u st st' Hhead Hstep) as (_ & new' & _ & Hall).
  destruct (crawl_step_effect u st st' Hstep)
    as (code & html & w & new & _ & Hres & _ & Hq & Hv & Hndnew & Hnew & _).
  assert (new' = new) as ->.
  { destruct (crawl_step_order u st st' Hhead Hstep) as (_ & n & Hq' & _).
    rewrite Hq in Hall. unfold fetched in Hall.
    rewrite Hres, map_app in Hall. simpl in Hall.
    destruct (queue st) as [|u' q]; [discriminate|]. injection Hhead as ->.
    simpl in Hall. rewrite <- !app_assoc in Hall. simpl in Hall.
    apply app_inv_head in Hall. injection Hall as Hall.
    apply app_inv_head in Hall. symmetry. exact Hall. }
  split.
  - rewrite Hall. apply NoDup_app. split_and!; [assumption | | assumption].
    intros x Hx Hxnew. apply Hnew in Hxnew as (Hnot & _).
    apply Hnot, Hvis, Hx.
  - intros x. rewrite Hall, Hv, elem_of_union, elem_of_list_to_set,
      (elem_of_app _ new), Hvis. tauto.
Qed.

Lemma frontier_ok_loop (fuel : nat) (st st' : State) :
  frontier_ok st -> crawl_loop fuel st = Ok st' -> frontier_ok st'.
Proof.
  apply (crawl_loop_invariant (@frontier_ok World)).
  intros u s s' Hs Hhead _ Hstep. exact (frontier_ok_step u s s' Hs Hhead Hstep).
Qed.

(** The head of the queue is in [visited]. *)
Lemma frontier_ok_head (u : string) (st : State) :
  frontier_ok st -> head (queue st) = Some u -> u ∈ visited st.
Proof.
  intros [_ Hvis] Hhead. apply Hvis, elem_of_app. right.
  destruct (queue st); [discriminate|]. injection Hhead as ->. left.
Qed.

(** *** Scope *)

(** Without [include_external], whatever is in [visited] is the start URL
    or has passed [same_domain]. *)
Lemma visited_in_scope (fuel : nat) (st st' : State) :
  include_external = false ->
  frontier_ok st ->
  (forall u, u ∈ visited st -> u = start_url \/ same_domain u start_url = Ok true) ->
  crawl_loop fuel st = Ok st' ->
  forall u, u ∈ visited st' -> u = start_url \/ same_domain u start_url = Ok true.
Proof.
  intros Hext Hok Hscope Hloop.
  enough (frontier_ok st' /\
          forall u, u ∈ visited st' ->
                    u = start_url \/ same_domain u start_url = Ok true) as [_ H];
    [exact H|].
  revert fuel st st' Hloop Hok Hscope.
  intros fuel st st' Hloop Hok Hscope.
  apply (crawl_loop_invariant
           (fun s : State => frontier_ok s /\
                     forall u, u ∈ visited s ->
                               u = start_url \/ same_domain u start_url = Ok true))
    with (fuel := fuel) (st := st); [|split; assumption|assumption].
  intros u s s' [Hs Hsc] Hhead _ Hstep. split.
  - exact (frontier_ok_step u s s' Hs Hhead Hstep).
  - destruct (crawl_step_effect u s s' Hstep)
      as (code & html & w & new & _ & _ & _ & _ & Hv & _ & Hnew & _).
    intros x. rewrite Hv, elem_of_union, elem_of_list_to_set.
    intros [Hx|Hx]; [|auto].
    apply Hnew in Hx as (_ & [Habs|Hsame] & _); [congruence | right; exact Hsame].
Qed.

(** *** The loop, link by link *)

(** An iteration on a page of the crawled site, in terms of its links. *)
Lemma crawl_step_links (u : string) (st : State) (links : list string) :
  same_domain u start_url = Ok true ->
  page_links u timeout (world st) = Ok links ->
  crawl_step u st =
    (frontier ← foldM discover links (visited st, tail (queue st));
     let code := (request u timeout (world st)).1.1 in
     Ok (mkState frontier.2 frontier.1
                 (results st ++ [mkCrawlResult u code (result_label code)])
                 (time_sleep (request u timeout (world st)).2))).
Proof.
  unfold_crawl_step; unfold_page_links.
  destruct (request u timeout (world st)) as [[code html] w]. simpl.
  intros Hsame Hlinks. destruct (Py.truthy html).
  - rewrite Hsame. simpl. rewrite Hlinks. reflexivity.
  - injection Hlinks as <-. reflexivity.
Qed.

(** A link of the crawled site that is not yet in [visited] is marked
    and put at the end of the queue. *)
Lemma discover_new (V : gset string) (Q : list string) (link : string) :
  link ∉ V ->
  same_domain link start_url = Ok true ->
  discover (V, Q) link = Ok ({[link]} ∪ V, Q ++ [link]).
Proof.
  intros Hnew Hsame. unfold_discover.
  rewrite bool_decide_eq_false_2 by assumption.
  destruct include_external; simpl; [reflexivity|].
  rewrite Hsame. reflexivity.
Qed.

(** ** C1: every URL is fetched at most once *)

(** C1 — Deduplication.  The seed is in [visited] when the loop starts;
    an iteration never removes anything from [visited], and the links
    that it appends to the queue are exactly the elements that it adds to
    [visited], each of them new; so when [crawl] returns, [visited] is the
    set of the URLs fetched or still queued, none of which occurs twice:
    no URL appears twice in the results. *)
Theorem crawl_dedup (start : string) (w : World) (st : State) :
  normalise start = Ok start_url ->
  crawl_run session_get time_sleep BeautifulSoup start max_pages timeout
            include_external w = Ok st ->
  (queue (initial_state start_url w) = [start_url]
   /\ visited (initial_state start_url w) = {[start_url]})
  /\ (forall u s s',
         crawl_step u s = Ok s' ->
         visited s ⊆ visited s'
         /\ exists new,
             queue s' = tail (queue s) ++ new
             /\ visited s' = list_to_set new ∪ visited s
             /\ NoDup new
             /\ forall x, x ∈ new -> x ∉ visited s)
  /\ (forall u, u ∈ visited st <-> u ∈ fetched st ++ queue st)
  /\ NoDup (fetched st ++ queue st)
  /\ NoDup (map url (results st)).
Proof.
  intros Hnorm Hrun. unfold crawl_run in Hrun. rewrite Hnorm in Hrun.
  simpl in Hrun.
  split_and!.
  - reflexivity.
  - reflexivity.
  - intros u s s' Hstep.
    destruct (crawl_step_effect u s s' Hstep)
      as (code & html & w' & new & _ & _ & _ & Hq & Hv & Hnd & Hnew & _).
    split; [rewrite Hv; set_solver|].
    exists new. split_and!; try assumption. intros x Hx. apply Hnew, Hx.
  - apply (frontier_ok_loop _ _ _ (frontier_ok_initial w) Hrun).
  - apply (frontier_ok_loop _ _ _ (frontier_ok_initial w) Hrun).
  - destruct (frontier_ok_loop _ _ _ (frontier_ok_initial w) Hrun) as [Hnd _].
    apply NoDup_app in Hnd as (Hnd & _). exact Hnd.
Qed.

(** ** C2: breadth-first order *)


(** C2 — BFS order.  An iteration appends the URL that it takes from the
    head of the queue to the results and the links that it finds to the
    end of the queue, so the sequence "fetched, then queued" only ever
    grows at its end: the results list the URLs in the order in which
    they entered the queue.  On a site whose start page links to [B] and
    [C], where [B] links to [D] and [C] and [D] link to nothing, a crawl
    with [max_pages = 10] returns the pages in the order start, [B], [C],
    [D]. *)
Theorem crawl_bfs_order (start B C D : string) (w : World) :
  max_pages = 10 ->
  normalise start = Ok start_url ->
  NoDup [start_url; B; C; D] ->
  same_domain start_url start_url = Ok true ->
  same_domain B start_url = Ok true ->
  same_domain C start_url = Ok true ->
  same_domain D start_url = Ok true ->
  (forall w', page_links start_url timeout w' = Ok [B; C]) ->
  (forall w', page_links B timeout w' = Ok [D]) ->
  (forall w', page_links C timeout w' = Ok []) ->
  (forall w', page_links D timeout w' = Ok []) ->
  (forall u s s',
      head (queue s) = Some u -> crawl_step u s = Ok s' ->
      map url (results s') = map url (results s) ++ [u]
      /\ exists new,
          queue s' = tail (queue s) ++ new
          /\ map url (results s') ++ queue s'
             = (map url (results s) ++ queue s) ++ new)
  /\ exists rs,
      crawl session_get time_sleep BeautifulSoup start max_pages timeout
            include_external w = Ok rs
      /\ map url rs = [start_url; B; C; D].
Proof.
  intros -> Hnorm Hnd Hs HB HC HD Ls LB LC LD. split.
  - intros u s s' Hhead Hstep. exact (crawl_step_order u s s' Hhead Hstep).
  - apply NoDup_cons in Hnd as (Hs1 & Hnd).
    apply NoDup_cons in Hnd as (HB1 & Hnd).
    apply NoDup_cons in Hnd as (HC1 & _).
    unfold crawl, crawl_run. rewrite Hnorm. simpl.
    rewrite (crawl_step_links start_url _ [B; C] Hs (Ls _)). simpl.
    rewrite (discover_new _ _ B) by (assumption || set_solver). simpl.
    rewrite (discover_new _ _ C) by (assumption || set_solver). simpl.
    rewrite (crawl_step_links B _ [D] HB (LB _)). simpl.
    rewrite (discover_new _ _ D) by (assumption || set_solver). simpl.
    rewrite (crawl_step_links C _ [] HC (LC _)). simpl.
    rewrite (crawl_step_links D _ [] HD (LD _)). simpl.
    eexists. split; reflexivity.
Qed.

(** ** C4: scope *)

(** C4 — Scope.  Without [include_external] every URL in the results is
    the start URL or has the authority of the start URL
    ([same_domain] holds of it).  In every case an iteration reads links
    only from a page that has the authority of the start URL: every link
    that it puts in the queue was found on such a page, and on any other
    page it leaves [visited] alone and only takes the page from the
    queue. *)
Theorem crawl_scope (start : string) (w : World) (st : State) :
  normalise start = Ok start_url ->
  crawl_run session_get time_sleep BeautifulSoup start max_pages timeout
            include_external w = Ok st ->
  (include_external = false ->
   forall r, r ∈ results st ->
             url r = start_url \/ same_domain (url r) start_url = Ok true)
  /\ (forall u s s',
         crawl_step u s = Ok s' ->
         (forall x, x ∈ visited s' -> x ∉ visited s ->
                    same_domain u start_url = Ok true
                    /\ exists links, page_links u timeout (world s) = Ok links
                                     /\ x ∈ links)
         /\ (same_domain u start_url <> Ok true ->
             queue s' = tail (queue s) /\ visited s' = visited s)).
Proof.
  intros Hnorm Hrun. unfold crawl_run in Hrun. rewrite Hnorm in Hrun.
  simpl in Hrun. split.
  - intros Hext r Hr.
    assert (frontier_ok st) as [_ Hvis]
        by exact (frontier_ok_loop _ _ _ (frontier_ok_initial w) Hrun).
    apply (visited_in_scope _ _ _ Hext (frontier_ok_initial w)) with (u := url r)
      in Hrun; [exact Hrun | simpl; set_solver |].
    apply Hvis, elem_of_app. left. apply list_elem_of_fmap. exists r. auto.
  - intros u s s' Hstep.
    destruct (crawl_step_effect u s s' Hstep)
      as (code & html & w' & new & Hreq & _ & _ & Hq & Hv & _ & Hnew & _).
    split.
    + intros x Hx Hfresh. rewrite Hv in Hx.
      apply elem_of_union in Hx as [Hx|Hx]; [|contradiction].
      apply elem_of_list_to_set in Hx.
      apply Hnew in Hx as (_ & _ & Hhtml & Hsame & links & Hlinks & Hin).
      split; [assumption|]. exists links. split; [|assumption].
      unfold_page_links. rewrite Hreq, Hhtml. exact Hlinks.
    + intros Hout. destruct new as [|x new].
      * rewrite app_nil_r in Hq. split; [assumption | rewrite Hv; set_solver].
      * destruct (Hnew x) as (_ & _ & _ & Hsame & _); [left | contradiction].
Qed.

(** ** C6: transport failures *)


(** ** C3: the page budget *)

#[local] Abbreviation reachable :=
  (reachable session_get BeautifulSoup start_url timeout include_external).
#[local] Abbreviation static_web := (static_web session_get timeout).

Lemma static_page_links (u : string) (w1 w2 : World) :
  static_web -> page_links u timeout w1 = page_links u timeout w2.
Proof.
  intros Hstatic. specialize (Hstatic u w1 w2). unfold_page_links.
  destruct (request u timeout w1) as [[c1 h1] w1'].
  destruct (request u timeout w2) as [[c2 h2] w2'].
  simpl in Hstatic. injection Hstatic as -> ->. reflexivity.
Qed.

(** What the loop keeps true on a static web: everything in [visited] can
    be reached from the start URL, and every link that the loop follows
    from a fetched page is in [visited]. *)
Lemma reach_invariant (fuel : nat) (w : World) (st : State) :
  static_web ->
  crawl_loop fuel (initial_state start_url w) = Ok st ->
  frontier_ok st
  /\ start_url ∈ visited st
  /\ (forall u, u ∈ visited st -> reachable u)
  /\ (forall u v, u ∈ fetched st -> follows u v -> v ∈ visited st).
Proof.
  intros Hstatic.
  apply (crawl_loop_invariant
           (fun s : State =>
              frontier_ok s
              /\ start_url ∈ visited s
              /\ (forall u, u ∈ visited s -> reachable u)
              /\ (forall u v, u ∈ fetched s -> follows u v -> v ∈ visited s))).
  - intros u s s' (Hok & Hstart & Hreach & Hclosed) Hhead _ Hstep.
    destruct (crawl_step_order u s s' Hhead Hstep) as (Hf & _).
    destruct (crawl_step_effect u s s' Hstep)
      as (code & html & w' & new & Hreq & _ & _ & _ & Hv & _ & Hnew & Hall).
    split_and!.
    + exact (frontier_ok_step u s s' Hok Hhead Hstep).
    + rewrite Hv. set_solver.
    + intros x. rewrite Hv, elem_of_union, elem_of_list_to_set.
      intros [Hx|Hx]; [|auto].
      apply Hnew in Hx as (_ & Hadm & Hhtml & Hsame & links & Hlinks & Hin).
      apply rtc_r with u; [apply Hreach, (frontier_ok_head u s Hok Hhead)|].
      exists (world s), links. split_and!; try assumption.
      unfold_page_links. rewrite Hreq, Hhtml. exact Hlinks.
    + intros x v. rewrite Hf, elem_of_app, list_elem_of_singleton.
      intros [Hx | ->] Hfollows.
      * rewrite Hv. apply elem_of_union. right. exact (Hclosed x v Hx Hfollows).
      * destruct Hfollows as (w1 & links & Hsame & Hlinks & Hin & Hadm).
        rewrite (static_page_links u w1 (world s) Hstatic) in Hlinks.
        destruct (Hall links Hsame Hlinks v Hin) as [Hdone | [Hext Hout]];
          [exact Hdone|].
        destruct Hadm as [Hadm|Hadm]; congruence.
  - split_and!.
    + apply frontier_ok_initial.
    + simpl. set_solver.
    + simpl. intros u ->%elem_of_singleton. apply rtc_refl.
    + simpl. intros u v Hu. inversion Hu.
Qed.

(** When the queue is empty the results are the reachable URLs. *)
Lemma reach_complete (st : State) :
  frontier_ok st ->
  start_url ∈ visited st ->
  (forall u v, u ∈ fetched st -> follows u v -> v ∈ visited st) ->
  queue st = [] ->
  forall v, reachable v -> v ∈ fetched st.
Proof.
  intros [_ Hvis] Hstart Hclosed Hempty v Hv.
  rewrite Hempty, app_nil_r in Hvis.
  revert v Hv. apply rtc_ind_r.
  - apply Hvis, Hstart.
  - intros y z Hy Hyz IH. apply Hvis, (Hclosed y z IH Hyz).
Qed.


End CrawlerFacts.

(** ** Runs on the example web *)

Lemma crawl_dedup_witness :
  exists st,
    crawl_run Example.get Example.sleep Example.soup "http://example.com/#top"
              10 10 true [] = Ok st
    /\ NoDup (map url (results st)).
Proof.
  eexists. split; [vm_compute; reflexivity|].
  eapply (crawl_dedup Example.get Example.sleep Example.soup
                      Example.seed 10 10 true "http://example.com/#top" []);
    vm_compute; reflexivity.
Defined.

Lemma crawl_bfs_order_witness :
  exists rs,
    crawl Example.get Example.sleep Example.soup "http://example.com/#top"
          10 10 false [] = Ok rs
    /\ map url rs
       = [Example.seed; Example.page_b; Example.page_c; Example.page_d].
Proof.
  eapply (crawl_bfs_order Example.get Example.sleep Example.soup
                          Example.seed 10 10 false "http://example.com/#top"
                          Example.page_b Example.page_c Example.page_d []).
  - reflexivity.
  - vm_compute; reflexivity.
  - apply (bool_decide_unpack _). vm_compute. exact I.
  - vm_compute; reflexivity.
  - vm_compute; reflexivity.
  - vm_compute; reflexivity.
  - vm_compute; reflexivity.
  - intros w'. vm_compute. reflexivity.
  - intros w'. vm_compute. reflexivity.
  - intros w'. vm_compute. reflexivity.
  - intros w'. vm_compute. reflexivity.
Defined.

Lemma crawl_scope_witness :
  exists st,
    crawl_run Example.get Example.sleep Example.soup Example.page_ext
              10 10 false [] = Ok st
    /\ forall r, r ∈ results st ->
                 url r = Example.page_ext
                 \/ same_domain (url r) Example.page_ext = Ok true.
Proof.
  eexists. split; [vm_compute; reflexivity|].
  eapply (crawl_scope Example.get Example.sleep Example.soup
                      Example.page_ext 10 10 false Example.page_ext []);
    vm_compute; reflexivity.
Defined.


(** ** C5: status labels *)

Lemma SPECIFIC_LABELS_other (code : Z) :
  code ∉ [400; 401; 403; 404; 405; 410; 429; 500; 502; 503] ->
  SPECIFIC_LABELS !! code = None.
Proof.
  intros Hnot. unfold SPECIFIC_LABELS. simpl.
  rewrite !lookup_insert_ne by (intros <-; apply Hnot; set_solver).
  apply lookup_empty.
Qed.

Lemma SPECIFIC_LABELS_dom (code : Z) :
  is_Some (SPECIFIC_LABELS !! code) <->
  code ∈ [400; 401; 403; 404; 405; 410; 429; 500; 502; 503].
Proof.
  split.
  - intros Hsome.
    destruct (decide (code ∈ [400; 401; 403; 404; 405; 410; 429; 500; 502; 503]))
      as [Hin|Hnot]; [exact Hin|].
    rewrite (SPECIFIC_LABELS_other code Hnot) in Hsome.
    destruct Hsome; discriminate.
  - intros Hin. repeat (apply elem_of_cons in Hin as [->|Hin]; [vm_compute; eauto|]).
    inversion Hin.
Qed.

Lemma STATUS_LABELS_class (class : Z) :
  (2 <= class <= 5 -> is_Some (STATUS_LABELS !! class))
  /\ (~ 2 <= class <= 5 -> STATUS_LABELS !! class = None).
Proof.
  split.
  - intros Hc.
    assert (class = 2 \/ class = 3 \/ class = 4 \/ class = 5)
      as [-> | [-> | [-> | ->]]] by lia; vm_compute; eauto.
  - intros Hc. unfold STATUS_LABELS. simpl.
    rewrite !lookup_insert_ne by lia. apply lookup_empty.
Qed.

Lemma hundreds_class (code : Z) : 2 <= code / 100 <= 5 <-> 200 <= code < 600.
Proof.
  pose proof (Z.div_mod code 100 ltac:(lia)).
  pose proof (Z.mod_pos_bound code 100 ltac:(lia)).
  lia.
Qed.

(** C5 — Status classification, as the code has it.  A code in
    [SPECIFIC_LABELS] gets its own label.  Any other code from 200 to 599
    gets the label of its class [code // 100] in [STATUS_LABELS]; any
    other code except 0 gets the label for unknown codes; 0 gets the label
    for timeouts and errors.  In particular 404 gets "404 Not Found" and
    201 the label of class 2. *)
Theorem status_classification (code : Z) :
  (forall l, SPECIFIC_LABELS !! code = Some l ->
             status_label code = l /\ result_label code = l)
  /\ (SPECIFIC_LABELS !! code = None -> 200 <= code < 600 ->
      STATUS_LABELS !! (code / 100) = Some (status_label code)
      /\ result_label code = status_label code)
  /\ (SPECIFIC_LABELS !! code = None -> code <> 0 -> ~ 200 <= code < 600 ->
      result_label code = "❓ Unknown")
  /\ (code = 0 -> result_label code = TIMEOUT_LABEL)
  /\ (is_Some (SPECIFIC_LABELS !! code) <->
      code ∈ [400; 401; 403; 404; 405; 410; 429; 500; 502; 503])
  /\ result_label 404 = "❌ 404 Not Found"
  /\ result_label 201 = "✅ OK"
  /\ STATUS_LABELS !! 2 = Some "✅ OK".
Proof.
  split_and!.
  - intros l Hl. unfold result_label, status_label. rewrite Hl.
    destruct (Z.eqb_spec code 0) as [->|_]; [|auto].
    vm_compute in Hl. discriminate.
  - intros Hnone Hrange. unfold result_label, status_label. rewrite Hnone.
    destruct (Z.eqb_spec code 0) as [->|_]; [lia|].
    split; [|reflexivity].
    destruct (proj1 (STATUS_LABELS_class (code / 100))) as [l ->];
      [apply hundreds_class; exact Hrange | reflexivity].
  - intros Hnone Hnz Hrange. unfold result_label, status_label. rewrite Hnone.
    destruct (Z.eqb_spec code 0) as [->|_]; [contradiction|].
    rewrite (proj2 (STATUS_LABELS_class (code / 100))); [reflexivity|].
    rewrite hundreds_class. exact Hrange.
  - intros ->. reflexivity.
  - apply SPECIFIC_LABELS_dom.
  - reflexivity.
  - reflexivity.
  - reflexivity.
Qed.

Lemma status_classification_witness :
  result_label 404 = "❌ 404 Not Found"
  /\ STATUS_LABELS !! (301 / 100) = Some (status_label 301)
  /\ result_label 999 = "❓ Unknown"
  /\ result_label 0 = TIMEOUT_LABEL.
Proof.
  split_and!.
  - apply (proj1 (status_classification 404) "❌ 404 Not Found"). reflexivity.
  - apply (proj1 (proj2 (status_classification 301))); [reflexivity | lia].
  - apply (proj1 (proj2 (proj2 (status_classification 999))));
      [reflexivity | lia | lia].
  - apply (proj1 (proj2 (proj2 (proj2 (status_classification 0))))). reflexivity.
Defined.

(** The claim C5 as it is written fails at 103: the code is not one of the
    specific codes, and its label is the label of no class. *)
Lemma status_label_103_has_no_class :
  SPECIFIC_LABELS !! 103 = None
  /\ result_label 103 = "❓ Unknown"
  /\ forall class : Z, STATUS_LABELS !! class <> Some (result_label 103).
Proof.
  split_and!; [reflexivity | reflexivity |].
  intros class.
  destruct (decide (2 <= class <= 5)) as [Hc|Hc].
  - assert (class = 2 \/ class = 3 \/ class = 4 \/ class = 5)
      as [-> | [-> | [-> | ->]]] by lia; vm_compute; discriminate.
  - rewrite (proj2 (STATUS_LABELS_class class) Hc). discriminate.
Qed.

(** ** C10: the scope test compares the authorities as they are written *)

(** C10 — [same_domain] compares the [netloc] components of the two URLs
    as strings.  A host that differs in the case of a letter, an explicit
    default port and a user name each make a different authority. *)
Theorem same_domain_compares_netloc_text (u b : string) :
  same_domain u b =
    (pu ← UrlParse.urlparse u "";
     pb ← UrlParse.urlparse b "";
     Ok (bool_decide (UrlParse.netloc pu = UrlParse.netloc pb)))
  /\ same_domain "http://Example.com/" "http://example.com/" = Ok false
  /\ same_domain "http://example.com:80/" "http://example.com/" = Ok false
  /\ same_domain "http://user@example.com/" "http://example.com/" = Ok false
  /\ same_domain "https://example.com/a?x#y" "http://example.com/b" = Ok true.
Proof.
  split_and!; try reflexivity.
  unfold same_domain.
  destruct (UrlParse.urlparse u "") as [pu|e]; simpl; [|reflexivity].
  destruct (UrlParse.urlparse b "") as [pb|e]; simpl; [|reflexivity].
  f_equal. destruct (String.eqb_spec (UrlParse.netloc pu) (UrlParse.netloc pb)).
  - rewrite bool_decide_eq_true_2; auto.
  - rewrite bool_decide_eq_false_2; auto.
Qed.

(** ** C7: a link that the URL parser rejects *)

(** C7 — On a page with the link [<a href='http://['>] the call of
    [get_links] raises [ValueError], and so does the crawl that comes to
    this page. *)
Theorem get_links_raises :
  find_all (Example.soup Example.html_bad) "a" "href"
    = [{[ "href" := "http://[" ]}]
  /\ get_links Example.soup Example.html_bad Example.page_bad = Raise ValueError
  /\ crawl Example.get Example.sleep Example.soup Example.page_bad 10 10 false []
     = Raise ValueError
  /\ crawl Example.get Example.sleep Example.soup Example.page_bad 10 10 true []
     = Raise ValueError.
Proof. split_and!; vm_compute; reflexivity. Qed.

(** *** C3 on the example web *)

Lemma example_static_web : static_web Example.get 10.
Proof.
  intros u w1 w2. unfold request, Example.get.
  destruct (Example.serve u); reflexivity.
Qed.



(** ** C9: retries *)

Lemma sleep_sent (policy : Retry) (errors : nat)
      (response : option (option Fetcher.RetryAfter)) (net net' : Fetcher.Net) :
  Fetcher.sleep policy errors response net = Some net' ->
  Fetcher.sent net' = Fetcher.sent net.
Proof.
  unfold Fetcher.sleep, Fetcher.sleep_for_retry, Fetcher.sleep_backoff.
  destruct response as [[value|]|]; cbn [Fetcher.respect_retry_after_header].
  - destruct (Fetcher.parse_retry_after value) as [seconds|]; [|discriminate].
    destruct (seconds =? 0); [destruct (_ <=? 0)|]; intros [= <-]; reflexivity.
  - destruct (_ <=? 0); intros [= <-]; reflexivity.
  - destruct (_ <=? 0); intros [= <-]; reflexivity.
Qed.

Lemma fetch_from_attempts (serve : string -> nat -> GetOutcome)
      (retry_after : string -> nat -> option Fetcher.RetryAfter)
      (transport_retryable : string -> GetOutcome -> bool) (policy : Retry)
      (retries_left : nat) :
  forall (errors : nat) (method url : string) (net : Fetcher.Net),
    (length (Fetcher.sent
               (Fetcher.fetch_from serve retry_after transport_retryable policy
                                   retries_left errors method url net).2)
     <= length (Fetcher.sent net) + retries_left + 1)%nat.
Proof.
  induction retries_left as [|r IH]; intros errors method url net;
    cbn [Fetcher.fetch_from Fetcher.send Fetcher.sent Fetcher.slept].
  - destruct (serve url _) as [resp| | |];
      [destruct (Fetcher.is_retry _ _ _ _ _)
      |destruct (transport_retryable _ _)..];
      cbn [Fetcher.raise_on_status snd Fetcher.sent];
      rewrite length_app; cbn [length]; lia.
  - destruct (serve url _) as [resp| | |];
      [destruct (Fetcher.is_retry _ _ _ _ _)
      |destruct (transport_retryable _ _)..];
      try (cbn [snd Fetcher.sent]; rewrite length_app; cbn [length]; lia).
    all: match goal with
         | |- context [Fetcher.sleep ?p ?e ?resp ?n] =>
             destruct (Fetcher.sleep p e resp n) as [net'|] eqn:Hsleep
         end;
      try (cbn [snd Fetcher.sent]; rewrite length_app; cbn [length]; lia).
    all: etransitivity; [apply IH|];
      apply sleep_sent in Hsleep; rewrite Hsleep;
      cbn [Fetcher.sent]; rewrite length_app; cbn [length]; lia.
Qed.

Lemma crawl_loop_empty_queue {World : Type}
      (session_get : string -> Z -> World -> GetOutcome * World)
      (time_sleep : World -> World) (BeautifulSoup : string -> list PageElement)
      (fuel : nat) (start_url : string) (max_pages timeout : Z)
      (include_external : bool) (st : State) :
  queue st = [] ->
  crawl_loop session_get time_sleep BeautifulSoup fuel start_url max_pages
             timeout include_external st = Ok st.
Proof. intros Hq. destruct fuel; simpl; rewrite Hq; reflexivity. Qed.

(** One turn of the loop of the fetcher for a response. *)
Lemma fetch_from_response (serve : string -> nat -> GetOutcome)
      (retry_after : string -> nat -> option Fetcher.RetryAfter)
      (transport_retryable : string -> GetOutcome -> bool) (policy : Retry)
      (retries_left errors : nat) (method url : string) (net : Fetcher.Net)
      (resp : Response) :
  serve url (length (List.filter (String.eqb url) (Fetcher.sent net)))
  = Returned resp ->
  Fetcher.fetch_from serve retry_after transport_retryable policy retries_left
                     errors method url net
  = (let header :=
       retry_after url
                   (length (List.filter (String.eqb url) (Fetcher.sent net))) in
     let net' := Fetcher.mkNet (Fetcher.sent net ++ [url]) (Fetcher.slept net) in
     if Fetcher.is_retry policy retries_left method (status_code resp)
                         (Fetcher.has_retry_after header)
     then
       match retries_left with
       | S retries_left' =>
           match Fetcher.sleep policy (S errors) (Some header) net' with
           | Some net'' =>
               Fetcher.fetch_from serve retry_after transport_retryable policy
                                  retries_left' (S errors) method url net''
           | None => (RaisedRequestException, net')
           end
       | O => (RaisedRequestException, net')
       end
     else (Returned resp, net')).
Proof.
  intros Hserve.
  destruct retries_left; cbn [Fetcher.fetch_from Fetcher.send];
    rewrite Hserve; reflexivity.
Qed.

Lemma is_retry_spec (retries_left : nat) (method : string) (status : Z)
      (has_header : bool) :
  Fetcher.is_retry retry retries_left method status has_header = true
  <-> (exists m, Fetcher.upper method = Some m /\ m ∈ ["GET"; "HEAD"])
      /\ (status ∈ [429; 500; 502; 503; 504]
          \/ (retries_left <> 0%nat /\ has_header = true
              /\ status ∈ [413; 429; 503])).
Proof.
  unfold Fetcher.is_retry, Fetcher.is_method_retryable.
  change (allowed_methods retry) with ["GET"; "HEAD"].
  change (status_forcelist retry) with [429; 500; 502; 503; 504].
  change Fetcher.RETRY_AFTER_STATUS_CODES with [413; 429; 503].
  change Fetcher.respect_retry_after_header with true.
  destruct (Fetcher.upper method) as [m|]; cbn [negb].
  - destruct (bool_decide_reflect (m ∈ ["GET"; "HEAD"])) as [Hm|Hm]; cbn [negb].
    + destruct (bool_decide_reflect (status ∈ [429; 500; 502; 503; 504]))
        as [Hs|Hs].
      * split; [intros _|reflexivity]. split; [eauto|left; exact Hs].
      * rewrite !andb_true_iff, negb_true_iff, Nat.eqb_neq, bool_decide_eq_true.
        split.
        -- intros [[[Hl _] Hh] Hc]. split; [eauto|]. right. auto.
        -- intros [_ [Hc|(Hl & Hh & Hc)]]; [contradiction|auto].
    + split; [discriminate|]. intros [(m' & [= <-] & Hm') _]. contradiction.
  - split; [discriminate|]. intros [(m' & Hm' & _) _]. discriminate.
Qed.

Lemma backoff_values (k : nat) :
  (2 <= k <= 7)%nat ->
  Fetcher.get_backoff_time retry k = backoff_factor retry * 2 ^ (Z.of_nat k - 1)
  /\ 0 < Fetcher.get_backoff_time retry k.
Proof.
  intros Hk.
  assert (k = 2 \/ k = 3 \/ k = 4 \/ k = 5 \/ k = 6 \/ k = 7)%nat
    as [-> | [-> | [-> | [-> | [-> | ->]]]]] by lia; split; reflexivity.
Qed.




(** * Further properties *)

Lemma Ok_eq {A : Type} (a b : A) : Ok a = Ok b -> a = b.
Proof. congruence. Qed.

(** ** What [normalise] returns *)

Module UrlMore.

Import Py PyFacts UrlParse UrlStages UrlFacts.

Lemma contains_free_of (c : ascii) (s : string) :
  contains c s = false -> free_of (fun x => Ascii.eqb x c) s = true.
Proof.
  unfold free_of. induction s as [|x s IH]; simpl; [reflexivity|].
  destruct (Ascii.eqb x c); [discriminate|]. exact IH.
Qed.

Lemma free_of_weaken (p q : ascii -> bool) (s : string) :
  (forall c, q c = true -> p c = true) ->
  free_of p s = true -> free_of q s = true.
Proof.
  intros Hqp. apply all_chars_weaken. intros c Hc.
  destruct (q c) eqn:Hq; [|reflexivity]. rewrite (Hqp c Hq) in Hc. discriminate.
Qed.

(** [urlunsplit] writes its components and the characters [:], [/] and
    [?], nothing else. *)
Lemma urlunsplit_free_of (bad : ascii -> bool) (s n fp q : string) :
  bad ":"%char = false -> bad "/"%char = false -> bad "?"%char = false ->
  free_of bad s = true -> free_of bad n = true ->
  free_of bad fp = true -> free_of bad q = true ->
  free_of bad (urlunsplit (mkSplitResult s n fp q "")) = true.
Proof.
  intros Hc Hsl Hq Hs Hn Hfp Hqq. unfold urlunsplit.
  change (truthy "") with false. cbv iota.
  repeat match goal with
         | |- context [if ?b then _ else _] => destruct b
         end;
    cbn [truthy is_empty negb];
    rewrite ?free_of_app; unfold free_of in *; simpl;
    rewrite ?all_chars_app; simpl;
    rewrite ?Hc, ?Hsl, ?Hq, ?Hs, ?Hn, ?Hfp, ?Hqq; reflexivity.
Qed.

Lemma valid_scheme_free_of (bad : ascii -> bool) (s : string) :
  (forall c, is_scheme_char c = true -> bad c = false) ->
  s = "" \/ valid_scheme s = true -> free_of bad s = true.
Proof.
  intros Hbad [-> | Hv]; [reflexivity|].
  unfold valid_scheme, scheme_like in Hv.
  apply andb_true_iff in Hv as [Hv _]. apply andb_true_iff in Hv as [_ Hv].
  unfold free_of. apply (all_chars_weaken is_scheme_char); [|exact Hv].
  intros c Hc. rewrite (Hbad c Hc). reflexivity.
Qed.

(** The characters of what [geturl] writes for a value of [urlparse]
    without fragment. *)
Lemma geturl_free_of (bad : ascii -> bool) (p : ParseResult) :
  wf_parse p -> fragment p = "" ->
  bad ":"%char = false -> bad "/"%char = false -> bad "?"%char = false ->
  (forall c, is_scheme_char c = true -> bad c = false) ->
  free_of bad (netloc p) = true -> free_of bad (full_path p) = true ->
  free_of bad (query p) = true ->
  free_of bad (geturl p) = true.
Proof.
  intros Hwf Hf Hc Hsl Hq Hsch Hn Hfp Hqq.
  rewrite geturl_full_path, Hf.
  apply urlunsplit_free_of; try assumption.
  apply valid_scheme_free_of; [exact Hsch | apply (wf_scheme p Hwf)].
Qed.

Lemma full_path_replace_fragment (p : ParseResult) (f : string) :
  full_path (replace_fragment p f) = full_path p.
Proof. reflexivity. Qed.

Lemma normalise_no_fragment (u v : string) :
  normalise u = Ok v -> contains "#" v = false.
Proof.
  intros Hv. destruct (urlparse u "") as [p|e] eqn:Hp;
    [|unfold normalise in Hv; rewrite Hp in Hv; discriminate].
  rewrite (normalise_geturl u p Hp) in Hv.
  assert (v = geturl (replace_fragment p "")) as -> by congruence. clear Hv.
  pose proof (urlparse_wf u p Hp) as Hwf.
  apply (free_of_contains (fun x => Ascii.eqb x "#")); [|reflexivity].
  apply geturl_free_of; try reflexivity.
  - apply wf_replace_fragment, Hwf.
  - intros c Hc. destruct (scheme_char_plain c Hc) as (Hd & _).
    destruct (Ascii.eqb_spec c "#") as [->|]; [discriminate | reflexivity].
  - apply (free_of_weaken is_delimiter); [|apply (wf_netloc p Hwf)].
    intros c Hc. apply Ascii.eqb_eq in Hc as ->. reflexivity.
  - apply contains_free_of, (wf_path p Hwf).
  - apply contains_free_of, (wf_query p Hwf).
Qed.

Lemma normalise_safe (u v : string) :
  normalise u = Ok v -> free_of is_unsafe v = true.
Proof.
  intros Hv. destruct (urlparse u "") as [p|e] eqn:Hp;
    [|unfold normalise in Hv; rewrite Hp in Hv; discriminate].
  rewrite (normalise_geturl u p Hp) in Hv.
  assert (v = geturl (replace_fragment p "")) as -> by congruence. clear Hv.
  pose proof (urlparse_wf u p Hp) as Hwf.
  destruct (wf_safe p Hwf) as (Hn & Hfp & Hq).
  apply geturl_free_of; try reflexivity; try assumption.
  - apply wf_replace_fragment, Hwf.
  - intros c Hc. apply (scheme_char_plain c Hc).
Qed.

Lemma normalise_clean (u v : string) :
  normalise u = Ok v ->
  contains "#" v = false /\ contains "009" v = false
  /\ contains "013" v = false /\ contains "010" v = false.
Proof.
  intros Hv. pose proof (normalise_safe u v Hv) as Hsafe.
  split_and!;
    [exact (normalise_no_fragment u v Hv)
    | apply (free_of_contains _ _ _ Hsafe); reflexivity ..].
Qed.

End UrlMore.

(** [normalise] returns a URL without fragment, on one line: its value
    contains no [#] and no tab, carriage return or line feed. *)
Theorem normalise_output (u v : string) :
  normalise u = Ok v ->
  Py.contains "#" v = false
  /\ Py.contains "009" v = false
  /\ Py.contains "013" v = false
  /\ Py.contains "010" v = false.
Proof.
  intros Hv. pose proof (UrlMore.normalise_safe u v Hv) as Hsafe.
  split_and!;
    [exact (UrlMore.normalise_no_fragment u v Hv)
    | apply (UrlFacts.free_of_contains _ _ _ Hsafe); reflexivity ..].
Qed.

Lemma normalise_output_witness :
  Py.contains "#" "http://example.com/a b?q=1" = false
  /\ Py.contains "009" "http://example.com/a b?q=1" = false
  /\ Py.contains "013" "http://example.com/a b?q=1" = false
  /\ Py.contains "010" "http://example.com/a b?q=1" = false.
Proof.
  apply (normalise_output
           (" HTTP://example.com/a b" +:+ String "010" "?q=1#top")).
  vm_compute. reflexivity.
Defined.

(** ** [same_domain] *)

Module DomainFacts.

Import Py PyFacts UrlParse UrlStages UrlFacts UrlMore.

(** What [geturl] writes for a value of [urlparse] is read again with
    the same scheme, netloc and query. *)
Lemma urlparse_geturl_parts (p : ParseResult) :
  wf_parse p -> fragment p = "" ->
  truthy (netloc p) = true \/ startswith (path p) "//" = false ->
  exists p', urlparse (geturl p) "" = Ok p'
             /\ scheme p' = scheme p /\ netloc p' = netloc p
             /\ query p' = query p /\ fragment p' = "".
Proof.
  intros [Hs Hn Hck [Hpq Hph] Hps Hqh Hroot Hnos (Hsn & Hsf & Hsq) Hfirst]
         Hfrag Hcond.
  rewrite <- full_path_slashes in Hcond.
  assert (split_params (scheme p) (full_path p) = (path p, params p)) as HP
      by (apply split_params_intro, Hps).
  rewrite (geturl_full_path p), Hfrag.
  destruct (truthy (netloc p)) eqn:Hnt.
  - eexists. split;
      [apply (written_netloc (scheme p) (netloc p) (full_path p) (query p)
                (path p) (params p)); auto
      | simpl; auto].
  - apply truthy_false in Hnt. rewrite Hnt in *.
    destruct Hcond as [Hcond | Hcond]; [discriminate|].
    destruct (truthy (scheme p) && member (scheme p) uses_netloc) eqn:Hu.
    + destruct (empty_or_starts "/" (full_path p)) eqn:Hr.
      * eexists. split;
          [apply (written_slashes (scheme p) (full_path p) (query p)
                    (path p) (params p)); auto
          | simpl; auto].
      * exists (mkParseResult (scheme p) "" ("/" +:+ path p) (params p)
                              (query p) "").
        split; [|simpl; rewrite ?Hnt; split_and!; reflexivity].
        apply (written_relative (scheme p) (full_path p) (query p)
                 (path p) (params p)); auto.
        assert (full_path (mkParseResult (scheme p) "" ("/" +:+ path p)
                                         (params p) (query p) "")
                = "/" +:+ full_path p) as Hfull
            by (unfold full_path; simpl; destruct (truthy (params p));
                reflexivity).
        rewrite <- Hfull. apply split_params_intro.
        cbn [scheme path params].
        destruct Hps as [Hps | (Hm & Hseg & Hsl)]; [left; exact Hps|].
        right. split_and!; try assumption.
        change ("/" +:+ path p) with (String "/" (path p)).
        rewrite after_last_cons_same. exact Hseg.
    + eexists. split;
        [apply (written_path (scheme p) (full_path p) (query p)
                  (path p) (params p)); auto
        | simpl; auto].
Qed.

Lemma normalise_netloc (u v : string) (p : ParseResult) :
  urlparse u "" = Ok p ->
  truthy (netloc p) = true \/ startswith (path p) "//" = false ->
  normalise u = Ok v ->
  exists p', urlparse v "" = Ok p' /\ netloc p' = netloc p
             /\ scheme p' = scheme p.
Proof.
  intros Hp Hcond Hv. rewrite (normalise_geturl u p Hp) in Hv.
  assert (v = geturl (replace_fragment p "")) as -> by congruence. clear Hv.
  destruct (urlparse_geturl_parts (replace_fragment p ""))
    as (p' & Hp' & Hsch & Hnet & _);
    [apply wf_replace_fragment, (urlparse_wf u p Hp) | reflexivity
    | exact Hcond |].
  exists p'. auto.
Qed.

End DomainFacts.

(** [same_domain] is an equivalence on the URLs that [urlparse] accepts:
    every such URL is in its own domain, the order of the arguments does
    not matter, and two URLs in the domain of a third are in the same
    domain. *)
Theorem same_domain_equivalence :
  (forall (u : string) (p : UrlParse.ParseResult),
      UrlParse.urlparse u "" = Ok p -> same_domain u u = Ok true)
  /\ (forall u b : string, same_domain u b = same_domain b u)
  /\ (forall a b c : string,
         same_domain a b = Ok true -> same_domain b c = Ok true ->
         same_domain a c = Ok true).
Proof.
  split_and!.
  - intros u p Hp. unfold same_domain. rewrite Hp. cbn [mbind result_bind].
    rewrite String.eqb_refl. reflexivity.
  - intros u b. unfold same_domain.
    destruct (UrlParse.urlparse u "") as [pu|[]],
             (UrlParse.urlparse b "") as [pb|[]];
      cbn [mbind result_bind]; try reflexivity.
    rewrite String.eqb_sym. reflexivity.
  - intros a b c. unfold same_domain.
    destruct (UrlParse.urlparse a "") as [pa|], (UrlParse.urlparse b "") as [pb|],
             (UrlParse.urlparse c "") as [pc|];
      cbn [mbind result_bind]; try discriminate.
    intros [= Hab] [= Hbc]. apply String.eqb_eq in Hab, Hbc.
    rewrite Hab, Hbc, String.eqb_refl. reflexivity.
Qed.

Lemma same_domain_equivalence_witness :
  same_domain "http://example.com/a" "http://example.com/a" = Ok true
  /\ same_domain "http://example.com/a" "https://example.com/c?q" = Ok true.
Proof.
  split.
  - apply (proj1 same_domain_equivalence "http://example.com/a"
             (UrlParse.mkParseResult "http" "example.com" "/a" "" "" "")).
    vm_compute. reflexivity.
  - apply (proj2 (proj2 same_domain_equivalence)
             "http://example.com/a" "ftp://example.com/b"
             "https://example.com/c?q");
      vm_compute; reflexivity.
Defined.

(** [normalise] does not change the domain of a URL that has a netloc,
    or whose path does not start with two slashes: the URL and its normal
    form are in the same domain as exactly the same URLs. *)
Theorem normalise_keeps_domain (u v b : string) (p : UrlParse.ParseResult) :
  UrlParse.urlparse u "" = Ok p ->
  Py.truthy (UrlParse.netloc p) = true
  \/ Py.startswith (UrlParse.path p) "//" = false ->
  normalise u = Ok v ->
  same_domain v b = same_domain u b.
Proof.
  intros Hp Hcond Hv.
  destruct (DomainFacts.normalise_netloc u v p Hp Hcond Hv)
    as (p' & Hp' & Hnet & _).
  unfold same_domain. rewrite Hp, Hp'. cbn [mbind result_bind].
  rewrite Hnet. reflexivity.
Qed.

Lemma normalise_keeps_domain_witness :
  same_domain "http://Example.com/a?x" "http://example.com/"
  = same_domain "HTTP://Example.com/a?x#frag" "http://example.com/".
Proof.
  apply (normalise_keeps_domain "HTTP://Example.com/a?x#frag"
           "http://Example.com/a?x" "http://example.com/"
           (UrlParse.mkParseResult "http" "Example.com" "/a" "" "x" "frag")).
  - vm_compute. reflexivity.
  - left. reflexivity.
  - vm_compute. reflexivity.
Defined.

(** ** [urlparse] with a default scheme *)

Module UrlDefault.

Import Py PyFacts UrlParse UrlStages UrlFacts UrlMore.

Lemma lstrip_free (p : ascii -> bool) (s : string) :
  free_of p s = true -> lstrip p s = s.
Proof.
  unfold free_of. destruct s as [|c s]; simpl; [reflexivity|].
  intros [Hc _]%andb_true_iff. apply negb_true_iff in Hc. rewrite Hc.
  reflexivity.
Qed.

Lemma rstrip_free (p : ascii -> bool) (s : string) :
  free_of p s = true -> rstrip p s = s.
Proof.
  unfold free_of. induction s as [|c s IH]; simpl; [reflexivity|].
  intros [Hc Hs]%andb_true_iff. apply negb_true_iff in Hc.
  rewrite (IH Hs), Hc, andb_false_r. reflexivity.
Qed.

Lemma free_of_lstrip (bad p : ascii -> bool) (s : string) :
  free_of bad s = true -> free_of bad (lstrip p s) = true.
Proof.
  unfold free_of. induction s as [|c s IH]; simpl; [reflexivity|].
  intros [Hc Hs]%andb_true_iff. destruct (p c); [exact (IH Hs)|].
  simpl. rewrite Hc, Hs. reflexivity.
Qed.

Lemma free_of_rstrip (bad p : ascii -> bool) (s : string) :
  free_of bad s = true -> free_of bad (rstrip p s) = true.
Proof.
  unfold free_of. induction s as [|c s IH]; simpl; [reflexivity|].
  intros [Hc Hs]%andb_true_iff.
  destruct (is_empty (rstrip p s) && p c); [reflexivity|].
  simpl. rewrite Hc, (IH Hs). reflexivity.
Qed.

Lemma free_of_remove (bad : ascii -> bool) (c : ascii) (s : string) :
  free_of bad s = true -> free_of bad (remove c s) = true.
Proof.
  unfold free_of. induction s as [|x s IH]; simpl; [reflexivity|].
  intros [Hx Hs]%andb_true_iff. destruct (Ascii.eqb x c); [exact (IH Hs)|].
  simpl. rewrite Hx, (IH Hs). reflexivity.
Qed.

Lemma free_of_clean (bad : ascii -> bool) (url : string) :
  free_of bad url = true -> free_of bad (clean url) = true.
Proof.
  intros H. unfold clean, remove_unsafe.
  do 3 apply free_of_remove. apply free_of_lstrip, H.
Qed.

(** A scheme that [urlparse] has returned is a clean default. *)
Lemma clean_scheme_valid (s : string) :
  s = "" \/ valid_scheme s = true -> clean_scheme s = s.
Proof.
  intros [-> | Hv]; [reflexivity|]. unfold clean_scheme.
  assert (free_of is_c0_control_or_space s = true) as Hc0.
  { apply valid_scheme_free_of; [|right; exact Hv].
    intros c Hc. apply (scheme_char_plain c Hc). }
  rewrite (lstrip_free _ s Hc0), (rstrip_free _ s Hc0).
  apply remove_unsafe_safe, (valid_scheme_parts s Hv).
Qed.

Lemma urlparse_stages_default (url s : string) :
  urlparse url s
  = (let '(s', u2) := split_scheme (clean_scheme s) (clean url) in
     '(n, u3) ← split_netloc u2;
     let '(u4, f) := split_at "#" u3 in
     let '(p0, q) := split_at "?" u4 in
     let '(p, ps) := split_params s' p0 in
     Ok (mkParseResult s' n p ps q f)).
Proof.
  unfold urlparse, urlsplit, split_scheme, has_scheme, clean, split_netloc,
    check_netloc, split_at, split_params, _checknetloc, clean_scheme.
  generalize (remove_unsafe (rstrip is_c0_control_or_space
                                    (lstrip is_c0_control_or_space s))).
  intros s0.
  generalize (remove_unsafe (lstrip is_c0_control_or_space url)). intros u1.
  match goal with
  | |- context [if ?c then (lower _, _) else _] => destruct c
  end.
  all: match goal with
       | |- context [startswith ?u "//"] =>
           destruct (startswith u "//");
           [destruct (_splitnetloc u 2) as [n u3] | ]
       end; cbn -[member].
  all: try (destruct (contains "[" n), (contains "]" n); cbn -[member];
            try reflexivity;
            destruct (_check_bracketed_netloc n) as [[]|]; cbn -[member];
            try reflexivity).
  all: repeat match goal with
              | |- context [if contains ?c ?u then split1 ?c ?u else _] =>
                  destruct (if contains c u then split1 c u else (u, ""))
              end; cbn -[member]; reflexivity.
Qed.

(** The stages of a parse that has returned. *)
Lemma urlparse_default_elim (url s : string) (p : ParseResult) :
  urlparse url s = Ok p ->
  exists u2 u3 u4 p0,
    split_scheme (clean_scheme s) (clean url) = (scheme p, u2)
    /\ split_netloc u2 = Ok (netloc p, u3)
    /\ split_at "#" u3 = (u4, fragment p)
    /\ split_at "?" u4 = (p0, query p)
    /\ split_params (scheme p) p0 = (path p, params p).
Proof.
  rewrite urlparse_stages_default.
  destruct (split_scheme (clean_scheme s) (clean url)) as [s' u2] eqn:H1.
  destruct (split_netloc u2) as [[n u3]|e] eqn:H2; simpl; [|discriminate].
  destruct (split_at "#" u3) as [u4 f] eqn:H4.
  destruct (split_at "?" u4) as [p0 q] eqn:H5.
  destruct (split_params s' p0) as [pa ps] eqn:H6.
  intros [= <-]. exists u2, u3, u4, p0. simpl. auto.
Qed.

(** The components of a parse consist of characters of the cleaned URL;
    the scheme may be the default. *)
Lemma urlparse_free_of_clean (bad : ascii -> bool) (url s : string) (p : ParseResult) :
  (forall c, is_scheme_char c = true -> bad c = false) ->
  free_of bad (clean url) = true -> free_of bad (clean_scheme s) = true ->
  urlparse url s = Ok p ->
  free_of bad (scheme p) = true /\ free_of bad (netloc p) = true
  /\ free_of bad (path p) = true /\ free_of bad (params p) = true
  /\ free_of bad (query p) = true /\ free_of bad (fragment p) = true.
Proof.
  intros Hsch Hurl Hs (u2 & u3 & u4 & p0 & HS & HN & HF & HQ & HP)%urlparse_default_elim.
  assert (free_of bad (scheme p) = true /\ free_of bad u2 = true) as [Hsp Hu2].
  { apply split_scheme_elim in HS as [(_ & -> & ->) | (x & Hx & -> & Heq)];
      [auto|].
    rewrite Heq in Hurl. apply free_of_parts in Hurl as [_ Hr].
    apply free_of_cons in Hr. split; [|exact Hr].
    apply valid_scheme_free_of; [exact Hsch | right; apply lower_scheme_like, Hx]. }
  assert (free_of bad (netloc p) = true /\ free_of bad u3 = true) as [Hn Hu3].
  { apply split_netloc_elim in HN as [(_ & -> & ->) | (-> & _)]; [auto|].
    apply free_of_parts in Hu2 as [_ Hu2].
    apply free_of_parts in Hu2. exact Hu2. }
  assert (free_of bad u4 = true /\ free_of bad (fragment p) = true) as [Hu4 Hf].
  { apply split_at_elim in HF as [_ [[-> ->] | ->]]; [auto|].
    apply free_of_parts in Hu3 as [Ha Hb]. apply free_of_cons in Hb. auto. }
  assert (free_of bad p0 = true /\ free_of bad (query p) = true) as [Hp0 Hq].
  { apply split_at_elim in HQ as [_ [[-> ->] | ->]]; [auto|].
    apply free_of_parts in Hu4 as [Ha Hb]. apply free_of_cons in Hb. auto. }
  apply split_params_elim in HP as [_ (t & -> & _)].
  apply free_of_parts in Hp0 as [Hp0 _].
  destruct (truthy (params p)) eqn:Hps.
  - apply free_of_parts in Hp0 as [Hpa Hb].
    change (";" +:+ params p) with (String ";" (params p)) in Hb.
    apply free_of_cons in Hb. repeat split; assumption.
  - apply truthy_false in Hps. rewrite Hps.
    repeat split; (assumption || reflexivity).
Qed.

Lemma urlparse_free_of (bad : ascii -> bool) (url s : string) (p : ParseResult) :
  (forall c, is_scheme_char c = true -> bad c = false) ->
  free_of bad url = true -> free_of bad (clean_scheme s) = true ->
  urlparse url s = Ok p ->
  free_of bad (scheme p) = true /\ free_of bad (netloc p) = true
  /\ free_of bad (path p) = true /\ free_of bad (params p) = true
  /\ free_of bad (query p) = true /\ free_of bad (fragment p) = true.
Proof.
  intros Hsch Hurl. apply urlparse_free_of_clean; [exact Hsch|].
  apply free_of_clean, Hurl.
Qed.

(** No component of a parse contains a tab or a line break. *)
Lemma urlparse_safe (url s : string) (p : ParseResult) :
  urlparse url s = Ok p ->
  free_of is_unsafe (scheme p) = true /\ free_of is_unsafe (netloc p) = true
  /\ free_of is_unsafe (path p) = true /\ free_of is_unsafe (params p) = true
  /\ free_of is_unsafe (query p) = true /\ free_of is_unsafe (fragment p) = true.
Proof.
  apply urlparse_free_of_clean.
  - intros c Hc. apply (scheme_char_plain c Hc).
  - apply clean_is_clean.
  - apply remove_unsafe_is_safe.
Qed.

Lemma bracket_free_contains (s : string) :
  bracket_free s = true -> contains "[" s = false /\ contains "]" s = false.
Proof.
  intros H. split; apply (free_of_contains _ _ _ H); reflexivity.
Qed.

Lemma check_netloc_bracket_free (n : string) :
  bracket_free n = true -> check_netloc n = Ok tt.
Proof.
  intros [H1 H2]%bracket_free_contains. unfold check_netloc.
  rewrite H1, H2. reflexivity.
Qed.

(** [urlparse] returns for every URL without square brackets. *)
Lemma urlparse_returns (url s : string) :
  bracket_free url = true -> exists p, urlparse url s = Ok p.
Proof.
  intros Hurl. apply (free_of_clean is_bracket) in Hurl.
  rewrite urlparse_stages_default.
  destruct (split_scheme (clean_scheme s) (clean url)) as [s' u2] eqn:HS.
  assert (free_of is_bracket u2 = true) as Hu2.
  { apply split_scheme_elim in HS as [(_ & _ & ->) | (x & _ & _ & Heq)];
      [exact Hurl|].
    rewrite Heq in Hurl. apply free_of_parts in Hurl as [_ Hr].
    apply free_of_cons in Hr. exact Hr. }
  assert (exists n u3, split_netloc u2 = Ok (n, u3)) as (n & u3 & ->).
  { destruct (startswith u2 "//") eqn:Hs.
    - destruct (startswith_split _ _ Hs) as (rest & ->).
      destruct (span_delimiter rest) as (n0 & r0 & -> & Hn & Hr).
      rewrite (split_netloc_intro n0 r0 Hn Hr).
      apply free_of_parts in Hu2 as [_ Hu2].
      apply free_of_parts in Hu2 as [Hn0 _].
      rewrite (check_netloc_bracket_free n0 Hn0). simpl. eauto.
    - rewrite (split_netloc_plain u2 Hs). eauto. }
  simpl. destruct (split_at "#" u3) as [u4 f].
  destruct (split_at "?" u4) as [p0 q].
  destruct (split_params s' p0) as [pa ps]. eauto.
Qed.

End UrlDefault.

(** ** [urljoin] *)

Module JoinFacts.

Import Py PyFacts UrlParse UrlStages UrlFacts UrlMore UrlDefault.

Lemma urlunparse_free_of (bad : ascii -> bool) (p : ParseResult) :
  keeps_punctuation bad ->
  free_of bad (scheme p) = true -> free_of bad (netloc p) = true ->
  free_of bad (path p) = true -> free_of bad (params p) = true ->
  free_of bad (query p) = true -> free_of bad (fragment p) = true ->
  free_of bad (urlunparse p) = true.
Proof.
  intros (Hc & Hsl & Hq & Hh & Hsc) Hs Hn Hpa Hps Hqq Hf.
  destruct p as [s n pa ps q f]. simpl in Hs, Hn, Hpa, Hps, Hqq, Hf.
  unfold urlunparse, urlunsplit.
  repeat match goal with
         | |- context [if ?b then _ else _] => destruct b
         end;
    unfold free_of in *; simpl;
    rewrite ?all_chars_app; simpl; rewrite ?all_chars_app; simpl;
    rewrite ?all_chars_app; simpl;
    rewrite ?Hc, ?Hsl, ?Hq, ?Hh, ?Hsc, ?Hs, ?Hn, ?Hpa, ?Hps, ?Hqq, ?Hf;
    reflexivity.
Qed.

(** *** Segments of a path *)

#[local] Abbreviation all_free bad l :=
  (Forall (fun w : string => free_of bad w = true) l).

Lemma split_free_of (bad : ascii -> bool) (c : ascii) (s : string) :
  free_of bad s = true -> all_free bad (split c s).
Proof.
  unfold free_of. induction s as [|x s IH]; simpl.
  - intros _. constructor; [reflexivity | constructor].
  - intros [Hx Hs]%andb_true_iff. specialize (IH Hs).
    destruct (Ascii.eqb x c).
    + constructor; [reflexivity | exact IH].
    + destruct (split c s) as [|w ws]; constructor; simpl;
        try (inversion IH; subst); try constructor; auto.
      * rewrite Hx. reflexivity.
      * rewrite Hx. simpl. assumption.
Qed.

Lemma join_free_of (bad : ascii -> bool) (l : list string) :
  bad "/"%char = false -> all_free bad l -> free_of bad (join "/" l) = true.
Proof.
  intros Hsl. induction 1 as [|w ws Hw Hws IH]; simpl; [reflexivity|].
  destruct ws as [|w' ws']; [exact Hw|].
  rewrite free_of_app, Hw. simpl. unfold free_of in *. simpl.
  rewrite Hsl. exact IH.
Qed.

Lemma removelast_free (bad : ascii -> bool) (l : list string) :
  all_free bad l -> all_free bad (removelast l).
Proof.
  induction 1 as [|w ws Hw Hws IH]; simpl; [constructor|].
  destruct ws; [constructor|]. constructor; assumption.
Qed.

Lemma last_free (bad : ascii -> bool) (l : list string) :
  all_free bad l -> free_of bad (List.last l "") = true.
Proof.
  induction 1 as [|w ws Hw Hws IH]; simpl; [reflexivity|].
  destruct ws; assumption.
Qed.

Lemma filter_inner_free (bad : ascii -> bool) (l : list string) :
  all_free bad l -> all_free bad (filter_inner l).
Proof.
  intros H. unfold filter_inner. destruct l as [|first rest]; [exact H|].
  destruct rest as [|x rest]; [exact H|].
  inversion H as [|? ? Hfirst Hrest]; subst.
  constructor; [exact Hfirst|]. apply Forall_app. split.
  - apply Forall_forall. intros w [_ Hw]%list_elem_of_filter. revert w Hw.
    apply Forall_forall, removelast_free, Hrest.
  - constructor; [apply last_free, Hrest | constructor].
Qed.

Lemma resolve_segments_free (bad : ascii -> bool) (l : list string) :
  all_free bad l -> all_free bad (resolve_segments l).
Proof.
  unfold resolve_segments. intros Hl.
  enough (forall acc,
             all_free bad acc ->
             all_free bad
               (fold_left
                  (fun resolved_path seg =>
                     if String.eqb seg ".." then removelast resolved_path
                     else if String.eqb seg "." then resolved_path
                          else resolved_path ++ [seg])
                  l acc)) as H by (apply H; constructor).
  induction l as [|seg l IH]; intros acc Hacc; simpl; [exact Hacc|].
  inversion Hl as [|? ? Hseg Hrest]; subst.
  apply (IH Hrest).
  destruct (String.eqb seg ".."); [apply removelast_free, Hacc|].
  destruct (String.eqb seg "."); [exact Hacc|].
  apply Forall_app. split; [exact Hacc | constructor; [exact Hseg | constructor]].
Qed.

Lemma free_of_clean_scheme (bad : ascii -> bool) (s : string) :
  free_of bad s = true -> free_of bad (clean_scheme s) = true.
Proof.
  intros H. unfold clean_scheme, remove_unsafe.
  do 3 apply free_of_remove. apply free_of_rstrip, free_of_lstrip, H.
Qed.

(** What [urljoin] returns consists of characters of its arguments and
    of [:/?#;]. *)
Lemma urljoin_free_of (bad : ascii -> bool) (base url joined : string) :
  keeps_punctuation bad ->
  (forall c, is_scheme_char c = true -> bad c = false) ->
  free_of bad base = true -> free_of bad url = true ->
  urljoin base url = Ok joined ->
  free_of bad joined = true.
Proof.
  intros Hk Hsch Hbase Hurl. unfold urljoin.
  destruct (is_empty base); [intros <-%Ok_eq; exact Hurl|].
  destruct (is_empty url); [intros <-%Ok_eq; exact Hbase|].
  destruct (urlparse base "") as [b|e] eqn:Hb; cbn [mbind result_bind];
    [|discriminate].
  destruct (urlparse url (scheme b)) as [u|e] eqn:Hu; cbn [mbind result_bind];
    [|discriminate].
  destruct (urlparse_free_of bad base "" b Hsch Hbase eq_refl Hb)
    as (Hbs & Hbn & Hbp & Hbps & Hbq & Hbf).
  destruct (urlparse_free_of bad url (scheme b) u Hsch Hurl
              (free_of_clean_scheme bad _ Hbs) Hu)
    as (Hus & Hun & Hup & Hups & Huq & Huf).
  destruct (negb (String.eqb (scheme u) (scheme b))
            || negb (member (scheme u) uses_relative));
    [intros <-%Ok_eq; exact Hurl|].
  destruct (member (scheme u) uses_netloc && truthy (netloc u));
    [intros <-%Ok_eq; apply urlunparse_free_of; assumption|].
  assert (free_of bad (if member (scheme u) uses_netloc
                       then netloc b else netloc u) = true) as Hnet
      by (destruct (member (scheme u) uses_netloc); assumption).
  destruct (is_empty (path u) && is_empty (params u)).
  - intros <-%Ok_eq. apply urlunparse_free_of;
      cbn [scheme netloc path params query fragment]; try assumption.
    destruct (is_empty (query u)); assumption.
  - intros <-%Ok_eq. apply urlunparse_free_of;
      cbn [scheme netloc path params query fragment]; try assumption.
    match goal with
    | |- context [join "/" ?l] =>
        assert (all_free bad l) as Hl;
        [|pose proof (join_free_of bad l (proj1 (proj2 Hk)) Hl);
          destruct (is_empty (join "/" l));
          [apply (proj1 (proj2 Hk)) || (unfold free_of; simpl;
                                        rewrite (proj1 (proj2 Hk)); reflexivity)
          | assumption]]
    end.
    assert (all_free bad (split "/" (path u))) as Hsu
        by (apply split_free_of, Hup).
    assert (all_free bad
              (if negb (String.eqb (List.last (split "/" (path b)) "") "")
               then removelast (split "/" (path b))
               else split "/" (path b))) as Hsb.
    { pose proof (split_free_of bad "/" (path b) Hbp) as H.
      destruct (negb _); [apply removelast_free, H | exact H]. }
    match goal with
    | |- all_free bad (if ?c then (resolve_segments ?segs ++ _)
                       else resolve_segments ?segs) =>
        assert (all_free bad segs) as Hsegs;
        [|destruct c; [apply Forall_app; split;
                       [apply resolve_segments_free, Hsegs
                       | constructor; [reflexivity | constructor]]
                      | apply resolve_segments_free, Hsegs]]
    end.
    destruct (startswith (path u) "/"); [exact Hsu|].
    apply filter_inner_free, Forall_app. split; assumption.
Qed.

(** [urljoin] returns whenever its arguments contain no square
    bracket. *)
Lemma urljoin_returns (base url : string) :
  bracket_free base = true -> bracket_free url = true ->
  exists joined, urljoin base url = Ok joined.
Proof.
  intros Hbase Hurl. unfold urljoin.
  destruct (is_empty base); [eauto|]. destruct (is_empty url); [eauto|].
  destruct (urlparse_returns base "" Hbase) as (b & ->).
  cbn [mbind result_bind].
  destruct (urlparse_returns url (scheme b) Hurl) as (u & ->).
  cbn [mbind result_bind].
  repeat match goal with
         | |- context [if ?c then Ok _ else _] => destruct c; [eauto|]
         end.
  eauto.
Qed.

(** A reference without scheme and netloc of its own is resolved
    against the base: the result has the scheme and the netloc of the
    base. *)
Lemma urljoin_relative (base url joined : string) (b u : ParseResult) :
  is_empty base = false -> is_empty url = false ->
  urlparse base "" = Ok b -> urlparse url (scheme b) = Ok u ->
  scheme u = scheme b -> member (scheme u) uses_relative = true ->
  netloc u = "" ->
  urljoin base url = Ok joined ->
  exists pa ps q,
    joined = urlunparse (mkParseResult (scheme b) (netloc b) pa ps q
                                       (fragment u))
    /\ free_of is_unsafe pa = true /\ free_of is_unsafe ps = true
    /\ free_of is_unsafe q = true.
Proof.
  intros Hbase Hurl Hb Hu Hs Hrel Hn. unfold urljoin.
  rewrite Hbase, Hurl, Hb. cbn [mbind result_bind]. rewrite Hu.
  cbn [mbind result_bind].
  destruct (urlparse_safe base "" b Hb) as (_ & _ & Hbp & Hbps & Hbq & _).
  destruct (urlparse_safe url (scheme b) u Hu) as (_ & _ & Hup & Hups & Huq & _).
  rewrite Hrel, Hn. rewrite Hs at 1. rewrite String.eqb_refl.
  assert (member (scheme u) uses_netloc = true) as Hnl.
  { revert Hrel. unfold member. rewrite !existsb_exists.
    intros (x & Hin & Hx). apply String.eqb_eq in Hx as <-.
    exists (scheme u). split; [|apply String.eqb_refl].
    simpl in Hin. simpl. intuition (subst; auto 30). }
  rewrite Hnl. cbn [negb orb andb truthy is_empty]. rewrite Hs.
  destruct (is_empty (path u) && is_empty (params u)).
  - intros <-%Ok_eq. do 3 eexists. split; [reflexivity|].
    split_and!; try assumption. destruct (is_empty (query u)); assumption.
  - intros <-%Ok_eq. do 3 eexists. split; [reflexivity|].
    split_and!; try assumption.
    match goal with
    | |- context [join "/" ?l] =>
        assert (all_free is_unsafe l) as Hl;
        [|pose proof (join_free_of is_unsafe l eq_refl Hl);
          destruct (is_empty (join "/" l)); [reflexivity | assumption]]
    end.
    assert (all_free is_unsafe (split "/" (path u))) as Hsu
        by (apply split_free_of, Hup).
    assert (all_free is_unsafe
              (if negb (String.eqb (List.last (split "/" (path b)) "") "")
               then removelast (split "/" (path b))
               else split "/" (path b))) as Hsb.
    { pose proof (split_free_of is_unsafe "/" (path b) Hbp) as H.
      destruct (negb _); [apply removelast_free, H | exact H]. }
    match goal with
    | |- all_free is_unsafe (if ?c then (resolve_segments ?segs ++ _)
                             else resolve_segments ?segs) =>
        assert (all_free is_unsafe segs) as Hsegs;
        [|destruct c; [apply Forall_app; split;
                       [apply resolve_segments_free, Hsegs
                       | constructor; [reflexivity | constructor]]
                      | apply resolve_segments_free, Hsegs]]
    end.
    destruct (startswith (path u) "/"); [exact Hsu|].
    apply filter_inner_free, Forall_app. split; assumption.
Qed.

(** *** Reading what [urlunparse] writes with a netloc *)

(** After the netloc, [urlunsplit] writes nothing, or goes on with one
    of [/], [?] and [#]. *)
Lemma urlunsplit_netloc (s n fp q f : string) :
  truthy n = true ->
  free_of is_unsafe fp = true -> free_of is_unsafe q = true ->
  free_of is_unsafe f = true ->
  exists r,
    urlunsplit (mkSplitResult s n fp q f)
    = (if truthy s then s +:+ String ":" ("//" +:+ n +:+ r)
       else "//" +:+ n +:+ r)
    /\ at_delimiter r = true /\ free_of is_unsafe r = true.
Proof.
  intros Hn Hfp Hq Hf. unfold urlunsplit. rewrite Hn. cbn [orb].
  exists ((if truthy fp && negb (startswith fp "/") then "/" +:+ fp else fp)
          +:+ (if truthy q then "?" +:+ q else "")
          +:+ (if truthy f then "#" +:+ f else "")).
  split_and!.
  - destruct (truthy s), (truthy q), (truthy f); cbn [String.append];
      rewrite ?app_assoc, ?app_empty_r; cbn [String.append];
      rewrite ?app_assoc; reflexivity.
  - destruct fp as [|c fp]; cbn [truthy is_empty negb andb].
    + destruct q; [destruct f|]; reflexivity.
    + cbn [startswith]. rewrite andb_true_r.
      destruct (Ascii.eqb_spec "/" c) as [<-|Hc]; reflexivity.
  - rewrite !free_of_app.
    assert (free_of is_unsafe
              (if truthy fp && negb (startswith fp "/") then "/" +:+ fp else fp)
            = true) as -> by (destruct (_ && _); [exact Hfp | exact Hfp]).
    destruct (truthy q), (truthy f); unfold free_of in *; simpl;
      rewrite ?Hq, ?Hf; reflexivity.
Qed.

(** What [urlunparse] writes for components with a netloc is read with
    that netloc. *)
Lemma urlparse_written_netloc (s n pa ps q f : string) :
  s = "" \/ valid_scheme s = true ->
  truthy n = true -> free_of is_delimiter n = true ->
  check_netloc n = Ok tt -> free_of is_unsafe n = true ->
  free_of is_unsafe pa = true -> free_of is_unsafe ps = true ->
  free_of is_unsafe q = true -> free_of is_unsafe f = true ->
  exists p',
    urlparse (urlunparse (mkParseResult s n pa ps q f)) "" = Ok p'
    /\ netloc p' = n.
Proof.
  intros Hs Hn Hdel Hck Hsn Hpa Hps Hq Hf. unfold urlunparse.
  destruct (urlunsplit_netloc s n (if truthy ps then pa +:+ ";" +:+ ps else pa)
              q f Hn) as (r & -> & Hr & Hsr); try assumption.
  { destruct (truthy ps); [|exact Hpa].
    rewrite free_of_app, Hpa. unfold free_of in *. simpl. exact Hps. }
  destruct (scheme_stage s ("//" +:+ n +:+ r)) as [Hclean HS].
  { destruct Hs as [-> | Hv]; [left | right; exact Hv].
    split_and!; [reflexivity | apply has_scheme_rooted; reflexivity
                | apply lstrip_rooted; reflexivity]. }
  { apply free_of_slashes. rewrite free_of_app, Hsn, Hsr. reflexivity. }
  cbv zeta in Hclean, HS.
  rewrite urlparse_stages, Hclean, HS.
  rewrite (split_netloc_intro n r Hdel Hr), Hck. cbn [mbind result_bind].
  destruct (split_at "#" r) as [u4 f'].
  destruct (split_at "?" u4) as [p0 q'].
  destruct (split_params s p0) as [pa' ps']. eexists. split; reflexivity.
Qed.

End JoinFacts.

Module LinkFactsPre.

Import Py PyFacts UrlParse.

(** [geturl] writes the fragment last. *)
Lemma geturl_fragment (p : ParseResult) (f : string) :
  geturl (replace_fragment p f)
  = geturl (replace_fragment p "") +:+ (if truthy f then "#" +:+ f else "").
Proof.
  destruct p as [s n pa ps q f0].
  unfold geturl, urlunparse, urlunsplit, replace_fragment.
  cbn [scheme netloc path params query fragment].
  change (truthy "") with false. cbv iota.
  destruct (truthy f); [reflexivity | rewrite app_empty_r; reflexivity].
Qed.

End LinkFactsPre.

(** ** Fragments and [urljoin] *)

Module FragmentFacts.

Import Py PyFacts UrlParse UrlStages UrlFacts UrlMore UrlDefault JoinFacts.

Lemma urljoin_eq (base url : string) :
  urljoin base url
  = (if is_empty base then Ok url
     else if is_empty url then Ok base
     else
       b ← urlparse base "";
       u ← urlparse url (scheme b);
       match urljoin_parts b u with
       | None => Ok url
       | Some (n, pa, ps, q) =>
           Ok (urlunparse (mkParseResult (scheme u) n pa ps q (fragment u)))
       end).
Proof.
  unfold urljoin. destruct (is_empty base); [reflexivity|].
  destruct (is_empty url); [reflexivity|].
  destruct (urlparse base "") as [b|e]; cbn [mbind result_bind]; [|reflexivity].
  destruct (urlparse url (scheme b)) as [u|e]; cbn [mbind result_bind];
    [|reflexivity].
  destruct b as [bs bn bp bps bq bf], u as [us un up ups uq uf].
  unfold urljoin_parts. cbn [scheme netloc path params query fragment].
  destruct (negb (String.eqb us bs) || negb (member us uses_relative));
    [reflexivity|].
  destruct (member us uses_netloc && truthy un); [reflexivity|].
  destruct (is_empty up && is_empty ups); reflexivity.
Qed.

(** The parts do not depend on the fragment of the reference. *)
Lemma urljoin_parts_fragment (b u : ParseResult) (f : string) :
  urljoin_parts b (replace_fragment u f) = urljoin_parts b u.
Proof. destruct b, u. reflexivity. Qed.

Lemma urljoin_parts_free_of (bad : ascii -> bool) (b u : ParseResult)
      (n pa ps q : string) :
  bad "/"%char = false ->
  free_of bad (netloc b) = true -> free_of bad (path b) = true ->
  free_of bad (params b) = true -> free_of bad (query b) = true ->
  free_of bad (netloc u) = true -> free_of bad (path u) = true ->
  free_of bad (params u) = true -> free_of bad (query u) = true ->
  urljoin_parts b u = Some (n, pa, ps, q) ->
  free_of bad n = true /\ free_of bad pa = true
  /\ free_of bad ps = true /\ free_of bad q = true.
Proof.
  intros Hsl Hbn Hbp Hbps Hbq Hun Hup Hups Huq.
  destruct b as [bs bn bp bps bq bf], u as [us un up ups uq uf].
  cbn [scheme netloc path params query fragment] in *.
  unfold urljoin_parts.
  destruct (negb (String.eqb us bs) || negb (member us uses_relative));
    [discriminate|].
  destruct (member us uses_netloc && truthy un).
  { intros [= <- <- <- <-]. auto. }
  assert (free_of bad (if member us uses_netloc then bn else un) = true) as Hnet
      by (destruct (member us uses_netloc); assumption).
  destruct (is_empty up && is_empty ups).
  { intros [= <- <- <- <-]. split_and!; try assumption.
    destruct (is_empty uq); assumption. }
  match goal with
  | |- context [join "/" ?l] => remember l as L eqn:HL
  end.
  intros [= <- <- <- <-]. split_and!; try assumption.
  assert (Forall (fun w => free_of bad w = true) L) as Hl;
    [|pose proof (join_free_of bad L Hsl Hl);
      destruct (is_empty (join "/" L));
      [unfold free_of; simpl; rewrite Hsl; reflexivity | assumption]].
  subst L.
  assert (Forall (fun w => free_of bad w = true) (split "/" up)) as Hsu
      by (apply split_free_of, Hup).
  assert (Forall (fun w => free_of bad w = true)
            (if negb (String.eqb (List.last (split "/" bp) "") "")
             then removelast (split "/" bp)
             else split "/" bp)) as Hsb.
  { pose proof (split_free_of bad "/" bp Hbp) as H.
    destruct (negb _); [apply removelast_free, H | exact H]. }
  match goal with
  | |- Forall _ (if ?c then (resolve_segments ?segs ++ _)
                 else resolve_segments ?segs) =>
      assert (Forall (fun w => free_of bad w = true) segs) as Hsegs;
      [|destruct c; [apply Forall_app; split;
                     [apply resolve_segments_free, Hsegs
                     | constructor; [reflexivity | constructor]]
                    | apply resolve_segments_free, Hsegs]]
  end.
  destruct (startswith up "/"); [exact Hsu|].
  apply filter_inner_free, Forall_app. split; assumption.
Qed.

(** *** The fragment under a default scheme *)

Lemma split_scheme_fragment_default (d b f : string) :
  split_scheme d (b +:+ String "#" f)
  = ((split_scheme d b).1, (split_scheme d b).2 +:+ String "#" f).
Proof.
  destruct (split_scheme d b) as [s u2] eqn:HS.
  apply split_scheme_elim in HS as [(Hno & -> & ->) | (x & Hx & -> & ->)]; simpl.
  - unfold split_scheme.
    rewrite (has_scheme_app_other b "#" f eq_refl eq_refl), Hno. reflexivity.
  - rewrite app_assoc. simpl. apply (split_scheme_intro d x _ Hx).
Qed.

Lemma split_scheme_keeps_absent_default (c : ascii) (d b : string) :
  contains c b = false -> contains c (split_scheme d b).2 = false.
Proof.
  intros Hb. destruct (split_scheme d b) as [s u2] eqn:HS.
  apply split_scheme_elim in HS as [(_ & _ & ->) | (x & _ & _ & ->)]; simpl;
    [exact Hb|].
  apply contains_prefix in Hb as [_ Hb]. rewrite contains_cons in Hb.
  apply orb_false_iff in Hb as [_ Hb]. exact Hb.
Qed.

Lemma urlparse_fragment_default (b f s : string) :
  contains "#" b = false ->
  urlparse (b +:+ String "#" f) s
  = (p ← urlparse b s; Ok (replace_fragment p (remove_unsafe f))).
Proof.
  intros Hb.
  rewrite !urlparse_stages_default, clean_fragment, split_scheme_fragment_default.
  pose proof (split_scheme_keeps_absent_default "#" (clean_scheme s) (clean b)
                (clean_keeps_absent "#" b Hb)) as Hu2.
  destruct (split_scheme (clean_scheme s) (clean b)) as [s' u2].
  simpl in Hu2 |- *.
  rewrite split_netloc_fragment.
  destruct (split_netloc u2) as [[n u3]|e] eqn:HN; simpl; [|reflexivity].
  pose proof (split_netloc_keeps_absent "#" u2 n u3 HN Hu2) as Hu3.
  rewrite (split_at_first "#" u3 _ Hu3), (split_at_absent "#" u3 Hu3).
  destruct (split_at "?" u3) as [p0 q].
  destruct (split_params s' p0) as [pa ps]. reflexivity.
Qed.

(** *** Normal forms of joined URLs *)

#[local] Abbreviation is_hash := (fun x : ascii => Ascii.eqb x "#").

Lemma urlunparse_no_fragment (s n pa ps q : string) :
  s = "" \/ valid_scheme s = true ->
  free_of is_hash n = true -> free_of is_hash pa = true ->
  free_of is_hash ps = true -> free_of is_hash q = true ->
  contains "#" (urlunparse (mkParseResult s n pa ps q "")) = false.
Proof.
  intros Hs Hn Hpa Hps Hq.
  apply (free_of_contains is_hash); [|reflexivity].
  unfold urlunparse. apply urlunsplit_free_of; try reflexivity; try assumption.
  - apply valid_scheme_free_of; [|exact Hs].
    intros c Hc. destruct (scheme_char_plain c Hc) as (Hd & _).
    destruct (Ascii.eqb_spec c "#") as [->|]; [discriminate | reflexivity].
  - destruct (truthy ps); [|exact Hpa].
    rewrite free_of_app, Hpa. unfold free_of in *. simpl. exact Hps.
Qed.

(** [normalise] removes the fragment that [urlunparse] has written. *)
Lemma normalise_urlunparse (s n pa ps q f : string) :
  contains "#" (urlunparse (mkParseResult s n pa ps q "")) = false ->
  normalise (urlunparse (mkParseResult s n pa ps q f))
  = normalise (urlunparse (mkParseResult s n pa ps q "")).
Proof.
  intros Hno.
  pose proof (LinkFactsPre.geturl_fragment (mkParseResult s n pa ps q "") f) as H.
  unfold geturl, replace_fragment in H.
  cbn [scheme netloc path params query fragment] in H. rewrite H.
  destruct f as [|c f]; cbn [truthy is_empty negb].
  - rewrite app_empty_r. reflexivity.
  - change ("#" +:+ String c f) with (String "#" (String c f)).
    apply normalise_fragment, Hno.
Qed.

End FragmentFacts.

Module FragmentLinks.

Import Py PyFacts UrlParse UrlStages UrlFacts UrlMore UrlDefault JoinFacts
       FragmentFacts.

#[local] Abbreviation is_hash := (fun x : ascii => Ascii.eqb x "#").

(** The scheme of a parse under a default that is a scheme. *)
Lemma urlparse_scheme_default (url s : string) (u : ParseResult) :
  s = "" \/ valid_scheme s = true ->
  urlparse url s = Ok u ->
  scheme u = "" \/ valid_scheme (scheme u) = true.
Proof.
  intros Hs (u2 & _ & _ & _ & HS & _)%urlparse_default_elim.
  rewrite (clean_scheme_valid s Hs) in HS.
  apply split_scheme_elim in HS as [(_ & -> & _) | (x & Hx & -> & _)];
    [exact Hs | right; apply lower_scheme_like, Hx].
Qed.

Lemma wf_no_hash (b : ParseResult) :
  wf_parse b ->
  free_of is_hash (netloc b) = true /\ free_of is_hash (path b) = true
  /\ free_of is_hash (params b) = true /\ free_of is_hash (query b) = true.
Proof.
  intros Hwf. split_and!.
  - apply (free_of_weaken is_delimiter); [|apply (wf_netloc b Hwf)].
    intros c Hc. apply Ascii.eqb_eq in Hc as ->. reflexivity.
  - destruct (wf_path b Hwf) as [_ Hh]. unfold full_path in Hh.
    apply contains_free_of.
    destruct (truthy (params b)); [|exact Hh].
    apply contains_prefix in Hh as [Hh _]. exact Hh.
  - destruct (wf_path b Hwf) as [_ Hh]. unfold full_path in Hh.
    destruct (truthy (params b)) eqn:Hps.
    + apply contains_prefix in Hh as [_ Hh].
      apply contains_prefix in Hh as [_ Hh]. apply contains_free_of, Hh.
    + apply truthy_false in Hps. rewrite Hps. reflexivity.
  - apply contains_free_of, (wf_query b Hwf).
Qed.

Lemma is_empty_app_cons (a : string) (c : ascii) (r : string) :
  is_empty (a +:+ String c r) = false.
Proof. destruct a; reflexivity. Qed.

(** The link of a reference does not depend on the fragment of the
    reference. *)
Lemma link_fragment (page h f : string) :
  contains "#" h = false ->
  urljoin page (h +:+ String "#" f) ≫= normalise
  = urljoin page (h +:+ String "#" "") ≫= normalise.
Proof.
  intros Hh. rewrite !urljoin_eq, !is_empty_app_cons.
  destruct (is_empty page).
  { cbn [mbind result_bind]. rewrite !normalise_fragment by exact Hh.
    reflexivity. }
  destruct (urlparse page "") as [b|e] eqn:Hb; cbn [mbind result_bind];
    [|reflexivity].
  pose proof (urlparse_wf page b Hb) as Hwf.
  rewrite !(urlparse_fragment_default h _ (scheme b) Hh).
  destruct (urlparse h (scheme b)) as [u|e] eqn:Hu; cbn [mbind result_bind];
    [|reflexivity].
  rewrite !urljoin_parts_fragment.
  destruct (urljoin_parts b u) as [[[[n pa] ps] q]|] eqn:Hparts;
    cbn [mbind result_bind].
  - cbn [scheme netloc path params query fragment replace_fragment].
    assert (contains "#" (urlunparse (mkParseResult (scheme u) n pa ps q ""))
            = false) as Hno.
    { destruct (wf_no_hash b Hwf) as (Hbn & Hbp & Hbps & Hbq).
      destruct (urlparse_free_of_clean is_hash h (scheme b) u)
        as (_ & Hun & Hup & Hups & Huq & _).
      - intros c Hc. destruct (scheme_char_plain c Hc) as (Hd & _).
        destruct (Ascii.eqb_spec c "#") as [->|]; [discriminate | reflexivity].
      - apply contains_free_of, clean_keeps_absent, Hh.
      - rewrite (clean_scheme_valid _ (wf_scheme b Hwf)).
        apply valid_scheme_free_of; [|apply (wf_scheme b Hwf)].
        intros c Hc. destruct (scheme_char_plain c Hc) as (Hd & _).
        destruct (Ascii.eqb_spec c "#") as [->|]; [discriminate | reflexivity].
      - exact Hu.
      - destruct (urljoin_parts_free_of is_hash b u n pa ps q eq_refl
                    Hbn Hbp Hbps Hbq Hun Hup Hups Huq Hparts)
          as (Hn & Hpa & Hps & Hq).
        apply urlunparse_no_fragment; try assumption.
        apply (urlparse_scheme_default h (scheme b) u (wf_scheme b Hwf) Hu). }
    rewrite !(normalise_urlunparse _ _ _ _ _ _ Hno). reflexivity.
  - rewrite !normalise_fragment by exact Hh. reflexivity.
Qed.

End FragmentLinks.

(** ** [get_links] *)

Lemma normalise_returns (u : string) :
  bracket_free u = true ->
  exists v, normalise u = Ok v /\ bracket_free v = true.
Proof.
  intros Hu. destruct (UrlDefault.urlparse_returns u "" Hu) as (p & Hp).
  exists (UrlParse.geturl (UrlParse.replace_fragment p "")).
  split; [apply (UrlFacts.normalise_geturl u p Hp)|].
  destruct (UrlDefault.urlparse_free_of is_bracket u "" p) as (Hs & Hn & Hpa & Hps & Hq & _);
    [intros c Hc; revert Hc; UrlFacts.each_char c | exact Hu | reflexivity
    | exact Hp |].
  apply JoinFacts.urlunparse_free_of; try assumption; try reflexivity.
  repeat split.
Qed.

Lemma strip_free_of (bad : ascii -> bool) (s : string) :
  UrlStages.free_of bad s = true -> UrlStages.free_of bad (Py.strip s) = true.
Proof.
  intros H. apply UrlDefault.free_of_rstrip, UrlDefault.free_of_lstrip, H.
Qed.

(** The link of an anchor whose [href] has no square bracket, on a page
    whose URL has none. *)
Lemma link_of_returns (page_url href : string) :
  bracket_free page_url = true -> bracket_free href = true ->
  exists link, link_of page_url href = Ok link /\ bracket_free link = true.
Proof.
  intros Hpage Hhref. unfold link_of.
  pose proof (strip_free_of is_bracket href Hhref) as Hs.
  destruct (JoinFacts.urljoin_returns page_url (Py.strip href) Hpage Hs)
    as (joined & Hj).
  rewrite Hj. cbn [mbind result_bind]. apply normalise_returns.
  apply (JoinFacts.urljoin_free_of is_bracket page_url (Py.strip href) joined);
    try assumption; [repeat split|].
  intros c Hc; revert Hc; UrlFacts.each_char c.
Qed.

(** [normalise] and [link_of] bring in no character of a set that the
    URL, the page and the [href] are free of, when the punctuation of
    URLs and the characters of schemes are not in the set. *)
Lemma normalise_free_of (bad : ascii -> bool) (u v : string) :
  keeps_punctuation bad ->
  (forall c, UrlParse.is_scheme_char c = true -> bad c = false) ->
  UrlStages.free_of bad u = true -> normalise u = Ok v ->
  UrlStages.free_of bad v = true.
Proof.
  intros Hk Hsch Hu. unfold normalise.
  destruct (UrlParse.urlparse u "") as [p|e] eqn:Hp; cbn [mbind result_bind];
    [|discriminate].
  intros <-%Ok_eq.
  destruct (UrlDefault.urlparse_free_of bad u "" p Hsch Hu eq_refl Hp)
    as (Hs & Hn & Hpa & Hps & Hq & _).
  apply JoinFacts.urlunparse_free_of; try assumption. reflexivity.
Qed.

Lemma link_of_free_of (bad : ascii -> bool) (page_url href link : string) :
  keeps_punctuation bad ->
  (forall c, UrlParse.is_scheme_char c = true -> bad c = false) ->
  UrlStages.free_of bad page_url = true -> UrlStages.free_of bad href = true ->
  link_of page_url href = Ok link ->
  UrlStages.free_of bad link = true.
Proof.
  intros Hk Hsch Hpage Hhref. unfold link_of.
  intros (joined & Hj & Hn)%bind_Ok.
  apply (normalise_free_of bad joined link Hk Hsch); [|exact Hn].
  apply (JoinFacts.urljoin_free_of bad page_url (Py.strip href) joined Hk Hsch
           Hpage (strip_free_of bad href Hhref) Hj).
Qed.

Lemma plain_spec (s : string) :
  plain s = true <-> isascii s = true /\ bracket_free s = true.
Proof. unfold plain. apply andb_true_iff. Qed.

Lemma plain_bracket_free (s : string) : plain s = true -> bracket_free s = true.
Proof. intros H. apply plain_spec in H. apply H. Qed.

Lemma non_ascii_punctuation : keeps_punctuation non_ascii.
Proof. repeat split. Qed.

Lemma is_bracket_punctuation : keeps_punctuation is_bracket.
Proof. repeat split. Qed.

Lemma scheme_char_ascii (c : ascii) :
  UrlParse.is_scheme_char c = true -> non_ascii c = false.
Proof. UrlFacts.each_char c. Qed.

Lemma scheme_char_no_bracket (c : ascii) :
  UrlParse.is_scheme_char c = true -> is_bracket c = false.
Proof. UrlFacts.each_char c. Qed.

(** The link of an anchor whose [href] is plain, on a page whose URL is
    plain: [urljoin] and [normalise] return, and the link is plain. *)
Lemma link_of_plain (page_url href : string) :
  plain page_url = true -> plain href = true ->
  exists link, link_of page_url href = Ok link /\ plain link = true.
Proof.
  intros [Apage Bpage]%plain_spec [Ahref Bhref]%plain_spec.
  destruct (link_of_returns page_url href Bpage Bhref) as (link & Hlink & _).
  exists link. split; [exact Hlink|]. apply plain_spec. split.
  - exact (link_of_free_of non_ascii page_url href link non_ascii_punctuation
             scheme_char_ascii Apage Ahref Hlink).
  - exact (link_of_free_of is_bracket page_url href link is_bracket_punctuation
             scheme_char_no_bracket Bpage Bhref Hlink).
Qed.

Lemma get_links_step_eq (page_url : string) (links : list string)
      (tag : gmap string string) :
  get_links_step page_url links tag
  = (if is_skipped (Py.strip (default "" (tag !! "href"))) then Ok links
     else link ← link_of page_url (default "" (tag !! "href"));
          Ok (links ++ [link])).
Proof.
  unfold get_links_step, is_skipped, link_of.
  destruct (_ || _); [reflexivity|].
  destruct (UrlParse.urljoin _ _) as [j|e]; reflexivity.
Qed.

(** The loop of [get_links], started with [acc]. *)
Lemma get_links_loop (page_url : string) (tags : list (gmap string string)) :
  forall acc links : list string,
    foldM (get_links_step page_url) tags acc = Ok links ->
    exists new,
      links = acc ++ new
      /\ Forall2 (fun href link => link_of page_url href = Ok link)
                 (List.filter (fun href => negb (is_skipped (Py.strip href)))
                              (map (fun tag : gmap string string =>
                                      default "" (tag !! "href")) tags))
                 new.
Proof.
  induction tags as [|tag tags IH]; intros acc links; simpl.
  - intros [= <-]. exists []. rewrite app_nil_r. split; [reflexivity|constructor].
  - intros H. apply bind_Ok in H as (acc' & Hstep & Hrest).
    apply IH in Hrest as (new & -> & Hnew).
    rewrite get_links_step_eq in Hstep.
    destruct (is_skipped _); simpl.
    + injection Hstep as <-. exists new. auto.
    + apply bind_Ok in Hstep as (link & Hlink & [= <-]).
      exists (link :: new). rewrite <- app_assoc. split; [reflexivity|].
      constructor; assumption.
Qed.

(** [get_links] returns one link for each anchor with an [href] that is
    not skipped, in the order of the document: the link of that [href].
    Nothing is removed, so that a link occurs as often as anchors lead to
    it. *)
Theorem get_links_one_per_anchor (BeautifulSoup : string -> list PageElement)
        (html page_url : string) (links : list string) :
  get_links BeautifulSoup html page_url = Ok links ->
  Forall2 (fun href link => link_of page_url href = Ok link)
          (List.filter (fun href => negb (is_skipped (Py.strip href)))
                       (hrefs (BeautifulSoup html)))
          links.
Proof.
  intros H. apply get_links_loop in H as (new & -> & Hnew). exact Hnew.
Qed.

Lemma get_links_one_per_anchor_witness :
  Forall2 (fun href link => link_of Example.page_b href = Ok link)
          (List.filter (fun href => negb (is_skipped (Py.strip href)))
                       (hrefs (Example.soup Example.html_b)))
          ["http://example.com/d"].
Proof.
  apply (get_links_one_per_anchor Example.soup Example.html_b Example.page_b).
  vm_compute. reflexivity.
Defined.

Lemma link_of_normalised (page_url href link : string) :
  link_of page_url href = Ok link -> exists joined, normalise joined = Ok link.
Proof.
  unfold link_of. intros (joined & _ & H)%bind_Ok. eauto.
Qed.

Lemma get_links_normalised (BeautifulSoup : string -> list PageElement)
      (html page_url : string) (links : list string) :
  get_links BeautifulSoup html page_url = Ok links ->
  forall link, link ∈ links -> exists joined, normalise joined = Ok link.
Proof.
  intros H. apply get_links_loop in H as (new & -> & H). simpl.
  induction H as [|href link hs ls Hlink _ IH]; intros x Hx.
  - inversion Hx.
  - apply elem_of_cons in Hx as [->|Hx]; [|exact (IH x Hx)].
    exact (link_of_normalised _ _ _ Hlink).
Qed.

(** No link that [get_links] returns has a fragment, a tab or a line
    break. *)
Theorem get_links_clean (BeautifulSoup : string -> list PageElement)
        (html page_url : string) (links : list string) :
  get_links BeautifulSoup html page_url = Ok links ->
  forall link, link ∈ links ->
    Py.contains "#" link = false
    /\ Py.contains "009" link = false
    /\ Py.contains "013" link = false
    /\ Py.contains "010" link = false.
Proof.
  intros H link Hin.
  destruct (get_links_normalised _ _ _ _ H link Hin) as (joined & Hj).
  exact (UrlMore.normalise_clean joined link Hj).
Qed.

Lemma get_links_clean_witness :
  Py.contains "#" "http://example.com/c" = false
  /\ Py.contains "009" "http://example.com/c" = false
  /\ Py.contains "013" "http://example.com/c" = false
  /\ Py.contains "010" "http://example.com/c" = false.
Proof.
  apply (get_links_clean Example.soup Example.html_seed Example.seed
           ["http://example.com/b"; "http://example.com/c"]).
  - vm_compute. reflexivity.
  - apply elem_of_cons. right. apply elem_of_cons. left. reflexivity.
Defined.

(** The loop of [get_links] on plain anchors. *)
Lemma get_links_loop_total (page_url : string)
      (tags : list (gmap string string)) :
  plain page_url = true ->
  Forall (fun href => plain href = true)
         (map (fun tag : gmap string string => default "" (tag !! "href")) tags) ->
  forall acc : list string,
    Forall (fun link => plain link = true) acc ->
    exists links,
      foldM (get_links_step page_url) tags acc = Ok links
      /\ Forall (fun link => plain link = true) links.
Proof.
  intros Hpage.
  induction tags as [|tag tags IH]; intros Hrefs acc Hacc; simpl.
  - eauto.
  - inversion Hrefs as [|? ? Hhref Hrest]; subst.
    rewrite get_links_step_eq.
    destruct (is_skipped _); cbn [mbind result_bind]; [apply IH; assumption|].
    destruct (link_of_plain page_url _ Hpage Hhref) as (link & -> & Hlink).
    cbn [mbind result_bind]. apply IH; [exact Hrest|].
    apply Forall_app. split; [exact Hacc | constructor; [exact Hlink|constructor]].
Qed.

(** Once the parser has returned the document, [get_links] returns when
    the URL of the page and every [href] of the document are ASCII
    strings without a square bracket, and then every link is such a
    string again.  (On ASCII the check of [urlsplit] on the normal form
    of the host returns at once.) *)
Theorem get_links_returns (BeautifulSoup : string -> list PageElement)
        (html page_url : string) :
  plain page_url = true ->
  Forall (fun href => plain href = true) (hrefs (BeautifulSoup html)) ->
  exists links,
    get_links BeautifulSoup html page_url = Ok links
    /\ Forall (fun link => plain link = true) links.
Proof.
  intros Hpage Hrefs. unfold get_links. unfold hrefs in Hrefs.
  destruct (get_links_loop_total page_url
              (find_all (BeautifulSoup html) "a" "href") Hpage Hrefs [])
    as (links & Hlinks & Hfree); [constructor|].
  exists links. split; [exact Hlinks | exact Hfree].
Qed.

Lemma get_links_returns_witness :
  exists links,
    get_links Example.soup Example.html_seed Example.seed = Ok links
    /\ Forall (fun link => plain link = true) links.
Proof.
  apply (get_links_returns Example.soup Example.html_seed Example.seed).
  - vm_compute. reflexivity.
  - vm_compute. repeat constructor.
Defined.

(** ** The link of an anchor *)

Module LinkFacts.

Import Py PyFacts UrlParse UrlStages UrlFacts UrlMore UrlDefault.

(** The normal form of what [geturl] writes for a value of [urlparse]
    is what it writes without the fragment. *)
Lemma normalise_geturl_value (url : string) (p : ParseResult) (f : string) :
  urlparse url "" = Ok p ->
  truthy (netloc p) = true \/ startswith (path p) "//" = false ->
  normalise (geturl (replace_fragment p f)) = normalise url.
Proof.
  intros Hp Hcond.
  pose proof (normalise_geturl url p Hp) as Hn.
  rewrite LinkFactsPre.geturl_fragment.
  assert (normalise (geturl (replace_fragment p "")) = normalise url) as Hx.
  { rewrite Hn. apply (normalise_fixed url _ p Hp Hcond Hn). }
  destruct f as [|c f]; cbn [truthy is_empty negb].
  - rewrite app_empty_r. exact Hx.
  - change ("#" +:+ String c f) with (String "#" (String c f)).
    rewrite normalise_fragment; [exact Hx|].
    apply (normalise_no_fragment url _ Hn).
Qed.

Lemma member_relative_netloc (s : string) :
  member s uses_relative = true -> member s uses_netloc = true.
Proof.
  unfold member. rewrite !existsb_exists.
  intros (x & Hin & Hx). apply String.eqb_eq in Hx as <-.
  exists s. split; [|apply String.eqb_refl].
  simpl in Hin. simpl. intuition (subst; auto 30).
Qed.

(** A reference that consists of a fragment. *)
Lemma urlparse_fragment_only (f s : string) :
  clean_scheme s = s ->
  urlparse (String "#" f) s = Ok (mkParseResult s "" "" "" "" (remove_unsafe f)).
Proof.
  intros Hs. rewrite urlparse_stages_default, Hs.
  assert (clean (String "#" f) = String "#" (remove_unsafe f)) as ->.
  { unfold clean. rewrite lstrip_first by reflexivity.
    apply remove_unsafe_cons. reflexivity. }
  unfold split_scheme, has_scheme. cbn [is_ascii_alpha between].
  change (is_ascii_alpha "#") with false.
  rewrite andb_false_r. cbn [andb].
  rewrite split_netloc_plain by reflexivity. cbn [mbind result_bind].
  unfold split_at. cbn [contains]. rewrite Ascii.eqb_refl.
  unfold split1. cbn [partition]. rewrite Ascii.eqb_refl.
  cbn [contains]. unfold split_params. cbn [contains].
  rewrite andb_false_r. reflexivity.
Qed.

(** A reference with a scheme of its own is parsed in the same way
    under every default scheme. *)
Lemma urlparse_own_scheme (url s : string) (u : ParseResult) :
  urlparse url "" = Ok u -> truthy (scheme u) = true ->
  urlparse url s = Ok u.
Proof.
  intros Hu Hs.
  assert (has_scheme (clean url) = true) as Hhas.
  { destruct (urlparse_default_elim url "" u Hu) as (u2 & _ & _ & _ & HS & _).
    unfold split_scheme in HS.
    destruct (has_scheme (clean url)); [reflexivity|].
    injection HS as HS _. rewrite <- HS in Hs. discriminate. }
  rewrite urlparse_stages_default. rewrite urlparse_stages_default in Hu.
  unfold split_scheme in Hu |- *. rewrite Hhas in Hu |- *. exact Hu.
Qed.

End LinkFacts.

(** An anchor whose [href] is empty or consists of a fragment leads to
    the page that it is on: its link is the normal form of the URL of
    the page, for a page with a scheme of [uses_relative] (as [http] and
    [https]) and a netloc. *)
Theorem anchor_to_same_page (page href : string) (b : UrlParse.ParseResult) :
  UrlParse.urlparse page "" = Ok b ->
  UrlParse.member (UrlParse.scheme b) UrlParse.uses_relative = true ->
  Py.truthy (UrlParse.netloc b) = true
  \/ Py.startswith (UrlParse.path b) "//" = false ->
  Py.strip href = "" \/ Py.startswith (Py.strip href) "#" = true ->
  link_of page href = normalise page.
Proof.
  intros Hb Hrel Hcond Hhref. unfold link_of.
  destruct Hhref as [-> | Hhash].
  - assert (UrlParse.urljoin page "" = Ok page) as ->
        by (unfold UrlParse.urljoin; destruct page; reflexivity).
    reflexivity.
  - destruct (Py.strip href) as [|c f]; [discriminate|].
    cbn [Py.startswith] in Hhash. rewrite andb_true_r in Hhash.
    apply Ascii.eqb_eq in Hhash as <-.
    destruct page as [|x page'] eqn:Hpage.
    + cbn [UrlParse.urljoin Py.is_empty mbind result_bind].
      apply (UrlFacts.normalise_fragment "" f). reflexivity.
    + rewrite <- Hpage in *. unfold UrlParse.urljoin.
      replace (Py.is_empty page) with false by (rewrite Hpage; reflexivity).
      cbn [Py.is_empty]. rewrite Hb. cbn [mbind result_bind].
      rewrite (LinkFacts.urlparse_fragment_only f (UrlParse.scheme b))
        by (apply UrlDefault.clean_scheme_valid,
              (UrlStages.wf_scheme b (UrlFacts.urlparse_wf page b Hb))).
      cbn [mbind result_bind UrlParse.scheme UrlParse.netloc UrlParse.path
           UrlParse.params UrlParse.query UrlParse.fragment Py.is_empty
           Py.truthy negb andb].
      rewrite String.eqb_refl, Hrel,
        (LinkFacts.member_relative_netloc _ Hrel).
      cbn [negb orb andb mbind result_bind].
      rewrite <- (LinkFacts.normalise_geturl_value page b
                    (UrlParse.remove_unsafe f) Hb Hcond).
      destruct b; reflexivity.
Qed.

Lemma anchor_to_same_page_witness :
  link_of "http://example.com/a?b" " #top " = normalise "http://example.com/a?b".
Proof.
  apply (anchor_to_same_page "http://example.com/a?b" " #top "
           (UrlParse.mkParseResult "http" "example.com" "/a" "" "b" "")).
  - vm_compute. reflexivity.
  - reflexivity.
  - left. reflexivity.
  - right. vm_compute. reflexivity.
Defined.

(** An anchor whose [href] has a scheme and a netloc of its own leads to
    the same place from every page: its link is the normal form of the
    [href]. *)
Theorem absolute_link (page href : string) (b u : UrlParse.ParseResult) :
  UrlParse.urlparse page "" = Ok b ->
  UrlParse.urlparse (Py.strip href) "" = Ok u ->
  Py.truthy (UrlParse.scheme u) = true ->
  Py.truthy (UrlParse.netloc u) = true ->
  link_of page href = normalise (Py.strip href).
Proof.
  intros Hb Hu Hs Hn. unfold link_of.
  generalize dependent (Py.strip href). intros h Hu.
  assert (Py.is_empty h = false) as Hh.
  { destruct h; [|reflexivity]. vm_compute in Hu.
    injection Hu as <-. discriminate. }
  unfold UrlParse.urljoin. rewrite Hh.
  destruct (Py.is_empty page); [reflexivity|].
  rewrite Hb. cbn [mbind result_bind].
  rewrite (LinkFacts.urlparse_own_scheme h (UrlParse.scheme b) u Hu Hs).
  cbn [mbind result_bind].
  destruct (String.eqb (UrlParse.scheme u) (UrlParse.scheme b));
    cbn [negb orb]; [|reflexivity].
  destruct (UrlParse.member (UrlParse.scheme u) UrlParse.uses_relative) eqn:Hrel;
    cbn [negb]; [|reflexivity].
  rewrite (LinkFacts.member_relative_netloc _ Hrel), Hn.
  cbn [andb mbind result_bind].
  rewrite <- (LinkFacts.normalise_geturl_value h u (UrlParse.fragment u) Hu
                (or_introl Hn)).
  destruct u; reflexivity.
Qed.

Lemma absolute_link_witness :
  link_of "http://example.com/a/b" "https://Other.org/x#y"
  = normalise "https://Other.org/x#y".
Proof.
  apply (absolute_link "http://example.com/a/b" "https://Other.org/x#y"
           (UrlParse.mkParseResult "http" "example.com" "/a/b" "" "" "")
           (UrlParse.mkParseResult "https" "Other.org" "/x" "" "" "y"));
    vm_compute; reflexivity.
Defined.

(** An anchor whose [href] has no scheme and no netloc of its own stays
    on the site of the page: on a page with a netloc and a scheme of
    [uses_relative] (as [http] and [https]), its link is in the domain of
    the page. *)
Theorem relative_link_same_domain (page href link : string)
        (b u : UrlParse.ParseResult) :
  UrlParse.urlparse page "" = Ok b ->
  Py.truthy (UrlParse.netloc b) = true ->
  UrlParse.member (UrlParse.scheme b) UrlParse.uses_relative = true ->
  UrlParse.urlparse (Py.strip href) (UrlParse.scheme b) = Ok u ->
  UrlParse.scheme u = UrlParse.scheme b ->
  UrlParse.netloc u = "" ->
  link_of page href = Ok link ->
  same_domain link page = Ok true.
Proof.
  intros Hb Hn Hrel Hu Hs Hnu. unfold link_of.
  intros (joined & Hj & Hlink)%bind_Ok.
  pose proof (UrlFacts.urlparse_wf page b Hb) as Hwf.
  assert (exists pj, UrlParse.urlparse joined "" = Ok pj
                     /\ UrlParse.netloc pj = UrlParse.netloc b)
    as (pj & Hpj & Hnj).
  { destruct (Py.is_empty page) eqn:Hpe.
    { apply PyFacts.is_empty_true in Hpe. subst page. vm_compute in Hb.
      injection Hb as <-. discriminate. }
    destruct (Py.is_empty (Py.strip href)) eqn:Hhe.
    { unfold UrlParse.urljoin in Hj. rewrite Hpe, Hhe in Hj.
      apply Ok_eq in Hj as <-. eauto. }
    rewrite <- Hs in Hrel.
    destruct (JoinFacts.urljoin_relative page (Py.strip href) joined b u
                Hpe Hhe Hb Hu Hs Hrel Hnu Hj)
      as (pa & ps & q & -> & Hpa & Hps & Hq).
    destruct (UrlDefault.urlparse_safe (Py.strip href) (UrlParse.scheme b) u Hu)
      as (_ & _ & _ & _ & _ & Hf).
    apply JoinFacts.urlparse_written_netloc; try assumption.
    - apply (UrlStages.wf_scheme b Hwf).
    - apply (UrlStages.wf_netloc b Hwf).
    - apply (UrlStages.wf_netloc_checked b Hwf).
    - apply (UrlStages.wf_safe b Hwf). }
  destruct (DomainFacts.normalise_netloc joined link pj Hpj
              ltac:(left; rewrite Hnj; exact Hn) Hlink)
    as (pl & Hpl & Hnl & _).
  unfold same_domain. rewrite Hpl, Hb. cbn [mbind result_bind].
  rewrite Hnl, Hnj, String.eqb_refl. reflexivity.
Qed.

Lemma relative_link_same_domain_witness :
  same_domain "http://example.com/c/x?q" "http://example.com/a/b" = Ok true.
Proof.
  apply (relative_link_same_domain "http://example.com/a/b" "../c/./x?q#top"
           "http://example.com/c/x?q"
           (UrlParse.mkParseResult "http" "example.com" "/a/b" "" "" "")
           (UrlParse.mkParseResult "http" "" "../c/./x" "" "q" "top"));
    vm_compute; reflexivity.
Defined.

(** Anchors whose [href]s differ in the fragment only have the same
    link: fragments never make two entries of one page. *)
Theorem fragment_does_not_split_links (page h f1 f2 href1 href2 : string) :
  Py.contains "#" h = false ->
  Py.strip href1 = h +:+ "#" +:+ f1 ->
  Py.strip href2 = h +:+ "#" +:+ f2 ->
  link_of page href1 = link_of page href2.
Proof.
  intros Hh H1 H2. unfold link_of. rewrite H1, H2.
  change (h +:+ "#" +:+ f1) with (h +:+ String "#" f1).
  change (h +:+ "#" +:+ f2) with (h +:+ String "#" f2).
  rewrite (FragmentLinks.link_fragment page h f1 Hh),
    (FragmentLinks.link_fragment page h f2 Hh).
  reflexivity.
Qed.

Lemma fragment_does_not_split_links_witness :
  link_of "http://example.com/a/" "b/c?x=1#intro"
  = link_of "http://example.com/a/" " b/c?x=1#notes ".
Proof.
  apply (fragment_does_not_split_links "http://example.com/a/" "b/c?x=1"
           "intro" "notes");
    vm_compute; reflexivity.
Defined.

(** ** [crawl] *)

Lemma same_domain_returns (u b : string) :
  bracket_free u = true -> bracket_free b = true ->
  exists same, same_domain u b = Ok same.
Proof.
  intros Hu Hb. unfold same_domain.
  destruct (UrlDefault.urlparse_returns u "" Hu) as (pu & ->).
  destruct (UrlDefault.urlparse_returns b "" Hb) as (pb & ->).
  cbn [mbind result_bind]. eauto.
Qed.

Section CrawlMore.

Context {World : Type}.
Variable session_get : string -> Z -> World -> GetOutcome * World.
Variable time_sleep : World -> World.
Variable BeautifulSoup : string -> list PageElement.
Variables (timeout : Z) (include_external : bool).

#[local] Abbreviation Step s :=
  (crawl_step session_get time_sleep BeautifulSoup s timeout include_external).
#[local] Abbreviation Loop fuel s k :=
  (crawl_loop session_get time_sleep BeautifulSoup fuel s k timeout
              include_external).
#[local] Abbreviation Run seed k :=
  (crawl_run session_get time_sleep BeautifulSoup seed k timeout
             include_external).
#[local] Abbreviation Crawl seed k :=
  (crawl session_get time_sleep BeautifulSoup seed k timeout include_external).

(** *** The budget *)

(** With a budget of no pages the loop is not entered: nothing is
    requested and nothing is reported. *)
Theorem crawl_zero_budget (seed : string) (max_pages : Z) (w : World) :
  max_pages <= 0 ->
  Run seed max_pages w = (s ← normalise seed; Ok (initial_state s w))
  /\ Crawl seed max_pages w = (normalise seed ≫= fun _ => Ok []).
Proof.
  intros Hmax.
  assert (Run seed max_pages w
          = (s ← normalise seed; Ok (initial_state s w))) as Hrun.
  { unfold crawl_run. destruct (normalise seed) as [s|e]; [|reflexivity].
    cbn [mbind result_bind].
    destruct (Z.to_nat max_pages) eqn:Hfuel; [|lia].
    cbn [crawl_loop initial_state queue results length].
    destruct (Z.ltb_spec (Z.of_nat 0) max_pages) as [Hlt|_];
      [simpl in Hlt; lia | reflexivity]. }
  split; [exact Hrun|]. unfold crawl. rewrite Hrun.
  destruct (normalise seed); reflexivity.
Qed.


(** The results only grow, at their end. *)
Lemma crawl_loop_extends (s : string) (max_pages : Z) (fuel : nat)
      (st st' : State) :
  Loop fuel s max_pages st = Ok st' ->
  exists more, results st' = results st ++ more.
Proof.
  apply (crawl_loop_invariant session_get time_sleep BeautifulSoup s max_pages
           timeout include_external
           (fun x => exists more, results x = results st ++ more)).
  - intros u x x' (more & Hx) _ _ Hstep.
    apply crawl_step_effect in Hstep
      as (code & html & w & new & _ & Hres & _).
    rewrite Hres, Hx, <- app_assoc. eauto.
  - exists []. rewrite app_nil_r. reflexivity.
Qed.

(** The first result is that of the start URL in its normal form. *)
Theorem crawl_starts_with_seed (seed s : string) (max_pages : Z) (w : World)
        (rs : list CrawlResult) :
  1 <= max_pages ->
  normalise seed = Ok s ->
  Crawl seed max_pages w = Ok rs ->
  exists rest,
    let code := (request session_get s timeout w).1.1 in
    rs = mkCrawlResult s code (result_label code) :: rest.
Proof.
  intros Hmax Hs. unfold crawl, crawl_run. rewrite Hs. cbn [mbind result_bind].
  destruct (Z.to_nat max_pages) as [|fuel] eqn:Hfuel; [lia|].
  cbn [crawl_loop initial_state queue results length].
  destruct (Z.ltb_spec (Z.of_nat 0) max_pages) as [_|Hge]; [|simpl in Hge; lia].
  intros (st' & Hloop & [= <-])%bind_Ok.
  apply bind_Ok in Hloop as (st1 & Hstep & Hloop).
  apply crawl_loop_extends in Hloop as (more & ->).
  apply crawl_step_effect in Hstep
    as (code & html & w' & new & Hreq & -> & _).
  unfold initial_state in Hreq |- *. cbn [results world] in Hreq |- *.
  rewrite Hreq. exists more. reflexivity.
Qed.


(** A run with a larger budget goes on where one with a smaller budget
    has stopped. *)
Lemma crawl_loop_budget_prefix (s : string) (k k' : Z) (fuel : nat) :
  k <= k' ->
  forall (fuel' : nat) (st st1 st2 : State),
    k' - Z.of_nat (length (results st)) <= Z.of_nat fuel' ->
    Loop fuel s k st = Ok st1 ->
    k - Z.of_nat (length (results st)) <= Z.of_nat fuel ->
    Loop fuel' s k' st = Ok st2 ->
    exists more, results st2 = results st1 ++ more.
Proof.
  intros Hk. induction fuel as [|fuel IH]; intros fuel' st st1 st2 Hf' H1 Hf H2.
  - assert (st1 = st) as ->.
    { simpl in H1. destruct (queue st); [congruence|].
      destruct (_ <? _); congruence. }
    exact (crawl_loop_extends s k' fuel' st st2 H2).
  - simpl in H1. destruct (queue st) as [|u q] eqn:Hq.
    + assert (st1 = st) as -> by congruence.
      exact (crawl_loop_extends s k' fuel' st st2 H2).
    + destruct (Z.ltb_spec (Z.of_nat (length (results st))) k) as [Hlt|Hge].
      * destruct fuel' as [|fuel']; [lia|]. simpl in H2. rewrite Hq in H2.
        destruct (Z.ltb_spec (Z.of_nat (length (results st))) k') as [_|?];
          [|lia].
        apply bind_Ok in H1 as (st' & Hstep & H1). rewrite Hstep in H2.
        cbn [mbind result_bind] in H2.
        pose proof (crawl_step_length _ _ _ _ _ _ _ _ _ Hstep) as Hlen.
        apply (IH fuel' st' st1 st2); try assumption; lia.
      * assert (st1 = st) as -> by congruence.
        exact (crawl_loop_extends s k' fuel' st st2 H2).
Qed.

(** Raising the page budget only adds results at the end: the results
    of a crawl are the first results of the same crawl with a larger
    budget. *)
Theorem crawl_budget_prefix (seed : string) (k k' : Z) (w : World)
        (rs rs' : list CrawlResult) :
  k <= k' ->
  Crawl seed k w = Ok rs -> Crawl seed k' w = Ok rs' ->
  exists more, rs' = rs ++ more.
Proof.
  intros Hk. unfold crawl, crawl_run.
  destruct (normalise seed) as [s|e]; cbn [mbind result_bind]; [|discriminate].
  intros (st1 & H1 & [= <-])%bind_Ok (st2 & H2 & [= <-])%bind_Ok.
  apply (crawl_loop_budget_prefix s k k' (Z.to_nat k) Hk (Z.to_nat k')
           (initial_state s w) st1 st2); try assumption; simpl; lia.
Qed.

(** *** What the results look like *)

(** Every URL that comes into the queue is a value of [normalise]. *)
Lemma crawl_step_normalised (s u : string) (st st' : State) :
  Step s u st = Ok st' ->
  (forall x, x ∈ queue st -> exists j, normalise j = Ok x) ->
  forall x, x ∈ queue st' -> exists j, normalise j = Ok x.
Proof.
  intros Hstep Hq x Hx.
  apply crawl_step_effect in Hstep
    as (code & html & w & new & _ & _ & _ & Hqueue & _ & _ & Hnew & _).
  rewrite Hqueue in Hx. apply elem_of_app in Hx as [Hx|Hx].
  - apply Hq. destruct (queue st); [inversion Hx | right; exact Hx].
  - destruct (Hnew x Hx) as (_ & _ & _ & _ & links & Hlinks & Hin).
    exact (get_links_normalised BeautifulSoup html u links Hlinks x Hin).
Qed.

Lemma crawl_results_normalised (seed : string) (max_pages : Z) (w : World)
      (rs : list CrawlResult) :
  Crawl seed max_pages w = Ok rs ->
  forall r, r ∈ rs ->
    label r = result_label (r_status_code r)
    /\ exists j, normalise j = Ok (url r).
Proof.
  unfold crawl, crawl_run.
  destruct (normalise seed) as [s|e] eqn:Hs; cbn [mbind result_bind];
    [|discriminate].
  intros (st & Hloop & [= <-])%bind_Ok.
  enough ((forall r, r ∈ results st ->
              label r = result_label (r_status_code r)
              /\ exists j, normalise j = Ok (url r))
          /\ (forall x, x ∈ queue st -> exists j, normalise j = Ok x))
    as [Hres _] by exact Hres.
  revert Hloop.
  apply (crawl_loop_invariant session_get time_sleep BeautifulSoup s max_pages
           timeout include_external
           (fun x => (forall r, r ∈ results x ->
                         label r = result_label (r_status_code r)
                         /\ exists j, normalise j = Ok (url r))
                     /\ (forall y, y ∈ queue x -> exists j, normalise j = Ok y))).
  - intros u x x' [Hres Hq] Hhead _ Hstep. split.
    + pose proof Hstep as Heff.
      apply crawl_step_effect in Heff
        as (code & html & w' & new & _ & Hresults & _).
      intros r Hr. rewrite Hresults in Hr.
      apply elem_of_app in Hr as [Hr|Hr]; [exact (Hres r Hr)|].
      apply list_elem_of_singleton in Hr as ->. simpl. split; [reflexivity|].
      apply Hq. destruct (queue x); [discriminate|].
      injection Hhead as ->. left.
    + exact (crawl_step_normalised s u x x' Hstep Hq).
  - split; simpl.
    + intros r Hr. inversion Hr.
    + intros y Hy. apply list_elem_of_singleton in Hy as ->. eauto.
Qed.

(** In every result the label is the one that belongs to the status
    code, and the URL is in normal form: it has no fragment and no tab or
    line break. *)
Theorem crawl_results_wellformed (seed : string) (max_pages : Z) (w : World)
        (rs : list CrawlResult) :
  Crawl seed max_pages w = Ok rs ->
  forall r, r ∈ rs ->
    label r = result_label (r_status_code r)
    /\ Py.contains "#" (url r) = false
    /\ Py.contains "009" (url r) = false
    /\ Py.contains "013" (url r) = false
    /\ Py.contains "010" (url r) = false.
Proof.
  intros Hrs r Hr.
  destruct (crawl_results_normalised seed max_pages w rs Hrs r Hr)
    as (Hlabel & j & Hj).
  split; [exact Hlabel | exact (UrlMore.normalise_clean j (url r) Hj)].
Qed.

(** *** Pages without HTML *)


(** *** The start URL *)

(** A fragment on the start URL changes nothing. *)
Theorem crawl_ignores_seed_fragment (b f : string) (max_pages : Z) (w : World) :
  Py.contains "#" b = false ->
  Crawl (b +:+ "#" +:+ f) max_pages w = Crawl b max_pages w.
Proof.
  intros Hb. unfold crawl, crawl_run.
  change (b +:+ "#" +:+ f) with (b +:+ String "#" f).
  rewrite (UrlFacts.normalise_fragment b f Hb). reflexivity.
Qed.

(** *** The calls of [session.get] and [time.sleep] *)

Lemma request_logged (url : string) (lw lw' : list Event * World)
      (code : Z) (html : string) :
  request (logged_get session_get) url timeout lw = (code, html, lw') ->
  lw'.1 = lw.1 ++ [Requested url].
Proof.
  unfold request, logged_get.
  destruct (session_get url timeout lw.2) as [out w1].
  destruct out; intros H; apply (f_equal snd) in H; simpl in H; subst lw';
    reflexivity.
Qed.

(** A crawl requests the URLs of its results, each once and in the
    order of the results, and sleeps once after each request; it makes no
    other call of [session.get] or [time.sleep]. *)
Theorem crawl_calls (seed : string) (max_pages : Z) (log : list Event)
        (w : World) (st : @State (list Event * World)) :
  crawl_run (logged_get session_get) (logged_sleep time_sleep) BeautifulSoup
            seed max_pages timeout include_external (log, w) = Ok st ->
  (world st).1
  = log ++ flat_map (fun r => [Requested (url r); Slept]) (results st).
Proof.
  unfold crawl_run.
  destruct (normalise seed) as [s|e]; cbn [mbind result_bind]; [|discriminate].
  apply (crawl_loop_invariant (logged_get session_get) (logged_sleep time_sleep)
           BeautifulSoup s max_pages timeout include_external
           (fun x => (world x).1
                     = log ++ flat_map (fun r => [Requested (url r); Slept])
                                       (results x))).
  - intros u x x' Hx _ _ Hstep.
    apply crawl_step_effect in Hstep
      as (code & html & lw & new & Hreq & -> & -> & _).
    apply request_logged in Hreq. unfold logged_sleep. cbn [fst].
    rewrite Hreq, Hx, flat_map_app, <- !app_assoc. reflexivity.
  - simpl. rewrite app_nil_r. reflexivity.
Qed.

(** *** The loop over the links of a page returns *)

Lemma discover_unfold (s link : string) (V : gset string) (Q : list string) :
  discover s include_external (V, Q) link
  = (if bool_decide (link ∈ V) then Ok (V, Q)
     else
       out_of_scope ←
         (if negb include_external
          then (same ← same_domain link s; Ok (negb same))
          else Ok false);
       if out_of_scope : bool then Ok (V, Q)
       else Ok ({[link]} ∪ V, Q ++ [link])).
Proof. reflexivity. Qed.

Lemma discover_loop_returns (s : string) (links : list string) :
  plain s = true ->
  Forall (fun x => plain x = true) links ->
  forall (V : gset string) (Q : list string),
    Forall (fun x => plain x = true) Q ->
    exists V' Q',
      foldM (discover s include_external) links (V, Q) = Ok (V', Q')
      /\ Forall (fun x => plain x = true) Q'.
Proof.
  intros Hs. induction 1 as [|link links Hlink _ IH]; intros V Q HQ; simpl.
  - eauto.
  - rewrite discover_unfold. case_bool_decide.
    + cbn [mbind result_bind]. apply IH, HQ.
    + destruct include_external; cbn [negb mbind result_bind].
      * apply IH, Forall_app. split; [exact HQ|]. constructor; [exact Hlink|constructor].
      * destruct (same_domain_returns link s (plain_bracket_free _ Hlink)
                    (plain_bracket_free _ Hs)) as (same & ->).
        cbn [mbind result_bind]. destruct same; cbn [negb mbind result_bind].
        -- apply IH, Forall_app. split; [exact HQ|].
           constructor; [exact Hlink|constructor].
        -- apply IH, HQ.
Qed.

Lemma crawl_within_budget (seed : string) (max_pages : Z) (w : World)
      (rs : list CrawlResult) :
  Crawl seed max_pages w = Ok rs ->
  Z.of_nat (length rs) <= Z.max 0 max_pages.
Proof.
  unfold crawl, crawl_run.
  destruct (normalise seed) as [s|e]; cbn [mbind result_bind]; [|discriminate].
  intros (st & Hloop & [= <-])%bind_Ok.
  apply (crawl_loop_budget session_get time_sleep BeautifulSoup s max_pages
           timeout include_external (Z.to_nat max_pages) (initial_state s w) st);
    [simpl; lia | exact Hloop].
Qed.

(** *** Offering a link twice *)

(** A link that has been offered to the queue once changes nothing when
    it is offered again: it is put into the queue at most once. *)
Theorem discover_idempotent (s link : string)
        (frontier frontier' : gset string * list string) :
  discover s include_external frontier link = Ok frontier' ->
  discover s include_external frontier' link = Ok frontier'.
Proof.
  destruct frontier as [V Q], frontier' as [V' Q']. intros H.
  pose proof H as Hcases.
  apply discover_cases in Hcases
    as [(-> & -> & _) | (-> & -> & _)]; [exact H|].
  rewrite discover_unfold.
  rewrite bool_decide_eq_true_2
    by (apply elem_of_union_l, elem_of_singleton; reflexivity).
  reflexivity.
Qed.

End CrawlMore.

(** *** Crawls that return *)

Section CrawlReturns.

Context {World : Type}.
Variable session_get : string -> Z -> World -> GetOutcome * World.
Variable time_sleep : World -> World.
Variable BeautifulSoup : string -> list PageElement.
Variables (timeout : Z) (include_external : bool).

#[local] Abbreviation Step s :=
  (crawl_step session_get time_sleep BeautifulSoup s timeout include_external).
#[local] Abbreviation Loop fuel s k :=
  (crawl_loop session_get time_sleep BeautifulSoup fuel s k timeout
              include_external).
#[local] Abbreviation Crawl seed k :=
  (crawl session_get time_sleep BeautifulSoup seed k timeout include_external).

Hypothesis soup_plain :
  forall html,
    Forall (fun href => plain href = true) (hrefs (BeautifulSoup html)).

#[local] Abbreviation plain_urls rs :=
  (Forall (fun r : CrawlResult => plain (url r) = true) rs).

Lemma crawl_step_returns (s u : string) (st : State) :
  plain s = true -> plain u = true ->
  Forall (fun x => plain x = true) (queue st) ->
  plain_urls (results st) ->
  exists st',
    Step s u st = Ok st'
    /\ Forall (fun x => plain x = true) (queue st')
    /\ plain_urls (results st').
Proof.
  intros Hs Hu HQ HR. unfold crawl_step.
  destruct (request session_get u timeout (world st)) as [[code html] w'].
  assert (Forall (fun x => plain x = true) (tail (queue st))) as Htail
      by (destruct (queue st); [constructor | inversion HQ; assumption]).
  assert (plain_urls (results st ++ [mkCrawlResult u code (result_label code)]))
    as HR' by (apply Forall_app; split; [exact HR|repeat constructor; exact Hu]).
  destruct (Py.truthy html); cbn [mbind result_bind]; [|eauto].
  destruct (same_domain_returns u s (plain_bracket_free _ Hu)
              (plain_bracket_free _ Hs)) as (same & ->).
  cbn [mbind result_bind]. destruct same; cbn [mbind result_bind]; [|eauto].
  unfold get_links.
  destruct (get_links_loop_total u (find_all (BeautifulSoup html) "a" "href")
              Hu (soup_plain html) [])
    as (links & -> & Hlinks); [constructor|].
  cbn [mbind result_bind].
  destruct (discover_loop_returns include_external s links Hs Hlinks (visited st)
              (tail (queue st)) Htail) as (V' & Q' & -> & HQ').
  cbn [mbind result_bind]. eauto.
Qed.

Lemma crawl_loop_returns (s : string) (max_pages : Z) (fuel : nat) :
  plain s = true ->
  forall st : State,
    Forall (fun x => plain x = true) (queue st) ->
    plain_urls (results st) ->
    exists st', Loop fuel s max_pages st = Ok st' /\ plain_urls (results st').
Proof.
  intros Hs. induction fuel as [|fuel IH]; intros st HQ HR; simpl.
  - destruct (queue st); [|destruct (_ <? _)]; eauto.
  - destruct (queue st) as [|u q] eqn:Hq; [eauto|].
    destruct (_ <? _); [|eauto].
    destruct (crawl_step_returns s u st Hs) as (st' & -> & HQ' & HR');
      [inversion HQ; assumption | rewrite Hq; exact HQ | exact HR |].
    cbn [mbind result_bind]. apply IH; assumption.
Qed.


End CrawlReturns.

Lemma crawl_zero_budget_witness :
  crawl Example.get Example.sleep Example.soup Example.seed 0 10 false []
  = (normalise Example.seed ≫= fun _ => Ok []).
Proof.
  refine (proj2 (crawl_zero_budget Example.get Example.sleep Example.soup
                   10 false Example.seed 0 [] _)).
  lia.
Defined.

Lemma crawl_starts_with_seed_witness :
  exists rest,
    let code := (request Example.get Example.seed 10 []).1.1 in
    [mkCrawlResult Example.seed 200 (result_label 200);
     mkCrawlResult Example.page_b 200 (result_label 200)]
    = mkCrawlResult Example.seed code (result_label code) :: rest.
Proof.
  apply (crawl_starts_with_seed Example.get Example.sleep Example.soup
           10 false Example.seed Example.seed 2 []).
  - lia.
  - vm_compute. reflexivity.
  - vm_compute. reflexivity.
Defined.

Lemma crawl_budget_prefix_witness :
  exists more,
    [mkCrawlResult Example.seed 200 (result_label 200);
     mkCrawlResult Example.page_b 200 (result_label 200);
     mkCrawlResult Example.page_c 0 (result_label 0)]
    = [mkCrawlResult Example.seed 200 (result_label 200)] ++ more.
Proof.
  apply (crawl_budget_prefix Example.get Example.sleep Example.soup
           10 false Example.seed 1 3 []).
  - lia.
  - vm_compute. reflexivity.
  - vm_compute. reflexivity.
Defined.

Lemma crawl_results_wellformed_witness :
  label (mkCrawlResult Example.page_c 0 (result_label 0))
  = result_label (r_status_code (mkCrawlResult Example.page_c 0 (result_label 0)))
  /\ Py.contains "#" Example.page_c = false
  /\ Py.contains "009" Example.page_c = false
  /\ Py.contains "013" Example.page_c = false
  /\ Py.contains "010" Example.page_c = false.
Proof.
  apply (crawl_results_wellformed Example.get Example.sleep Example.soup
           10 false Example.seed 3 []
           [mkCrawlResult Example.seed 200 (result_label 200);
            mkCrawlResult Example.page_b 200 (result_label 200);
            mkCrawlResult Example.page_c 0 (result_label 0)]).
  - vm_compute. reflexivity.
  - apply elem_of_cons. right. apply elem_of_cons. right.
    apply elem_of_cons. left. reflexivity.
Defined.


Lemma crawl_ignores_seed_fragment_witness :
  crawl Example.get Example.sleep Example.soup
        ("http://example.com/" +:+ "#" +:+ "top") 2 10 false []
  = crawl Example.get Example.sleep Example.soup "http://example.com/" 2 10
          false [].
Proof.
  apply (crawl_ignores_seed_fragment Example.get Example.sleep Example.soup
           10 false "http://example.com/" "top" 2 []).
  vm_compute. reflexivity.
Defined.

Lemma crawl_calls_witness :
  exists st,
    crawl_run (logged_get Example.get) (logged_sleep Example.sleep)
              Example.soup Example.seed 2 10 false ([], []) = Ok st
    /\ (world st).1
       = [] ++ flat_map (fun r => [Requested (url r); Slept]) (results st).
Proof.
  eexists. split; [vm_compute; reflexivity|].
  apply (crawl_calls Example.get Example.sleep Example.soup 10 false
           Example.seed 2 [] []).
  vm_compute. reflexivity.
Defined.

Lemma tidy_soup_plain (html : string) :
  Forall (fun href => plain href = true) (hrefs (tidy_soup html)).
Proof.
  unfold tidy_soup, Example.soup.
  repeat (destruct (String.eqb html _);
          [vm_compute; repeat constructor|]).
  constructor.
Qed.


Lemma discover_idempotent_witness :
  discover Example.seed false
           ({[Example.page_b; Example.seed]}, [Example.page_b]) Example.page_b
  = Ok ({[Example.page_b; Example.seed]}, [Example.page_b]).
Proof.
  apply (discover_idempotent false Example.seed Example.page_b
           ({[Example.seed]}, [])).
  vm_compute. reflexivity.
Defined.

(** ** Labels *)

Lemma status_label_range (code : Z) :
  status_label code
  ∈ "❓ Unknown" :: (map snd (map_to_list SPECIFIC_LABELS)
                     ++ map snd (map_to_list STATUS_LABELS)).
Proof.
  unfold status_label.
  destruct (SPECIFIC_LABELS !! code) as [l|] eqn:Hs.
  - right. apply elem_of_app. left. apply list_elem_of_fmap.
    exists (code, l). split; [reflexivity|].
    apply elem_of_map_to_list, Hs.
  - destruct (STATUS_LABELS !! (code / 100)) as [l|] eqn:Hc; simpl.
    + right. apply elem_of_app. right. apply list_elem_of_fmap.
      exists (code / 100, l). split; [reflexivity|].
      apply elem_of_map_to_list, Hc.
    + left.
Qed.

Lemma result_label_range (code : Z) : result_label code ∈ all_labels.
Proof.
  unfold result_label, all_labels. destruct (code =? 0); [left|].
  right. apply status_label_range.
Qed.

(** The label of timeouts and errors is the label of the code 0 alone:
    no status code that a server sends has it. *)
Theorem timeout_label_means_no_response (code : Z) :
  result_label code = TIMEOUT_LABEL <-> code = 0.
Proof.
  split; [|intros ->; reflexivity].
  unfold result_label. destruct (Z.eqb_spec code 0) as [->|Hnz]; [reflexivity|].
  intros Heq. exfalso.
  pose proof (status_label_range code) as Hin. rewrite Heq in Hin.
  assert (Forall (fun l => l <> TIMEOUT_LABEL)
                 ("❓ Unknown" :: (map snd (map_to_list SPECIFIC_LABELS)
                                   ++ map snd (map_to_list STATUS_LABELS))))
    as Hall by (apply (bool_decide_unpack _); vm_compute; exact I).
  rewrite Forall_forall in Hall. exact (Hall _ Hin eq_refl).
Qed.

(** ** [save_csv] *)

Module CsvFacts.

Import Py PyFacts.

Lemma count_app (c : ascii) (a b : string) :
  count_char c (a +:+ b) = (count_char c a + count_char c b)%nat.
Proof.
  induction a as [|x a IH]; simpl; [reflexivity|].
  destruct (Ascii.eqb x c); simpl; rewrite IH; reflexivity.
Qed.

Lemma count_absent (c : ascii) (s : string) :
  contains c s = false -> count_char c s = 0%nat.
Proof.
  induction s as [|x s IH]; simpl; [reflexivity|].
  destruct (Ascii.eqb x c); [discriminate | exact IH].
Qed.

Lemma count_double_quotes (c : ascii) (field : string) :
  Ascii.eqb Csv.quotechar c = false ->
  count_char c (Csv.double_quotes field) = count_char c field.
Proof.
  unfold Csv.quotechar. intros Hc.
  induction field as [|x field IH]; [reflexivity|].
  cbn [Csv.double_quotes]. unfold Csv.quotechar.
  destruct (Ascii.eqb_spec x "034") as [->|Hx]; cbn [count_char].
  - rewrite Hc. exact IH.
  - destruct (Ascii.eqb x c); rewrite IH; reflexivity.
Qed.

(** Quoting a field adds quote characters and nothing else. *)
Lemma count_write_field (c : ascii) (field : string) :
  Ascii.eqb Csv.quotechar c = false ->
  count_char c (Csv.write_field field) = count_char c field.
Proof.
  intros Hc. unfold Csv.write_field, Csv.quoted.
  destruct (all_chars _ field); [reflexivity|].
  cbn [count_char]. rewrite count_app, (count_double_quotes c field Hc).
  cbn [count_char]. rewrite !Hc. lia.
Qed.

Lemma uint_digits (d : Decimal.uint) :
  all_chars is_ascii_digit (NilEmpty.string_of_uint d) = true.
Proof. induction d; simpl; try reflexivity; exact IHd. Qed.

(** [str] of an [int] consists of digits and a sign. *)
Lemma str_of_int_chars (n : Z) :
  all_chars (fun c => is_ascii_digit c || Ascii.eqb c "-") (str_of_int n) = true.
Proof.
  assert (forall d, all_chars (fun c => is_ascii_digit c || Ascii.eqb c "-")
                              (NilZero.string_of_uint d) = true) as Hu.
  { intros d. unfold NilZero.string_of_uint.
    destruct d; try reflexivity;
      apply (all_chars_weaken is_ascii_digit);
      try (intros c ->; reflexivity); apply (uint_digits (_ d)). }
  unfold str_of_int, NilZero.string_of_int.
  destruct (Z.to_int n) as [d|d]; [apply Hu|]. simpl. apply Hu.
Qed.

Lemma str_of_int_plain (c : ascii) (n : Z) :
  is_ascii_digit c || Ascii.eqb c "-" = false ->
  count_char c (str_of_int n) = 0%nat.
Proof.
  intros Hc. apply count_absent.
  apply (all_chars_contains _ c _ (str_of_int_chars n) Hc).
Qed.

(** A record of three fields. *)
Lemma writerow_three (a b c : string) :
  Csv.writerow [a; b; c]
  = Csv.write_field a +:+ "," +:+ Csv.write_field b +:+ ","
    +:+ Csv.write_field c +:+ Csv.lineterminator.
Proof.
  unfold Csv.writerow. destruct a; cbn [map join];
    rewrite ?app_assoc; reflexivity.
Qed.

Lemma count_row (c : ascii) (r : CrawlResult) :
  Ascii.eqb Csv.quotechar c = false -> Ascii.eqb "," c = false ->
  is_ascii_digit c || Ascii.eqb c "-" = false ->
  count_char c (Csv.writerow (row_values r))
  = (count_char c (url r) + count_char c (label r)
     + count_char c Csv.lineterminator)%nat.
Proof.
  intros Hq Hcomma Hdigit. unfold row_values. rewrite writerow_three.
  rewrite !count_app, !(count_write_field c _ Hq), (str_of_int_plain c _ Hdigit).
  cbn [count_char]. rewrite Hcomma. cbn [count_char]. lia.
Qed.

Lemma count_rows (c : ascii) (rs : list CrawlResult) :
  Ascii.eqb Csv.quotechar c = false -> Ascii.eqb "," c = false ->
  is_ascii_digit c || Ascii.eqb c "-" = false ->
  Forall (fun r => contains c (url r) = false /\ contains c (label r) = false)
         rs ->
  count_char c (String.concat "" (map (fun r => Csv.writerow (row_values r)) rs))
  = (length rs * count_char c Csv.lineterminator)%nat.
Proof.
  intros Hq Hcomma Hdigit. induction 1 as [|r rs [Hu Hl] _ IH]; [reflexivity|].
  cbn [map length]. 
  assert (forall (x : string) (l : list string),
             count_char c (String.concat "" (x :: l))
             = (count_char c x + count_char c (String.concat "" l))%nat) as Hcat.
  { intros x l. destruct l as [|y l]; simpl.
    - lia.
    - rewrite count_app. reflexivity. }
  rewrite Hcat, IH, (count_row c r Hq Hcomma Hdigit),
    (count_absent c _ Hu), (count_absent c _ Hl).
  lia.
Qed.

Lemma labels_one_line :
  Forall (fun l => contains "010" l = false /\ contains "013" l = false)
         all_labels.
Proof. apply (bool_decide_unpack _). vm_compute. exact I. Qed.

End CsvFacts.

(** The file that [save_csv] writes starts with the header record, and
    when no URL and no label contains a line feed, it has one line feed
    for the header and one for each result: a result is one line of the
    file. *)
Theorem save_csv_one_line_each (results : list CrawlResult) :
  Forall (fun r => Py.contains "010" (url r) = false
                   /\ Py.contains "010" (label r) = false) results ->
  Py.startswith (save_csv results)
                ("url,status_code,label" +:+ Csv.lineterminator) = true
  /\ count_char "010" (save_csv results) = S (length results).
Proof.
  intros Hrs. split; [reflexivity|].
  unfold save_csv. rewrite CsvFacts.count_app.
  rewrite (CsvFacts.count_rows "010" results eq_refl eq_refl eq_refl Hrs).
  change (count_char "010" (Csv.writerow fieldnames)) with 1%nat.
  change (count_char "010" Csv.lineterminator) with 1%nat. lia.
Qed.

Lemma save_csv_one_line_each_witness :
  Py.startswith
    (save_csv [mkCrawlResult "http://example.com/a,b" 404 (result_label 404)])
    ("url,status_code,label" +:+ Csv.lineterminator) = true
  /\ count_char "010"
       (save_csv [mkCrawlResult "http://example.com/a,b" 404 (result_label 404)])
     = 2%nat.
Proof.
  apply (save_csv_one_line_each
           [mkCrawlResult "http://example.com/a,b" 404 (result_label 404)]).
  repeat constructor; vm_compute; reflexivity.
Defined.

(** ** [print_summary] *)

Module SummaryFacts.

(** [Counter(keys)[g]] is the number of occurrences of [g] in [keys]. *)
Lemma Counter_get (keys : list Z) (g : Z) :
  default 0%nat (Counter keys !! g) = length (List.filter (Z.eqb g) keys).
Proof.
  unfold Counter.
  enough (forall m : gmap Z nat,
             default 0%nat
               (foldl (fun counts k =>
                         <[k := S (default 0%nat (counts !! k))]> counts)
                      m keys !! g)
             = (default 0%nat (m !! g) + length (List.filter (Z.eqb g) keys))%nat)
    as H by (rewrite H, lookup_empty; reflexivity).
  induction keys as [|k keys IH]; intros m; simpl; [lia|].
  rewrite IH. destruct (Z.eqb_spec g k) as [->|Hne].
  - rewrite lookup_insert_eq. simpl. lia.
  - rewrite lookup_insert_ne by congruence. reflexivity.
Qed.

Lemma filter_map_length {A : Type} (f : A -> Z) (g : Z) (l : list A) :
  length (List.filter (Z.eqb g) (map f l))
  = length (List.filter (fun x => f x =? g) l).
Proof.
  induction l as [|x l IH]; simpl; [reflexivity|].
  rewrite (Z.eqb_sym g (f x)). destruct (f x =? g); simpl; rewrite IH; reflexivity.
Qed.

Lemma sorted_status_labels_eq :
  sorted_status_labels
  = [(2, "✅ OK"); (3, "↪️  Redirect"); (4, "❌ Client Error");
     (5, "⚠️  Server Error")].
Proof. vm_compute. reflexivity. Qed.

(** The groups that have a line in the summary, by status code. *)
Lemma shown_group (code : Z) :
  (status_group code =? 0) || (status_group code =? 2)
  || (status_group code =? 3) || (status_group code =? 4)
  || (status_group code =? 5)
  = (0 <=? code) && (code <? 100) || (200 <=? code) && (code <? 600).
Proof.
  unfold status_group.
  pose proof (Z.div_mod code 100 ltac:(lia)).
  pose proof (Z.mod_pos_bound code 100 ltac:(lia)).
  destruct (Z.eqb_spec code 0) as [->|Hnz]; [reflexivity|].
  apply eq_true_iff_eq.
  rewrite !orb_true_iff, !andb_true_iff, !Z.eqb_eq, !Z.leb_le, !Z.ltb_lt.
  lia.
Qed.

Lemma one_group (code : Z) :
  (Nat.b2n (Z.eqb (status_group code) 0) + Nat.b2n (Z.eqb (status_group code) 2)
   + Nat.b2n (Z.eqb (status_group code) 3)
   + Nat.b2n (Z.eqb (status_group code) 4)
   + Nat.b2n (Z.eqb (status_group code) 5))%nat
  = Nat.b2n ((status_group code =? 0) || (status_group code =? 2)
             || (status_group code =? 3) || (status_group code =? 4)
             || (status_group code =? 5)).
Proof.
  generalize (status_group code). intros g.
  destruct (Z.eqb_spec g 0), (Z.eqb_spec g 2), (Z.eqb_spec g 3),
    (Z.eqb_spec g 4), (Z.eqb_spec g 5); simpl; lia.
Qed.

Lemma filter_length_b2n {A : Type} (f : A -> bool) (l : list A) :
  length (List.filter f l) = list_sum (map (fun x => Nat.b2n (f x)) l).
Proof.
  induction l as [|x l IH]; simpl; [reflexivity|].
  destruct (f x); simpl; rewrite IH; reflexivity.
Qed.

Lemma shown_sum (rs : list CrawlResult) :
  let count := fun g : Z =>
                 length (List.filter
                           (fun r => status_group (r_status_code r) =? g) rs) in
  (count 0%Z + count 2%Z + count 3%Z + count 4%Z + count 5%Z)%nat
  = length (List.filter
              (fun r => (0 <=? r_status_code r) && (r_status_code r <? 100)
                        || (200 <=? r_status_code r) && (r_status_code r <? 600))
              rs).
Proof.
  cbv zeta. rewrite !filter_length_b2n.
  induction rs as [|r rs IH]; [reflexivity|].
  cbn [map list_sum fold_right].
  rewrite <- shown_group, <- one_group. unfold list_sum in IH. lia.
Qed.

End SummaryFacts.

(** The numbers of [print_summary].  The number kept for a group is the
    number of results of that group; the line of a class of status codes
    and the line of timeouts and errors show that number when it is not
    zero, and the total is the number of results.  The five numbers that
    can be shown add up to the number of results whose code is below 100
    (and not negative) or from 200 to 599: a result with another code is
    in the total and in no other line. *)
Theorem print_summary_counts (results : list CrawlResult) :
  let n := fun g : Z =>
             default 0%nat
               (Counter (map (fun r => status_group (r_status_code r)) results)
                !! g) in
  (forall g,
      n g = length (List.filter (fun r => status_group (r_status_code r) =? g)
                                results))
  /\ ("  Total: " +:+ str_of_int (Z.of_nat (length results)))
     ∈ print_summary results
  /\ (forall g label,
         STATUS_LABELS !! g = Some label -> (0 < n g)%nat ->
         ("  " +:+ label +:+ ": " +:+ str_of_int (Z.of_nat (n g)))
         ∈ print_summary results)
  /\ ((0 < n 0%Z)%nat ->
      ("  ⏱  Timeout/Error: " +:+ str_of_int (Z.of_nat (n 0)))
      ∈ print_summary results)
  /\ (n 0%Z + n 2%Z + n 3%Z + n 4%Z + n 5%Z)%nat
     = length (List.filter
                 (fun r => (0 <=? r_status_code r) && (r_status_code r <? 100)
                           || (200 <=? r_status_code r)
                              && (r_status_code r <? 600))
                 results).
Proof.
  intros n.
  assert (forall g,
             n g = length (List.filter
                             (fun r => status_group (r_status_code r) =? g)
                             results)) as Hn.
  { intros g. unfold n.
    rewrite SummaryFacts.Counter_get. apply SummaryFacts.filter_map_length. }
  split_and!.
  - exact Hn.
  - unfold print_summary. rewrite !elem_of_app. right. right. right. left.
    left.
  - intros g label Hg Hpos. unfold print_summary.
    rewrite SummaryFacts.sorted_status_labels_eq. cbn [flat_map].
    apply Nat.ltb_lt in Hpos. unfold n in Hpos |- *.
    destruct (decide (2 <= g <= 5)) as [Hc|Hc];
      [|rewrite (proj2 (STATUS_LABELS_class g) Hc) in Hg; discriminate].
    assert (g = 2 \/ g = 3 \/ g = 4 \/ g = 5) as [-> | [-> | [-> | ->]]] by lia;
      vm_compute in Hg; injection Hg as <-; rewrite Hpos;
      rewrite !elem_of_app; right; left.
    + left. left.
    + right. left. left.
    + right. right. left. left.
    + right. right. right. left. left.
  - intros Hpos. unfold print_summary.
    apply Nat.ltb_lt in Hpos. unfold n in Hpos |- *. rewrite Hpos.
    rewrite !elem_of_app. right. right. left. left.
  - rewrite !Hn. apply SummaryFacts.shown_sum.
Qed.

Lemma print_summary_counts_witness :
  ("  " +:+ "❌ Client Error" +:+ ": "
   +:+ str_of_int
         (Z.of_nat
            (default 0%nat
               (Counter
                  (map (fun r => status_group (r_status_code r))
                       [mkCrawlResult "http://example.com/x" 404
                                      (result_label 404)])
                !! 4))))
  ∈ print_summary [mkCrawlResult "http://example.com/x" 404 (result_label 404)].
Proof.
  apply (proj1 (proj2 (proj2
           (print_summary_counts
              [mkCrawlResult "http://example.com/x" 404 (result_label 404)])))
           4 "❌ Client Error"); [reflexivity | vm_compute; lia].
Defined.

(** ** [main] *)

Module MainFacts.

Import Py PyFacts.

Lemma contains_replace_char (c a b : ascii) (s : string) :
  Ascii.eqb b c = false -> contains c s = false ->
  contains c (replace_char a b s) = false.
Proof.
  intros Hb. induction s as [|x s IH]; simpl; [reflexivity|].
  destruct (Ascii.eqb x c) eqn:Hx; [discriminate|]. intros Hs.
  destruct (Ascii.eqb x a); [rewrite Hb | rewrite Hx]; exact (IH Hs).
Qed.

Lemma replace_char_gone (a b : ascii) (s : string) :
  Ascii.eqb b a = false -> contains a (replace_char a b s) = false.
Proof.
  intros Hb. induction s as [|x s IH]; simpl; [reflexivity|].
  destruct (Ascii.eqb x a) eqn:Hx; [rewrite Hb | rewrite Hx]; exact IH.
Qed.

End MainFacts.

(** The default name of the report: [site_], the netloc of the start URL
    with [_] for every dot, [_], the date and [.csv].  When the date
    contains no slash the name contains none, so that the file is
    written to the working directory; when the date contains no dot the
    only dot of the name is that of [.csv]. *)
Theorem default_output_name (url date name : string) :
  default_output url date = Ok name ->
  Py.startswith name "site_" = true
  /\ (Py.contains "/" date = false -> Py.contains "/" name = false)
  /\ (Py.contains "." date = false ->
      exists stem, name = stem +:+ ".csv" /\ Py.contains "." stem = false).
Proof.
  unfold default_output.
  destruct (UrlParse.urlparse url "") as [p|e] eqn:Hp; cbn [mbind result_bind];
    [|discriminate].
  intros <-%Ok_eq.
  pose proof (UrlStages.wf_netloc p (UrlFacts.urlparse_wf url p Hp)) as Hn.
  split_and!.
  - reflexivity.
  - intros Hdate. rewrite !PyFacts.contains_app.
    rewrite (MainFacts.contains_replace_char "/" "." "_" _ eq_refl)
      by (apply (UrlFacts.free_of_contains _ _ _ Hn); reflexivity).
    rewrite Hdate. reflexivity.
  - intros Hdate.
    exists ("site_" +:+ replace_char "." "_" (UrlParse.netloc p) +:+ "_" +:+ date).
    split; [rewrite !PyFacts.app_assoc; reflexivity|].
    rewrite !PyFacts.contains_app, (MainFacts.replace_char_gone "." "_" _ eq_refl),
      Hdate.
    reflexivity.
Qed.

Lemma default_output_name_witness :
  Py.startswith "site_www_example_com:8080_20240131_120000.csv" "site_" = true
  /\ (Py.contains "/" "20240131_120000" = false ->
      Py.contains "/" "site_www_example_com:8080_20240131_120000.csv" = false)
  /\ (Py.contains "." "20240131_120000" = false ->
      exists stem,
        "site_www_example_com:8080_20240131_120000.csv" = stem +:+ ".csv"
        /\ Py.contains "." stem = false).
Proof.
  apply (default_output_name "https://www.example.com:8080/a/b.html"
           "20240131_120000").
  vm_compute. reflexivity.
Defined.

(** What [main] leaves behind: the results of the crawl of [args.url]
    as a CSV text under the given name, or under the default name when
    none is given, and their summary.  The text has one line for the
    header and one for each result, and there are at most [max_pages]
    results. *)
Theorem main_report {World : Type}
        (session_get : string -> Z -> World -> GetOutcome * World)
        (time_sleep : World -> World)
        (BeautifulSoup : string -> list PageElement)
        (args : Args.t) (date : string) (w : World) (report : Report) :
  main session_get time_sleep BeautifulSoup args date w = Ok report ->
  exists rs,
    crawl session_get time_sleep BeautifulSoup (Args.url args)
          (Args.max_pages args) (Args.timeout args) (Args.external args) w
    = Ok rs
    /\ csv_text report = save_csv rs
    /\ summary report = print_summary rs
    /\ (Py.truthy (Args.output args) = true ->
        csv_path report = Args.output args)
    /\ (Args.output args = "" ->
        default_output (Args.url args) date = Ok (csv_path report))
    /\ count_char "010" (csv_text report) = S (length rs)
    /\ Z.of_nat (length rs) <= Z.max 0 (Args.max_pages args).
Proof.
  unfold main. intros (output & Hout & H)%bind_Ok.
  apply bind_Ok in H as (rs & Hrs & [= <-]). exists rs. cbn [csv_path csv_text summary].
  split_and!; try reflexivity.
  - exact Hrs.
  - intros Ht. rewrite Ht in Hout. congruence.
  - intros He. rewrite He in Hout. exact Hout.
  - unfold save_csv. rewrite CsvFacts.count_app.
    rewrite (CsvFacts.count_rows "010" rs eq_refl eq_refl eq_refl).
    + change (count_char "010" (Csv.writerow fieldnames)) with 1%nat.
      change (count_char "010" Csv.lineterminator) with 1%nat. lia.
    + apply Forall_forall. intros r Hr.
      destruct (crawl_results_normalised _ _ _ _ _ _ _ _ _ Hrs r Hr)
        as (Hlabel & j & Hj).
      split; [apply (UrlMore.normalise_clean j (url r) Hj)|].
      rewrite Hlabel.
      pose proof CsvFacts.labels_one_line as Hall.
      rewrite Forall_forall in Hall.
      apply (Hall _ (result_label_range (r_status_code r))).
  - exact (crawl_within_budget _ _ _ _ _ _ _ _ _ Hrs).
Qed.

Lemma main_report_witness :
  exists rs,
    crawl Example.get Example.sleep Example.soup Example.seed 2 10 false []
    = Ok rs
    /\ csv_text (mkReport "out.csv"
                   (save_csv [mkCrawlResult Example.seed 200 (result_label 200);
                              mkCrawlResult Example.page_b 200 (result_label 200)])
                   (print_summary
                      [mkCrawlResult Example.seed 200 (result_label 200);
                       mkCrawlResult Example.page_b 200 (result_label 200)]))
       = save_csv rs.
Proof.
  destruct (main_report Example.get Example.sleep Example.soup
              (Args.mk Example.seed "out.csv" 2 10 false) "20240131_120000" []
              (mkReport "out.csv"
                 (save_csv [mkCrawlResult Example.seed 200 (result_label 200);
                            mkCrawlResult Example.page_b 200 (result_label 200)])
                 (print_summary
                    [mkCrawlResult Example.seed 200 (result_label 200);
                     mkCrawlResult Example.page_b 200 (result_label 200)])))
    as (rs & Hrs & Htext & _).
  - vm_compute. reflexivity.
  - exists rs. split; assumption.
Defined.

(** ** The fetcher *)

Lemma request_world {World : Type}
      (session_get : string -> Z -> World -> GetOutcome * World)
      (url : string) (timeout : Z) (w : World) :
  (request session_get url timeout w).2 = (session_get url timeout w).2.
Proof.
  unfold request. destruct (session_get url timeout w) as [[resp| | |] w'];
    reflexivity.
Qed.

(** A URL that answers every request with a status of the force list,
    without the header [Retry-After], is requested four times, with
    waits of 2 and 4 seconds before the third and the fourth request;
    then the fetch gives up with an exception, and the crawl records the
    URL with the code 0 and the label of timeouts and errors, not with
    the status that the server sent. *)
Theorem fetch_gives_up (serve : string -> nat -> GetOutcome)
        (retry_after : string -> nat -> option Fetcher.RetryAfter)
        (transport_retryable : string -> GetOutcome -> bool)
        (time_sleep : Fetcher.Net -> Fetcher.Net)
        (BeautifulSoup : string -> list PageElement)
        (url : string) (max_pages timeout : Z) (include_external : bool) :
  (forall k, (k <= 3)%nat ->
             exists resp, serve url k = Returned resp
                          /\ status_code resp ∈ [429; 500; 502; 503; 504]) ->
  (forall k, (k <= 3)%nat -> retry_after url k = None) ->
  normalise url = Ok url ->
  1 <= max_pages ->
  Fetcher.fetch serve retry_after transport_retryable retry "GET" url
                (Fetcher.mkNet [] [])
  = (RaisedRequestException, Fetcher.mkNet [url; url; url; url] [2; 4])
  /\ crawl (Fetcher.session_get serve retry_after transport_retryable retry)
           time_sleep BeautifulSoup url max_pages timeout include_external
           (Fetcher.mkNet [] [])
     = Ok [mkCrawlResult url 0 TIMEOUT_LABEL].
Proof.
  intros Hserve Hheader Hnorm Hpages.
  destruct (Hserve 0%nat ltac:(lia)) as (r0 & H0 & S0).
  destruct (Hserve 1%nat ltac:(lia)) as (r1 & H1 & S1).
  destruct (Hserve 2%nat ltac:(lia)) as (r2 & H2 & S2).
  destruct (Hserve 3%nat ltac:(lia)) as (r3 & H3 & S3).
  assert (forall left status has_header,
             status ∈ [429; 500; 502; 503; 504] ->
             Fetcher.is_retry retry left "GET" status has_header = true)
    as Hforce.
  { intros left status has_header Hs. apply is_retry_spec.
    split; [exists "GET"; split; [reflexivity|constructor]|left; exact Hs]. }
  assert (Fetcher.fetch serve retry_after transport_retryable retry "GET" url
                        (Fetcher.mkNet [] [])
          = (RaisedRequestException,
             Fetcher.mkNet [url; url; url; url] [2; 4])) as Hfetch.
  { unfold Fetcher.fetch. change (Z.to_nat (total retry)) with 3%nat.
    rewrite (fetch_from_response _ _ _ _ _ _ _ _ _ r0) by exact H0.
    cbn [Fetcher.sent Fetcher.slept List.filter length app]. cbv zeta.
    rewrite (Hheader 0%nat) by lia. rewrite (Hforce _ _ _ S0).
    change (Fetcher.sleep retry 1 (Some None) ?net) with (Some net).
    cbv iota.
    rewrite (fetch_from_response _ _ _ _ _ _ _ _ _ r1);
      cbn [Fetcher.sent Fetcher.slept List.filter length app];
      rewrite String.eqb_refl; cbn [length]; [|exact H1].
    cbv zeta. rewrite (Hheader 1%nat) by lia. rewrite (Hforce _ _ _ S1).
    change (Fetcher.sleep retry 2 (Some None) ?net)
      with (Some (Fetcher.time_sleep 2 net)).
    cbv iota. unfold Fetcher.time_sleep. cbn [Fetcher.sent Fetcher.slept app].
    rewrite (fetch_from_response _ _ _ _ _ _ _ _ _ r2);
      cbn [Fetcher.sent Fetcher.slept List.filter length app];
      rewrite !String.eqb_refl; cbn [length]; [|exact H2].
    cbv zeta. rewrite (Hheader 2%nat) by lia. rewrite (Hforce _ _ _ S2).
    change (Fetcher.sleep retry 3 (Some None) ?net)
      with (Some (Fetcher.time_sleep 4 net)).
    cbv iota. unfold Fetcher.time_sleep. cbn [Fetcher.sent Fetcher.slept app].
    rewrite (fetch_from_response _ _ _ _ _ _ _ _ _ r3);
      cbn [Fetcher.sent Fetcher.slept List.filter length app];
      rewrite !String.eqb_refl; cbn [length]; [|exact H3].
    cbv zeta. rewrite (Hforce _ _ _ S3). reflexivity. }
  split; [exact Hfetch|].
  unfold crawl, crawl_run. rewrite Hnorm. cbn [mbind result_bind].
  destruct (Z.to_nat max_pages) as [|fuel] eqn:Hfuel; [lia|].
  cbn [crawl_loop initial_state queue results length].
  destruct (Z.ltb_spec (Z.of_nat 0) max_pages) as [_|Hge]; [|simpl in Hge; lia].
  unfold crawl_step, request, Fetcher.session_get.
  unfold initial_state. cbn [world queue visited results].
  rewrite Hfetch.
  cbn [Py.truthy Py.is_empty negb mbind result_bind fst snd queue visited
       results tail app].
  rewrite crawl_loop_empty_queue by reflexivity. reflexivity.
Qed.

Lemma fetch_gives_up_witness :
  crawl (Fetcher.session_get
           (fun _ _ => Returned (mkResponse 503 (Some "text/html") "busy"))
           Fetcher.no_header (fun _ _ => false) retry)
        (fun net => net) Example.soup "http://example.com/busy" 5 10 false
        (Fetcher.mkNet [] [])
  = Ok [mkCrawlResult "http://example.com/busy" 0 TIMEOUT_LABEL].
Proof.
  refine (proj2 (fetch_gives_up
                   (fun _ _ => Returned (mkResponse 503 (Some "text/html") "busy"))
                   Fetcher.no_header (fun _ _ => false) (fun net => net)
                   Example.soup "http://example.com/busy" 5 10 false _ _ _ _)).
  - intros k _. eexists. split; [reflexivity|]. repeat constructor.
  - intros k _. reflexivity.
  - vm_compute. reflexivity.
  - lia.
Defined.

(** A crawl with the retry policy of [crawl] sends at most four
    requests for each result, so at most [4 * max_pages] requests in
    all. *)
Theorem crawl_request_bound (serve : string -> nat -> GetOutcome)
        (retry_after : string -> nat -> option Fetcher.RetryAfter)
        (transport_retryable : string -> GetOutcome -> bool)
        (time_sleep : Fetcher.Net -> Fetcher.Net)
        (BeautifulSoup : string -> list PageElement)
        (seed : string) (max_pages timeout : Z) (include_external : bool)
        (net : Fetcher.Net) (st : @State Fetcher.Net) :
  (forall n, Fetcher.sent (time_sleep n) = Fetcher.sent n) ->
  crawl_run (Fetcher.session_get serve retry_after transport_retryable retry) time_sleep
            BeautifulSoup seed max_pages timeout include_external net = Ok st ->
  (length (Fetcher.sent (world st))
   <= length (Fetcher.sent net) + 4 * length (results st))%nat
  /\ Z.of_nat (length (results st)) <= Z.max 0 max_pages.
Proof.
  intros Hsleep. unfold crawl_run.
  destruct (normalise seed) as [s|e]; cbn [mbind result_bind]; [|discriminate].
  intros Hloop. split.
  - revert Hloop.
    apply (crawl_loop_invariant
             (Fetcher.session_get serve retry_after transport_retryable retry) time_sleep
             BeautifulSoup s max_pages timeout include_external
             (fun x => (length (Fetcher.sent (world x))
                        <= length (Fetcher.sent net) + 4 * length (results x))%nat)).
    + intros u x x' Hx _ _ Hstep.
      apply crawl_step_effect in Hstep
        as (code & html & w & new & Hreq & -> & -> & _).
      pose proof (request_world
                    (Fetcher.session_get serve retry_after transport_retryable retry)
                    u timeout (world x)) as Hw.
      rewrite Hreq in Hw. cbn [snd] in Hw. subst w.
      rewrite Hsleep, length_app. cbn [length].
      pose proof (fetch_from_attempts serve retry_after transport_retryable retry 3 0
                    "GET" u (world x)) as Hcap.
      unfold Fetcher.session_get, Fetcher.fetch.
      change (Z.to_nat (total retry)) with 3%nat. lia.
    + simpl. lia.
  - apply (crawl_loop_budget
             (Fetcher.session_get serve retry_after transport_retryable retry) time_sleep
             BeautifulSoup s max_pages timeout include_external
             (Z.to_nat max_pages) (initial_state s net) st);
      [simpl; lia | exact Hloop].
Qed.

Lemma crawl_request_bound_witness :
  exists st,
    crawl_run (Fetcher.session_get Fetcher.flaky Fetcher.no_header (fun _ _ => false)
                                   retry)
              (fun net => net) Example.soup "http://example.com/flaky" 10 10
              false (Fetcher.mkNet [] []) = Ok st
    /\ (length (Fetcher.sent (world st))
        <= length (Fetcher.sent (Fetcher.mkNet [] []))
           + 4 * length (results st))%nat.
Proof.
  eexists. split; [vm_compute; reflexivity|].
  apply (crawl_request_bound Fetcher.flaky Fetcher.no_header (fun _ _ => false)
           (fun net => net)
           Example.soup "http://example.com/flaky" 10 10 false
           (Fetcher.mkNet [] [])).
  - reflexivity.
  - vm_compute. reflexivity.
Defined.
